(** * GOELink: recurring-schedule expansion, calendar projection and search

    A shallow embedding of the three computations of [js/app.js] that the
    specification singles out:

    - the recurrence loop of the schedule form's [onsubmit] handler
      (lines 857-927),
    - [transformEvents] (lines 636-693),
    - the search box's [input] handler (lines 479-512).

    The handlers call into the ECMAScript [Date] object and [String]
    methods.  Those built-ins are modelled first, following the abstract
    operations of ECMA-262 (Day, TimeWithinDay, DayFromYear, YearFromTime,
    MonthFromTime, DateFromTime, MakeDay, MakeDate, LocalTime, UTC,
    TimeClip).  Two things the code reads from its host are parameters of
    the model: the local time zone adjustment, taken to be a constant
    offset from UTC, and the current time.

    Around them the file follows the code they sit in: the repeat options
    of the form and what the form sends to the backend, the department
    filter and the click handler of the calendar, the login form, the
    session state and the permission checks, navigation between the
    views, and the spreadsheet import.  Backend calls and page fetches
    enter these models through their outcomes.

    The first part of the file holds the definitions, the second part the
    properties proved about them. *)

From Stdlib Require Import ZArith List String Ascii Lia Bool DecimalString.
From stdpp Require Import base gmap strings list.
From Equations Require Import Equations.
From Stdlib Require QArith.

Local Open Scope Z_scope.

(** ** ECMAScript time values and the proleptic Gregorian calendar *)

Module ESDate.

Definition msPerDay : Z := 86400000.

Definition Day (t : Z) : Z := t / msPerDay.
Definition TimeWithinDay (t : Z) : Z := t mod msPerDay.

Definition DaysInYear (y : Z) : Z :=
  if negb (y mod 4 =? 0) then 365
  else if negb (y mod 100 =? 0) then 366
  else if negb (y mod 400 =? 0) then 365
  else 366.

Definition DayFromYear (y : Z) : Z :=
  365 * (y - 1970) + (y - 1969) / 4 - (y - 1901) / 100 + (y - 1601) / 400.

(** ECMA-262 defines YearFromTime(t) as the largest [y] with
    [TimeFromYear y <= t].  It is computed from an estimate on the mean
    Gregorian year (146097 days per 400 years) corrected by at most one;
    [YearFromDay_spec] below shows that this is the year of the
    definition. *)
Definition YearFromDay (d : Z) : Z :=
  let y := 1970 + (400 * d) / 146097 in
  if d <? DayFromYear y then y - 1
  else if DayFromYear (y + 1) <=? d then y + 1
  else y.

Definition YearFromTime (t : Z) : Z := YearFromDay (Day t).

(** InLeapYear as the number 0 or 1. *)
Definition LeapOfYear (y : Z) : Z := DaysInYear y - 365.
Definition InLeapYear (t : Z) : Z := LeapOfYear (YearFromTime t).

Definition DayWithinYear (t : Z) : Z := Day t - DayFromYear (YearFromTime t).

(** Number of days of the year that precede month [m] (0 = January). *)
Definition DaysBeforeMonth (leap m : Z) : Z :=
  if m =? 0 then 0
  else if m =? 1 then 31
  else if m =? 2 then 59 + leap
  else if m =? 3 then 90 + leap
  else if m =? 4 then 120 + leap
  else if m =? 5 then 151 + leap
  else if m =? 6 then 181 + leap
  else if m =? 7 then 212 + leap
  else if m =? 8 then 243 + leap
  else if m =? 9 then 273 + leap
  else if m =? 10 then 304 + leap
  else 334 + leap.

Definition MonthOfYearDay (leap dwy : Z) : Z :=
  if dwy <? 31 then 0
  else if dwy <? 59 + leap then 1
  else if dwy <? 90 + leap then 2
  else if dwy <? 120 + leap then 3
  else if dwy <? 151 + leap then 4
  else if dwy <? 181 + leap then 5
  else if dwy <? 212 + leap then 6
  else if dwy <? 243 + leap then 7
  else if dwy <? 273 + leap then 8
  else if dwy <? 304 + leap then 9
  else if dwy <? 334 + leap then 10
  else 11.

Definition MonthFromTime (t : Z) : Z :=
  MonthOfYearDay (InLeapYear t) (DayWithinYear t).

Definition DateFromTime (t : Z) : Z :=
  DayWithinYear t - DaysBeforeMonth (InLeapYear t) (MonthFromTime t) + 1.

(** MakeDay(year, month, date): months outside 0..11 carry into the year,
    dates outside the month carry into the following (or preceding)
    months. *)
Definition MakeDay (year month date : Z) : Z :=
  let ym := year + month / 12 in
  let mn := month mod 12 in
  DayFromYear ym + DaysBeforeMonth (LeapOfYear ym) mn + date - 1.

Definition MakeDate (day time : Z) : Z := day * msPerDay + time.

Definition DaysInMonth (y m : Z) : Z :=
  MakeDay y (m + 1) 1 - MakeDay y m 1.

End ESDate.

(** ** Numbers and Date objects

    Only integral numbers and NaN occur in the modelled code, so a JS
    number is an integer or [None] for NaN.  A Date object is its time
    value, a number of milliseconds since the epoch or NaN ("Invalid
    Date"). *)

Definition number := option Z.

Module JSDate.
Import ESDate.

Definition Date := number.

Definition maxTime : Z := 8640000000000000.

Definition TimeClip (t : Z) : number :=
  if Z.abs t <=? maxTime then Some t else None.

(** [new Date(value)] for a number. *)
Definition Date_of_number (v : number) : Date := v ≫= TimeClip.

Definition getTime (d : Date) : number := d.

(** [a + b] and [a - b] on numbers. *)
Definition num_add (a b : number) : number := x ← a; y ← b; Some (x + y).
Definition num_sub (a b : number) : number := x ← a; y ← b; Some (x - y).

(** [a <= b] on numbers (and on Dates, which are compared through their
    time values): false as soon as one side is NaN. *)
Definition num_le (a b : number) : bool :=
  match a, b with
  | Some x, Some y => x <=? y
  | _, _ => false
  end.

Section LocalZone.

(** The local time zone adjustment of the host, in milliseconds, taken
    constant (a zone without daylight-saving transitions, such as
    Asia/Seoul, +9h). *)
Variable LocalTZA : Z.

Definition LocalTime (t : Z) : Z := t + LocalTZA.
Definition UTC (t : Z) : Z := t - LocalTZA.

Definition getFullYear (d : Date) : number :=
  t ← d; Some (YearFromTime (LocalTime t)).
Definition getMonth (d : Date) : number :=
  t ← d; Some (MonthFromTime (LocalTime t)).
Definition getDate (d : Date) : number :=
  t ← d; Some (DateFromTime (LocalTime t)).

(** [d.setDate(date)] and [d.setMonth(month)]; the result is the new time
    value of [d]. *)
Definition setDate (d : Date) (date : number) : Date :=
  t ← d; dt ← date;
  let t := LocalTime t in
  let newDate :=
    MakeDate (MakeDay (YearFromTime t) (MonthFromTime t) dt) (TimeWithinDay t) in
  TimeClip (UTC newDate).

Definition setMonth (d : Date) (month : number) : Date :=
  t ← d; m ← month;
  let t := LocalTime t in
  let dt := DateFromTime t in
  let newDate :=
    MakeDate (MakeDay (YearFromTime t) m dt) (TimeWithinDay t) in
  TimeClip (UTC newDate).

End LocalZone.

End JSDate.

(** ** Strings

    JavaScript strings are modelled by [string]; the characters that
    matter to the modelled code (digits, ["-"], ["T"], ASCII letters and
    white space) are single code units in both.  Characters outside ASCII
    are carried along unchanged. *)

Module JSString.

Definition code (c : ascii) : Z := Z.of_N (N_of_ascii c).

(** [a <= b] on strings compares code units lexicographically. *)
Definition str_le (a b : string) : bool := String.leb a b.

(** [s.substring(start, end)], indices clamped to the length of [s]. *)
Definition substring (s : string) (start end_ : nat) : string :=
  String.substring (Nat.min start end_) (Nat.max start end_ - Nat.min start end_) s.

Definition lower_char (c : ascii) : ascii :=
  if (65 <=? code c) && (code c <=? 90)
  then ascii_of_N (N_of_ascii c + 32) else c.

(** [s.toLowerCase()] *)
Fixpoint toLowerCase (s : string) : string :=
  match s with
  | EmptyString => EmptyString
  | String c s' => String (lower_char c) (toLowerCase s')
  end.

(** White space and line terminators of ECMA-262 within ASCII: TAB, LF,
    VT, FF, CR and SP. *)
Definition is_space (c : ascii) : bool :=
  ((9 <=? code c) && (code c <=? 13)) || (code c =? 32).

Fixpoint trimStart (s : string) : string :=
  match s with
  | EmptyString => EmptyString
  | String c s' => if is_space c then trimStart s' else s
  end.

Fixpoint trimEnd (s : string) : string :=
  match s with
  | EmptyString => EmptyString
  | String c s' =>
      match trimEnd s' with
      | EmptyString => if is_space c then EmptyString else String c EmptyString
      | r => String c r
      end
  end.

(** [s.trim()] *)
Definition trim (s : string) : string := trimEnd (trimStart s).

Fixpoint startsWith (s p : string) : bool :=
  match p, s with
  | EmptyString, _ => true
  | String _ _, EmptyString => false
  | String b p', String a s' => Ascii.eqb a b && startsWith s' p'
  end.

(** [s.includes(q)]: [q] occurs in [s] as a contiguous run of code
    units. *)
Fixpoint includes (s q : string) : bool :=
  startsWith s q ||
  match s with
  | EmptyString => false
  | String _ s' => includes s' q
  end.

(** [s.split(sep)[0]] for a one-character separator: the part of [s]
    before the first occurrence of [sep], all of [s] when there is none. *)
Fixpoint split_first (sep : ascii) (s : string) : string :=
  match s with
  | EmptyString => EmptyString
  | String c s' => if Ascii.eqb c sep then EmptyString else String c (split_first sep s')
  end.

(** Number-to-string conversion of an integral number (template literal
    interpolation), below the 1e21 threshold of exponent notation. *)
Definition Number_toString (n : Z) : string :=
  NilZero.string_of_int (Z.to_int n).

(** Decimal digits. *)
Definition digit (n : Z) : ascii := ascii_of_N (Z.to_N (48 + n mod 10)).

Definition digit_val (c : ascii) : option Z :=
  if (48 <=? code c) && (code c <=? 57) then Some (code c - 48) else None.

(** Zero-padded decimal fields of fixed width (the low digits of [n]). *)
Definition pad2 (n : Z) : string :=
  String (digit (n / 10)) (String (digit n) EmptyString).
Definition pad3 (n : Z) : string := String (digit (n / 100)) (pad2 n).
Definition pad4 (n : Z) : string := String (digit (n / 1000)) (pad3 n).
Definition pad6 (n : Z) : string :=
  String (digit (n / 100000)) (String (digit (n / 10000)) (pad4 n)).

(** [sep] does not occur in [s]. *)
Fixpoint lacks (sep : ascii) (s : string) : bool :=
  match s with
  | EmptyString => true
  | String c s' => negb (Ascii.eqb c sep) && lacks sep s'
  end.

End JSString.

(** ** Completions

    A computation either returns normally or throws.  The only exception
    the modelled code can raise is the [RangeError] of
    [Date.prototype.toISOString] on an invalid Date. *)

Inductive exception := RangeError.

Inductive completion (A : Type) :=
| Normal (a : A)
| Throw (e : exception).
Arguments Normal {A} a.
Arguments Throw {A} e.

#[global] Instance completion_ret : MRet completion := @Normal.
#[global] Instance completion_bind : MBind completion := fun A B f m =>
  match m with
  | Normal a => f a
  | Throw e => Throw e
  end.
#[global] Instance completion_fmap : FMap completion := fun A B f m =>
  match m with
  | Normal a => Normal (f a)
  | Throw e => Throw e
  end.

(** ** Dates as strings: [toISOString] and [new Date(string)] *)

Module ISO.
Import ESDate JSDate JSString.

Definition HourFromTime (t : Z) : Z := (t / 3600000) mod 24.
Definition MinFromTime (t : Z) : Z := (t / 60000) mod 60.
Definition SecFromTime (t : Z) : Z := (t / 1000) mod 60.
Definition msFromTime (t : Z) : Z := t mod 1000.

(** Years 0..9999 print as four digits, all others as a sign and six
    digits. *)
Definition year_string (y : Z) : string :=
  if (0 <=? y) && (y <=? 9999) then pad4 y
  else String (if 0 <=? y then "+"%char else "-"%char) (pad6 (Z.abs y)).

Definition isoDate (t : Z) : string :=
  year_string (YearFromTime t) +:+ "-" +:+ pad2 (MonthFromTime t + 1) +:+ "-"
    +:+ pad2 (DateFromTime t).

Definition isoTime (t : Z) : string :=
  pad2 (HourFromTime t) +:+ ":" +:+ pad2 (MinFromTime t) +:+ ":"
    +:+ pad2 (SecFromTime t) +:+ "." +:+ pad3 (msFromTime t).

(** [d.toISOString()]: always in UTC; an invalid Date throws. *)
Definition toISOString (d : Date) : completion string :=
  match d with
  | None => Throw RangeError
  | Some t => Normal (isoDate t +:+ "T" +:+ isoTime t +:+ "Z")
  end.

(** The three numeric fields of a date-only string [YYYY-MM-DD] of the
    ECMAScript date-time string format. *)
Definition date_fields (s : string) : option (Z * Z * Z) :=
  match s with
  | String y3 (String y2 (String y1 (String y0 (String s1
      (String m1 (String m0 (String s2 (String d1 (String d0 EmptyString))))))))) =>
      if Ascii.eqb s1 "-" && Ascii.eqb s2 "-" then
        a3 ← digit_val y3; a2 ← digit_val y2; a1 ← digit_val y1; a0 ← digit_val y0;
        b1 ← digit_val m1; b0 ← digit_val m0;
        c1 ← digit_val d1; c0 ← digit_val d0;
        Some (1000 * a3 + 100 * a2 + 10 * a1 + a0, 10 * b1 + b0, 10 * c1 + c0)
      else None
  | _ => None
  end.

(** [new Date(s)] for the values an [<input type="date">] can hold: a
    date-only string that names a day of the calendar is read as midnight
    UTC of that day.  Every other string (the empty value of a cleared
    input among them) gives an invalid Date. *)
Definition Date_of_string (s : string) : Date :=
  '(y, m, d) ← date_fields s;
  if (1 <=? m) && (m <=? 12) && (1 <=? d) && (d <=? DaysInMonth y (m - 1))
  then TimeClip (MakeDate (MakeDay y (m - 1) d) 0)
  else None.

(** The date part of the ISO string of day number [n]. *)
Definition date_of_day (n : Z) : string := isoDate (MakeDate n 0).

End ISO.

(** ** The schedule form: recurrence generation ([form.onsubmit]) *)

Module Recurrence.
Import ESDate JSDate JSString ISO.

(** [baseData]: the fields every generated row shares. *)
Record baseData := {
  title : string;
  dept_id : string;
  visibility : string;
  description : string;
  is_printable : bool;
  author_id : string
}.

(** A row of [batchData]: [{ ...baseData, start_date, end_date }]. *)
Record schedule_row := {
  base : baseData;
  start_date : string;
  end_date : string
}.

(** What the handler does with the form: it either shows the alert of
    lines 886-890 and returns, nothing being saved (the specification's
    [InvalidRecurrenceRange]), or hands [batchData] to the backend. *)
Inductive submission :=
| InvalidRecurrenceRange
| Save (batchData : list schedule_row).

(** The variables the [while] loop updates. *)
Record loop_state := {
  curr : Date;
  limit : Z;
  batchData : list schedule_row
}.

Section Handler.

Variable LocalTZA : Z.
Variable data : baseData.

(** Lines 912-914: advance [curr] by the chosen frequency; any other value
    of the select leaves it where it is. *)
Definition next_step (freq : string) (curr : Date) : Date :=
  if String.eqb freq "weekly" then
    setDate LocalTZA curr (num_add (getDate LocalTZA curr) (Some 7))
  else if String.eqb freq "biweekly" then
    setDate LocalTZA curr (num_add (getDate LocalTZA curr) (Some 14))
  else if String.eqb freq "monthly" then
    setMonth LocalTZA curr (num_add (getMonth LocalTZA curr) (Some 1))
  else curr.

(** Line 901. *)
Definition loop_cond (until : Date) (st : loop_state) : bool :=
  num_le (curr st) until && (limit st <? 52).

(** Lines 902-909: the row pushed in one iteration. *)
Definition loop_row (durationMs : number) (st : loop_state) : completion schedule_row :=
  loopStart ← split_first "T" <$> toISOString (curr st);
  loopEnd ← split_first "T" <$>
    toISOString (Date_of_number (num_add (getTime (curr st)) durationMs));
  mret {| base := data; start_date := loopStart; end_date := loopEnd |}.

(** Lines 901-917.  The loop is total because [limit] grows by one in
    every iteration and the condition caps it at 52. *)
Equations? while_loop (durationMs : number) (until : Date) (freq : string)
    (st : loop_state) : completion loop_state
    by wf (Z.to_nat (52 - limit st)) lt :=
  while_loop durationMs until freq st with Logic.inspect (loop_cond until st) := {
    | exist _ true Hcond with loop_row durationMs st := {
        | Throw e => Throw e
        | Normal row =>
            while_loop durationMs until freq
              {| curr := next_step freq (curr st);
                 limit := limit st + 1;
                 batchData := batchData st ++ [row] |} }
    | exist _ false Hcond => Normal st }.
Proof.
  unfold loop_cond in Hcond. apply andb_prop in Hcond as [_ Hlt].
  apply Z.ltb_lt in Hlt. simpl. lia.
Qed.

(** The state after an iteration that pushed [row]. *)
Definition next_state (freq : string) (st : loop_state) (row : schedule_row) : loop_state :=
  {| curr := next_step freq (curr st);
     limit := limit st + 1;
     batchData := batchData st ++ [row] |}.

(** [iterates n st st']: [n] iterations of the loop body, each entered
    with a true condition and completed without exception, lead from
    [st] to [st']. *)
Inductive iterates (durationMs : number) (until : Date) (freq : string)
  : nat -> loop_state -> loop_state -> Prop :=
| iterates_O st : iterates durationMs until freq 0 st st
| iterates_S n st row st' :
    loop_cond until st = true ->
    loop_row durationMs st = Normal row ->
    iterates durationMs until freq n (next_state freq st row) st' ->
    iterates durationMs until freq (S n) st st'.

(** Lines 880-927: the computation of [batchData]. *)
Definition build_batch (isRecurring : bool)
    (startDateStr endDateStr untilStr freq : string) : completion submission :=
  if isRecurring then
    if str_le untilStr startDateStr then mret InvalidRecurrenceRange
    else
      let d1 := Date_of_string startDateStr in
      let d2 := Date_of_string endDateStr in
      let durationMs := num_sub d2 d1 in
      let curr := Date_of_string startDateStr in
      let until := Date_of_string untilStr in
      st ← while_loop durationMs until freq
             {| curr := curr; limit := 0; batchData := [] |};
      mret (Save
        (if (Z.of_nat (length (batchData st)) =? 0)
         then batchData st ++
                [{| base := data; start_date := startDateStr; end_date := endDateStr |}]
         else batchData st))
  else
    mret (Save [{| base := data; start_date := startDateStr; end_date := endDateStr |}]).

(** The specification's [expand]: the handler on a new, repeating
    schedule. *)
Definition expand := build_batch true.

End Handler.

(** A row whose two dates are [D] days apart. *)
Definition spans (D : Z) (r : schedule_row) : Prop :=
  exists n, start_date r = date_of_day n /\ end_date r = date_of_day (n + D).

(** What the loop maintains when the three dates are valid: the cursor is
    not before the start, and every row pushed spans the template's
    duration. *)
Definition loop_invariant (ts D : Z) (st : loop_state) : Prop :=
  (forall c, curr st = Some c -> ts <= c) /\ Forall (spans D) (batchData st).

End Recurrence.

(** ** Calendar data: departments, schedules, settings, events *)

(** A row of the [departments] table. *)
Module Department.
Record t := {
  id : string;
  dept_name : string;
  dept_color : option string;
  is_active : bool;
  sort_order : Z
}.
End Department.

(** A row of the [schedules] table.  [description] may be null. *)
Module Schedule.
Record t := {
  id : string;
  title : string;
  start_date : string;
  end_date : string;
  dept_id : string;
  description : option string;
  visibility : string;
  is_printable : bool
}.
End Schedule.

(** The settings row.  Each of the two holiday objects is given by its
    entries in the order [Object.entries] enumerates them (keys that are
    canonical array indices such as ["1225"] first, in ascending order,
    then the other keys such as ["0301"] in insertion order); any of the
    three fields may be missing. *)
Module Settings.
Record t := {
  fixed_holidays : option (list (string * string));
  variable_holidays : option (list (string * string));
  academic_year : option Z
}.
End Settings.

(** The objects handed to FullCalendar.  A property that an object
    literal does not set is [None]. *)
Module Event.
Record props := {
  deptId : string;
  description : option string;
  visibility : string;
  isPrintable : bool
}.
Record t := {
  id : option string;
  title : string;
  start : string;
  end_ : option string;
  display : option string;
  className : option string;
  allDay : option bool;
  backgroundColor : option string;
  borderColor : option string;
  extendedProps : option props
}.
End Event.

(** ** [transformEvents] *)

Module Projection.
Import ESDate JSDate JSString.

(** [events.push(e)] *)
Definition push {A} (events : list A) (e : A) : list A := events ++ [e].

(** [x || fallback] for a string or missing [x]: the empty string is
    falsy. *)
Definition string_or (x : option string) (fallback : string) : string :=
  match x with
  | Some s => if String.eqb s "" then fallback else s
  | None => fallback
  end.

(** [x || fallback] for a number or missing [x]: zero is falsy. *)
Definition number_or (x : option Z) (fallback : Z) : Z :=
  match x with
  | Some n => if n =? 0 then fallback else n
  | None => fallback
  end.

(** Lines 648-654. *)
Definition fixed_holiday_event (yearStr : Z) (entry : string * string) : Event.t :=
  let '(mmdd, name) := entry in
  {| Event.id := None;
     Event.title := name;
     Event.start := Number_toString yearStr +:+ "-" +:+ substring mmdd 0 2
                      +:+ "-" +:+ substring mmdd 2 4;
     Event.end_ := None;
     Event.display := Some "background";
     Event.className := Some "holiday-bg-event";
     Event.allDay := Some true;
     Event.backgroundColor := None;
     Event.borderColor := None;
     Event.extendedProps := None |}.

(** Lines 660-666. *)
Definition variable_holiday_event (entry : string * string) : Event.t :=
  let '(dateStr, name) := entry in
  {| Event.id := None;
     Event.title := name;
     Event.start := dateStr;
     Event.end_ := None;
     Event.display := Some "background";
     Event.className := Some "holiday-bg-event";
     Event.allDay := Some true;
     Event.backgroundColor := None;
     Event.borderColor := None;
     Event.extendedProps := None |}.

(** Lines 675-689.  [deptMap] holds the own properties of the lookup
    object, keyed by the ids as property keys; a missing key gives the
    empty object, whose [dept_color] is undefined.  (A key that only
    [Object.prototype] answers gives a value without [dept_color] as
    well.) *)
Definition schedule_event (deptMap : gmap string Department.t) (s : Schedule.t) : Event.t :=
  let dept := deptMap !! Schedule.dept_id s in
  {| Event.id := Some (Schedule.id s);
     Event.title := Schedule.title s;
     Event.start := Schedule.start_date s;
     Event.end_ := Some (Schedule.end_date s);
     Event.display := None;
     Event.className := None;
     Event.allDay := None;
     Event.backgroundColor := Some (string_or (dept ≫= Department.dept_color) "#3788d8");
     Event.borderColor := Some (string_or (dept ≫= Department.dept_color) "#3788d8");
     Event.extendedProps := Some
       {| Event.deptId := Schedule.dept_id s;
          Event.description := Schedule.description s;
          Event.visibility := Schedule.visibility s;
          Event.isPrintable := Schedule.is_printable s |} |}.

Section Clock.

(** The host's time zone adjustment and the time value [new Date()]
    reads. *)
Variables (LocalTZA now : Z).

Definition transformEvents (schedules : list Schedule.t)
    (settings : option Settings.t) (departments : list Department.t) : list Event.t :=
  let events := [] in
  (* A. holidays *)
  let events :=
    match settings with
    | Some settings =>
        let fixed := default [] (Settings.fixed_holidays settings) in
        let yearStr :=
          number_or (Settings.academic_year settings)
                    (YearFromTime (LocalTime LocalTZA now)) in
        let events :=
          foldl (fun events entry => push events (fixed_holiday_event yearStr entry))
                events fixed in
        let variable := default [] (Settings.variable_holidays settings) in
        foldl (fun events entry => push events (variable_holiday_event entry))
              events variable
    | None => events
    end in
  (* B. schedules *)
  let deptMap : gmap string Department.t :=
    foldl (fun deptMap d => <[Department.id d := d]> deptMap) ∅ departments in
  foldl (fun events s => push events (schedule_event deptMap s)) events schedules.

End Clock.

(** An entry FullCalendar renders behind the others. *)
Definition is_background (e : Event.t) : bool :=
  bool_decide (Event.display e = Some "background").

(** The holiday entries [transformEvents] walks through, in enumeration
    order, and the year it stamps on the fixed ones. *)
Definition fixed_entries (settings : option Settings.t) : list (string * string) :=
  match settings with
  | Some s => default [] (Settings.fixed_holidays s)
  | None => []
  end.

Definition variable_entries (settings : option Settings.t) : list (string * string) :=
  match settings with
  | Some s => default [] (Settings.variable_holidays s)
  | None => []
  end.

Definition holiday_year (LocalTZA now : Z) (settings : option Settings.t) : Z :=
  number_or (settings ≫= Settings.academic_year) (YearFromTime (LocalTime LocalTZA now)).

(** [deptMap] after the [forEach] of line 672. *)
Definition deptMap_of (departments : list Department.t) : gmap string Department.t :=
  foldl (fun deptMap d => <[Department.id d := d]> deptMap) ∅ departments.

(** The settings carry a non-zero [academic_year]. *)
Definition has_academic_year (settings : option Settings.t) : Prop :=
  exists y, settings ≫= Settings.academic_year = Some y /\ y <> 0.

End Projection.

(** ** The search box ([input] handler of [#search-schedule]) *)

Module Search.
Import JSString.

(** Lines 486-489. *)
Definition matches_query (query : string) (s : Schedule.t) : bool :=
  includes (toLowerCase (Schedule.title s)) query ||
  match Schedule.description s with
  | Some d => negb (String.eqb d "") && includes (toLowerCase d) query
  | None => false
  end.

(** Lines 480-489: [None] when the result box is hidden without a
    search, otherwise the matches that are listed. *)
Definition on_input (schedules : list Schedule.t) (value : string)
    : option (list Schedule.t) :=
  let query := trim (toLowerCase value) in
  if Z.of_nat (String.length query) <? 2 then None
  else Some (List.filter (matches_query query) schedules).

(** [q] occurs in [s]: some characters, then [q], then the rest. *)
Definition occurs_in (q s : string) : Prop :=
  exists before after, s = before +:+ q +:+ after.

(** Case-insensitive occurrence: compare after folding both to lower
    case. *)
Definition occurs_in_ci (q s : string) : Prop :=
  occurs_in (toLowerCase q) (toLowerCase s).

End Search.

(** ** Example data *)

Module Examples.

(** The form fields of the specification's example. *)
Definition staff_meeting_data : Recurrence.baseData :=
  {| Recurrence.title := "Staff Meeting"; Recurrence.dept_id := "7";
     Recurrence.visibility := "public"; Recurrence.description := "";
     Recurrence.is_printable := true; Recurrence.author_id := "teacher-1" |}.

(** Settings without [academic_year]: one fixed holiday. *)
Definition settings_without_year : Settings.t :=
  {| Settings.fixed_holidays := Some [("0301", "Independence Day")];
     Settings.variable_holidays := None;
     Settings.academic_year := None |}.

(** Settings of the specification's example. *)
Definition settings_2025 : Settings.t :=
  {| Settings.fixed_holidays := Some [("0301", "Independence Day")];
     Settings.variable_holidays := None;
     Settings.academic_year := Some 2025 |}.

(** A schedule of department 7, and the only department on file, 9. *)
Definition staff_meeting : Schedule.t :=
  {| Schedule.id := "1"; Schedule.title := "Staff Meeting";
     Schedule.start_date := "2025-03-03"; Schedule.end_date := "2025-03-04";
     Schedule.dept_id := "7"; Schedule.description := None;
     Schedule.visibility := "public"; Schedule.is_printable := true |}.

Definition science_department : Department.t :=
  {| Department.id := "9"; Department.dept_name := "Science";
     Department.dept_color := Some "#e11d48"; Department.is_active := true;
     Department.sort_order := 1 |}.

End Examples.

(** ** The repeat options of the schedule form ([repeatCheck.onchange]) *)

Module RepeatOptions.
Import ESDate JSDate JSString ISO.

(** Lines 816-828: the string the until input holds after the repeat box
    changed (the one assigned to it, when the handler assigns one).
    Ticking the box with an empty until input fills in the date one month
    after the start input's. *)
Definition repeat_onchange (LocalTZA : Z) (checked : bool)
    (startValue untilValue : string) : completion string :=
  if checked then
    if String.eqb untilValue "" then
      let d := Date_of_string startValue in
      let d := setMonth LocalTZA d (num_add (getMonth LocalTZA d) (Some 1)) in
      split_first "T" <$> toISOString d
    else mret untilValue
  else mret untilValue.

End RepeatOptions.

(** ** Saving the schedule form (lines 857-943) *)

Module Submit.
Import JSString Recurrence.

(** The backend call the handler makes: an update of one row, which is
    [batchData[0]], or an insert of the batch. *)
Inductive request :=
| Update (id : string) (row : option schedule_row)
| Insert (rows : list schedule_row).

(** Line 874: [!scheduleId && repeatCheck.checked]. *)
Definition isRecurring (scheduleId : string) (repeatChecked : bool) : bool :=
  String.eqb scheduleId "" && repeatChecked.

(** Lines 857-943: [None] when the handler returns after the alert. *)
Definition save_request (LocalTZA : Z) (data : baseData) (scheduleId : string)
    (repeatChecked : bool) (startDateStr endDateStr untilStr freq : string)
    : completion (option request) :=
  batch ← build_batch LocalTZA data (isRecurring scheduleId repeatChecked)
             startDateStr endDateStr untilStr freq;
  match batch with
  | InvalidRecurrenceRange => mret None
  | Save batchData =>
      mret (Some (if negb (String.eqb scheduleId "")
                  then Update scheduleId (head batchData)
                  else Insert batchData))
  end.

End Submit.

(** ** Session state and permissions *)

Module Auth.

Record auth_user := { id : string; email : string }.

(** The part of [App.state] that sign-in and navigation write. *)
Record state := {
  user : option auth_user;
  role : option string;
  status : option string;
  viewMode : string
}.

(** The outcome of an awaited backend call. *)
Inductive reply (A : Type) :=
| Rejected
| Resolved (a : A).
Arguments Rejected {A}.
Arguments Resolved {A} a.

(** The [data] of the [user_roles] query. *)
Record role_row := { row_role : option string; row_status : option string }.

(** [syncUser], lines 85-134.  [upsert] and [fetch] are the outcomes of
    its two backend calls; a resolved upsert may carry an error, which is
    only logged. *)
Definition syncUser (authUser : option auth_user) (upsert : reply unit)
    (fetch : reply (option role_row)) (st : state) : state :=
  match authUser with
  | None =>
      {| user := None; role := None; status := None; viewMode := viewMode st |}
  | Some u =>
      match upsert, fetch with
      | Resolved _, Resolved (Some data) =>
          {| user := Some u; role := row_role data; status := row_status data;
             viewMode := viewMode st |}
      | Resolved _, Resolved None =>
          {| user := Some u; role := Some "teacher"; status := Some "pending";
             viewMode := viewMode st |}
      | _, _ =>
          {| user := Some u; role := Some "teacher"; status := status st;
             viewMode := viewMode st |}
      end
  end.

(** Lines 190 and 732: [role === 'admin' || role === 'head_teacher']. *)
Definition canEdit (role : option string) : bool :=
  bool_decide (role = Some "admin") || bool_decide (role = Some "head_teacher").

(** [updateAccessControls], lines 183-198: whether the Add Schedule
    button is left visible. *)
Definition add_button_visible (st : state) : bool := canEdit (role st).

(** The checks that open [openScheduleModal], lines 726-736. *)
Inductive gate := NeedLogin | NoPermission | Proceed.

Definition modal_gate (st : state) : gate :=
  match user st with
  | None => NeedLogin
  | Some _ => if canEdit (role st) then Proceed else NoPermission
  end.

(** Line 228: [!this.state.user || this.state.role !== 'admin']. *)
Definition admin_denied (st : state) : bool :=
  match user st with
  | None => true
  | Some _ => negb (bool_decide (role st = Some "admin"))
  end.

(** The values of the role select of the user list, lines 1190-1192 (the
    second [loadAdminUsers] of the object literal, which is the one in
    effect). *)
Definition role_options : list string := ["teacher"; "head"; "admin"].

(** [updateUserRole], lines 1211-1227, on the [user_roles] table keyed by
    [user_id]: [confirmed] is the answer to the confirmation dialog,
    [accepted] whether the backend carried out the update. *)
Definition updateUserRole (confirmed accepted : bool) (userId newRole : string)
    (user_roles : gmap string role_row) : gmap string role_row :=
  if confirmed && accepted then
    alter (fun r => {| row_role := Some newRole; row_status := row_status r |})
          userId user_roles
  else user_roles.

End Auth.

(** ** Spreadsheet import ([openExcelModal], lines 1080-1164) *)

Module ExcelImport.

(** A cell as the sheet reader returns it: text, a number (finite, hence
    a rational) or a boolean; [Undefined] is an empty cell or a position
    past the end of the row. *)
Inductive cell :=
| Undefined
| Text (s : string)
| Num (q : QArith_base.Q)
| Bool (b : bool).

#[global] Instance Q_eq_dec : EqDecision QArith_base.Q.
Proof. solve_decision. Defined.

#[global] Instance cell_eq_dec : EqDecision cell.
Proof. solve_decision. Defined.

(** Truthiness. *)
Definition truthy (c : cell) : bool :=
  match c with
  | Undefined => false
  | Text s => negb (String.eqb s "")
  | Num q => negb (QArith_base.Qnum q =? 0)
  | Bool b => b
  end.

(** [a || b] *)
Definition cell_or (a b : cell) : cell := if truthy a then a else b.

(** [row[i]] *)
Definition at_index (row : list cell) (i : nat) : cell := default Undefined (row !! i).

(** An element of [parsedData]. *)
Record imported := {
  title : cell;
  start_date : cell;
  end_date : cell;
  description : cell;
  dept_id : string;
  visibility : string;
  author_id : string;
  is_printable : bool
}.

(** The exception of a property read on [undefined] or [null]. *)
Inductive error := TypeError.

(** Lines 1112-1115. *)
Definition map_visibility (visibilityRaw : cell) : string :=
  if decide (visibilityRaw = Text "전체") then "public"
  else if decide (visibilityRaw = Text "부서") then "dept"
  else "internal".

(** Line 1110: [depts.find(d => d.dept_name === deptName) || depts[0]];
    [None] is [undefined]. *)
Definition match_dept (depts : list Department.t) (deptName : cell) : option Department.t :=
  match List.find (fun d => bool_decide (Text (Department.dept_name d) = deptName)) depts with
  | Some d => Some d
  | None => head depts
  end.

(** The body of the [forEach] callback, lines 1104-1127, for the values
    of [this.state.departments] (unset until the calendar view has
    loaded) and [this.state.user]: [inr None] when the row is skipped, a
    thrown [TypeError] when [depts], [dept] or the user is missing. *)
Definition import_row (depts : option (list Department.t)) (user : option Auth.auth_user)
    (row : list cell) : error + option imported :=
  if (length row <? 2)%nat then inr None
  else
    let title := at_index row 0 in
    let start := at_index row 1 in
    let end_ := at_index row 2 in
    let desc := at_index row 3 in
    let deptName := at_index row 4 in
    let visibilityRaw := at_index row 5 in
    if negb (truthy title) || negb (truthy start) then inr None
    else
      let dept := depts ≫= fun depts => match_dept depts deptName in
      let visibility := map_visibility visibilityRaw in
      match dept, user with
      | Some dept, Some user =>
          inr (Some {| title := title;
                       start_date := start;
                       end_date := cell_or end_ start;
                       description := cell_or desc (Text "");
                       dept_id := Department.id dept;
                       visibility := visibility;
                       author_id := Auth.id user;
                       is_printable := true |})
      | _, _ => inl TypeError
      end.

(** The rows the callback does not skip (lines 1104 and 1107): at least
    two cells, and a title and a start that are not falsy. *)
Definition importable (row : list cell) : bool :=
  negb (length row <? 2)%nat && truthy (at_index row 0) && truthy (at_index row 1).

(** The variables of the modal the load handler writes. *)
Record modal := {
  parsedData : list imported;
  previewCount : option Z;
  statusShown : bool;
  uploadEnabled : bool
}.

(** Lines 1103-1128: the [forEach] over the rows, from the current
    [parsedData] and [validCount]; it stops at the first exception. *)
Fixpoint import_rows (depts : option (list Department.t)) (user : option Auth.auth_user)
    (rawRows : list (list cell)) (parsedData : list imported) (validCount : Z)
    : list imported * Z * option error :=
  match rawRows with
  | [] => (parsedData, validCount, None)
  | row :: rest =>
      match import_row depts user row with
      | inl e => (parsedData, validCount, Some e)
      | inr None => import_rows depts user rest parsedData validCount
      | inr (Some r) => import_rows depts user rest (parsedData ++ [r]) (validCount + 1)
      end
  end.

(** Lines 1094-1135, from the rows of the first sheet: the modal
    afterwards and the exception that ended the handler, if any. *)
Definition onload (depts : option (list Department.t)) (user : option Auth.auth_user)
    (rawRows : list (list cell)) (m : modal) : modal * option error :=
  let rawRows := tail rawRows in
  let '(parsedData, validCount, thrown) := import_rows depts user rawRows [] 0 in
  match thrown with
  | Some e =>
      ({| parsedData := parsedData;
          previewCount := previewCount m;
          statusShown := statusShown m;
          uploadEnabled := uploadEnabled m |}, Some e)
  | None =>
      ({| parsedData := parsedData;
          previewCount := Some validCount;
          statusShown := true;
          uploadEnabled := if 0 <? validCount then true else uploadEnabled m |}, None)
  end.

(** Lines 1141-1149: the batch the upload button inserts, if any. *)
Definition upload_request (m : modal) : option (list imported) :=
  if (Z.of_nat (length (parsedData m)) =? 0) then None else Some (parsedData m).

End ExcelImport.

(** ** Signing in ([initLoginView], [updateAuthUI]) *)

Module Login.
Import JSString.

Definition DOMAIN : string := "pogok.hs.kr".

(** Lines 261-268: the address sent to the sign-in call. *)
Definition login_email (value : string) : string :=
  let email := trim value in
  if negb (includes email "@") then email +:+ "@" +:+ DOMAIN else email.

(** Line 148: the name shown in the header, [email.split('@')[0]]. *)
Definition userEmail (email : string) : string := split_first "@" email.

End Login.

(** ** Views: [init], [navigate], [loadView] *)

Module Views.
Import JSString Auth.

(** What [view-container] holds: nothing, a fetched page, or the
    paragraph shown when the fetch failed. *)
Inductive content :=
| Blank
| Page (html : string)
| Failure (message : string).

Record world := {
  app : state;
  localStorage : gmap string string;
  container : content;
  alerts : list string
}.

Section Fetch.

(** The outcome of the [try] block for a page: the text put into the
    container, or [None] when the fetch, the read of its body or the
    view's synchronous initialiser throws. *)
Variable try_page : string -> option string.

Definition set_viewMode (viewName : string) (w : world) : world :=
  {| app := {| user := user (app w); role := role (app w); status := status (app w);
               viewMode := viewName |};
     localStorage := localStorage w; container := container w; alerts := alerts w |}.

Definition set_container (c : content) (w : world) : world :=
  {| app := app w; localStorage := localStorage w; container := c; alerts := alerts w |}.

(** The [try]/[catch] around a page fetch. *)
Definition load_page (path message : string) (w : world) : world :=
  match try_page path with
  | Some html => set_container (Page html) w
  | None => set_container (Failure message) w
  end.

(** Lines 57-58: what [navigate] does before it calls [loadView]. *)
Definition remember (viewName : string) (w : world) : world :=
  let w := set_viewMode viewName w in
  {| app := app w; localStorage := <["pogok_last_view" := viewName]> (localStorage w);
     container := container w; alerts := alerts w |}.

(** [navigate('calendar')], the call [loadView] makes when it refuses the
    admin view.  [loadView('calendar')] has no way back into [navigate].
    One navigation is taken to finish before the next one starts. *)
Definition navigate_calendar (w : world) : world :=
  load_page "pages/calendar.html" "캘린더 로딩 실패"
    (set_container Blank (remember "calendar" w)).

(** [loadView], lines 200-252. *)
Definition loadView (viewName : string) (w : world) : world :=
  let w := set_container Blank w in
  if String.eqb viewName "calendar" then
    load_page "pages/calendar.html" "캘린더 로딩 실패" w
  else if String.eqb viewName "login" then
    load_page "pages/login.html" "페이지를 불러올 수 없습니다." w
  else if String.eqb viewName "admin" then
    if admin_denied (app w) then
      navigate_calendar
        {| app := app w; localStorage := localStorage w; container := container w;
           alerts := alerts w ++ ["접근 권한이 없습니다."] |}
    else load_page "pages/admin.html" "페이지를 불러올 수 없습니다." w
  else w.

(** [navigate], lines 56-60. *)
Definition navigate (viewName : string) (w : world) : world :=
  loadView viewName (remember viewName w).

(** The listener of [onAuthStateChange], lines 74-81, for the user of the
    session ([None] when there is no session) and the outcomes of the two
    backend calls of [syncUser]. *)
Definition onAuthStateChange (session : option auth_user) (upsert : reply unit)
    (fetch : reply (option role_row)) (w : world) : world :=
  let w := {| app := syncUser session upsert fetch (app w);
              localStorage := localStorage w; container := container w;
              alerts := alerts w |} in
  if bool_decide (session <> None) && String.eqb (viewMode (app w)) "login"
  then navigate "calendar" w else w.

(** Step 3 of [init], lines 31-43, for the value of
    [window.location.hash]. *)
Definition init_view (hash : string) (w : world) : world :=
  let savedView := Projection.string_or (localStorage w !! "pogok_last_view") "calendar" in
  if negb (String.eqb hash "") then
    let hashView := substring hash 1 (String.length hash) in
    if bool_decide (hashView ∈ ["calendar"; "login"; "admin"]) then navigate hashView w
    else navigate savedView w
  else navigate savedView w.

End Fetch.

End Views.

(** ** The department filter ([renderDeptFilters], [eventDidMount],
       [eventClick]) *)

Module DeptFilter.

(** A [.dept-checkbox] of the filter list. *)
Record checkbox := { value : string; checked : bool }.

(** Lines 699-707: one checked box per department, in order. *)
Definition renderDeptFilters (departments : list Department.t) : list checkbox :=
  (fun d => {| value := Department.id d; checked := true |}) <$> departments.

(** [document.querySelector(`.dept-checkbox[value="${deptId}"]`)?.checked]:
    the state of the first box with that value, for ids that need no
    escaping in a selector. *)
Definition box_checked (boxes : list checkbox) (deptId : string) : option bool :=
  checked <$> List.find (fun b => String.eqb (value b) deptId) boxes.

(** [eventDidMount], lines 533-542: whether the entry's element is
    hidden. *)
Definition hides (boxes : list checkbox) (e : Event.t) : bool :=
  match Event.extendedProps e with
  | Some props =>
      if negb (String.eqb (Event.deptId props) "") then
        match box_checked boxes (Event.deptId props) with
        | Some false => true
        | _ => false
        end
      else false
  | None => false
  end.

(** The user clears or sets the [i]-th box. *)
Definition set_box (i : nat) (state : bool) (boxes : list checkbox) : list checkbox :=
  alter (fun b => {| value := value b; checked := state |}) i boxes.

(** [eventClick], lines 553-557: the id [openScheduleModal] is called
    with, if it is called. *)
Definition eventClick (e : Event.t) : option (option string) :=
  if negb (bool_decide (Event.display e = Some "background")) then Some (Event.id e)
  else None.

End DeptFilter.

(** ** More example data *)

Module MoreExamples.
Import ExcelImport.

(** A signed-in user. *)
Definition kim : Auth.auth_user :=
  {| Auth.id := "u-1"; Auth.email := "kim@pogok.hs.kr" |}.

(** A sheet made from the template of lines 1069-1076: the header row,
    a row with the two required cells only, an empty row and a full
    row. *)
Definition sheet : list (list cell) :=
  [ [Text "일정명"; Text "시작일(YYYY-MM-DD)"; Text "종료일(YYYY-MM-DD)"; Text "내용";
     Text "부서명(정확히)"; Text "공개범위(전체/교직원/부서)"];
    [Text "Field trip"; Text "2025-05-02"];
    [];
    [Text "Sports day"; Text "2025-05-09"; Text "2025-05-10"; Undefined; Text "Science";
     Text "전체"] ].

(** The import modal as it opens. *)
Definition closed_modal : modal :=
  {| parsedData := []; previewCount := None; statusShown := false;
     uploadEnabled := false |}.

End MoreExamples.

(** * Properties *)

(** ** Calendar arithmetic *)

Module ESDateFacts.
Import ESDate.

Ltac split_ifs :=
  repeat match goal with
         | |- context [if ?b then _ else _] => destruct b eqn:?
         end.

Ltac zbool :=
  repeat match goal with
         | H : (_ <? _) = true |- _ => apply Z.ltb_lt in H
         | H : (_ <? _) = false |- _ => apply Z.ltb_ge in H
         | H : (_ <=? _) = true |- _ => apply Z.leb_le in H
         | H : (_ <=? _) = false |- _ => apply Z.leb_gt in H
         | H : (_ =? _) = true |- _ => apply Z.eqb_eq in H
         | H : (_ =? _) = false |- _ => apply Z.eqb_neq in H
         | H : negb _ = true |- _ => apply negb_true_iff in H
         | H : negb _ = false |- _ => apply negb_false_iff in H
         | H : _ && _ = true |- _ => apply andb_prop in H as [? ?]
         end.

(** [YearFromDay] computes the year of ECMA-262: the largest [y] whose
    first day is not after [d]. *)
Lemma YearFromDay_spec d :
  DayFromYear (YearFromDay d) <= d < DayFromYear (YearFromDay d + 1).
Proof.
  unfold YearFromDay, DayFromYear. split_ifs; zbool;
    Z.div_mod_to_equations; lia.
Qed.

Lemma DaysInYear_cases y : DaysInYear y = 365 \/ DaysInYear y = 366.
Proof. unfold DaysInYear. split_ifs; auto. Qed.

Lemma DayFromYear_succ y : DayFromYear (y + 1) = DayFromYear y + DaysInYear y.
Proof.
  unfold DayFromYear, DaysInYear. split_ifs; zbool;
    Z.div_mod_to_equations; lia.
Qed.

Lemma DayFromYear_mono y y' : y <= y' -> DayFromYear y <= DayFromYear y'.
Proof. unfold DayFromYear. intros H. Z.div_mod_to_equations. lia. Qed.

Lemma LeapOfYear_cases y : LeapOfYear y = 0 \/ LeapOfYear y = 1.
Proof. unfold LeapOfYear. destruct (DaysInYear_cases y); lia. Qed.

Lemma MonthOfYearDay_range leap dwy : 0 <= MonthOfYearDay leap dwy <= 11.
Proof. unfold MonthOfYearDay. split_ifs; lia. Qed.

Lemma MonthFromTime_range t : 0 <= MonthFromTime t <= 11.
Proof. apply MonthOfYearDay_range. Qed.

(** Within a year [MakeDay] adds up the year, the months before and the
    date. *)
Lemma MakeDay_month_in_year y m dt :
  0 <= m <= 11 ->
  MakeDay y m dt = DayFromYear y + DaysBeforeMonth (LeapOfYear y) m + dt - 1.
Proof.
  intros Hm. unfold MakeDay. rewrite Z.div_small, Z.mod_small by lia.
  now rewrite Z.add_0_r.
Qed.

Lemma MakeDay_date_shift y m dt k : MakeDay y m (dt + k) = MakeDay y m dt + k.
Proof. unfold MakeDay. lia. Qed.

(** Year, month and date of a time value name its day. *)
Lemma MakeDay_of_time t :
  MakeDay (YearFromTime t) (MonthFromTime t) (DateFromTime t) = Day t.
Proof.
  rewrite MakeDay_month_in_year by apply MonthFromTime_range.
  unfold DateFromTime, DayWithinYear, InLeapYear. lia.
Qed.

Lemma DaysBeforeMonth_step leap m :
  0 <= leap <= 1 -> 0 <= m <= 10 ->
  28 <= DaysBeforeMonth leap (m + 1) - DaysBeforeMonth leap m <= 31.
Proof.
  intros Hl Hm.
  assert (Hc : m = 0 \/ m = 1 \/ m = 2 \/ m = 3 \/ m = 4 \/ m = 5 \/ m = 6
               \/ m = 7 \/ m = 8 \/ m = 9 \/ m = 10) by lia.
  repeat (destruct Hc as [->|Hc]); try subst m; unfold DaysBeforeMonth; simpl; lia.
Qed.

Lemma DaysBeforeMonth_range leap m :
  0 <= leap <= 1 -> 0 <= DaysBeforeMonth leap m <= 334 + leap.
Proof. intros Hl. unfold DaysBeforeMonth. split_ifs; lia. Qed.

Lemma DaysBeforeMonth_11 leap : DaysBeforeMonth leap 11 = 334 + leap.
Proof. reflexivity. Qed.

Lemma MakeDay_month_12 y dt : MakeDay y 12 dt = DayFromYear y + DaysInYear y + dt - 1.
Proof.
  unfold MakeDay. change (12 / 12) with 1. change (12 mod 12) with 0.
  change (DaysBeforeMonth (LeapOfYear (y + 1)) 0) with 0.
  rewrite DayFromYear_succ. lia.
Qed.

Lemma DaysInMonth_range y m : 0 <= m <= 11 -> 28 <= DaysInMonth y m <= 31.
Proof.
  intros Hm. unfold DaysInMonth.
  rewrite (MakeDay_month_in_year y m) by lia.
  pose proof (LeapOfYear_cases y) as Hl.
  destruct (Z.eq_dec m 11) as [->|Hne].
  - change (11 + 1) with 12. rewrite MakeDay_month_12, DaysBeforeMonth_11.
    unfold LeapOfYear. lia.
  - rewrite MakeDay_month_in_year by lia.
    pose proof (DaysBeforeMonth_step (LeapOfYear y) m). lia.
Qed.

Lemma Day_MakeDate n : Day (MakeDate n 0) = n.
Proof. unfold Day, MakeDate. rewrite Z.add_0_r. now apply Z.div_mul. Qed.

Lemma Day_add_days t k : Day (t + k * msPerDay) = Day t + k.
Proof. unfold Day. now apply Z.div_add. Qed.

Lemma TimeWithinDay_range t : 0 <= TimeWithinDay t < msPerDay.
Proof. unfold TimeWithinDay. now apply Z.mod_pos_bound. Qed.

Lemma MakeDate_Day t : MakeDate (Day t) (TimeWithinDay t) = t.
Proof.
  unfold MakeDate, Day, TimeWithinDay.
  rewrite (Z.div_mod t msPerDay) at 3 by discriminate. lia.
Qed.

(** A valid calendar date lies within its year. *)
Lemma day_in_year y m d :
  1 <= m <= 12 -> 1 <= d <= DaysInMonth y (m - 1) ->
  DayFromYear y <= MakeDay y (m - 1) d < DayFromYear (y + 1).
Proof.
  intros Hm Hd. revert Hd. unfold DaysInMonth.
  replace (m - 1 + 1) with m by lia.
  rewrite !(MakeDay_month_in_year y (m - 1)) by lia.
  rewrite DayFromYear_succ.
  pose proof (LeapOfYear_cases y) as Hl.
  pose proof (DaysBeforeMonth_range (LeapOfYear y) (m - 1)) as Hb.
  destruct (Z.eq_dec m 12) as [->|Hne].
  - rewrite MakeDay_month_12. change (12 - 1) with 11.
    rewrite DaysBeforeMonth_11. unfold LeapOfYear in *. lia.
  - rewrite MakeDay_month_in_year by lia.
    pose proof (DaysBeforeMonth_range (LeapOfYear y) m) as Hb'.
    unfold LeapOfYear in *. lia.
Qed.

Lemma DaysBeforeMonth_mono leap m m' :
  0 <= leap <= 1 -> 0 <= m <= m' ->
  DaysBeforeMonth leap m <= DaysBeforeMonth leap m'.
Proof. intros Hl Hm. unfold DaysBeforeMonth. split_ifs; zbool; lia. Qed.

Lemma DaysInMonth_in_year y m :
  0 <= m <= 10 ->
  DaysInMonth y m
  = DaysBeforeMonth (LeapOfYear y) (m + 1) - DaysBeforeMonth (LeapOfYear y) m.
Proof.
  intros Hm. unfold DaysInMonth. rewrite !MakeDay_month_in_year by lia. lia.
Qed.

(** Valid calendar dates are ordered by day number as they are by year,
    month and date. *)
Lemma MakeDay_compare y m d y' m' d' :
  1 <= m <= 12 -> 1 <= d <= DaysInMonth y (m - 1) ->
  1 <= m' <= 12 -> 1 <= d' <= DaysInMonth y' (m' - 1) ->
  (MakeDay y (m - 1) d ?= MakeDay y' (m' - 1) d')
  = (10000 * y + 100 * m + d ?= 10000 * y' + 100 * m' + d').
Proof.
  intros Hm Hd Hm' Hd'.
  pose proof (day_in_year y m d Hm Hd) as Hy.
  pose proof (day_in_year y' m' d' Hm' Hd') as Hy'.
  assert (Hr : d <= 31) by (pose proof (DaysInMonth_range y (m - 1)); lia).
  assert (Hr' : d' <= 31) by (pose proof (DaysInMonth_range y' (m' - 1)); lia).
  destruct (Z.lt_total y y') as [Hlt|[->|Hgt]].
  - pose proof (DayFromYear_mono (y + 1) y').
    rewrite (proj2 (Z.compare_lt_iff _ _)) by lia.
    symmetry. apply Z.compare_lt_iff. lia.
  - clear Hy Hy'. rewrite !MakeDay_month_in_year by lia.
    pose proof (LeapOfYear_cases y') as Hl.
    destruct (Z.lt_total m m') as [Hlt|[->|Hgt]].
    + rewrite (DaysInMonth_in_year y' (m - 1)) in Hd by lia.
      replace (m - 1 + 1) with m in Hd by lia.
      pose proof (DaysBeforeMonth_mono (LeapOfYear y') m (m' - 1)).
      rewrite (proj2 (Z.compare_lt_iff _ _)) by lia.
      symmetry. apply Z.compare_lt_iff. lia.
    + destruct (Z.compare_spec d d') as [->|Hlt|Hgt].
      * now rewrite !Z.compare_refl.
      * rewrite (proj2 (Z.compare_lt_iff _ _)) by lia.
        symmetry. apply Z.compare_lt_iff. lia.
      * rewrite (proj2 (Z.compare_gt_iff _ _)) by lia.
        symmetry. apply Z.compare_gt_iff. lia.
    + rewrite (DaysInMonth_in_year y' (m' - 1)) in Hd' by lia.
      replace (m' - 1 + 1) with m' in Hd' by lia.
      pose proof (DaysBeforeMonth_mono (LeapOfYear y') m' (m - 1)).
      rewrite (proj2 (Z.compare_gt_iff _ _)) by lia.
      symmetry. apply Z.compare_gt_iff. lia.
  - pose proof (DayFromYear_mono (y' + 1) y).
    rewrite (proj2 (Z.compare_gt_iff _ _)) by lia.
    symmetry. apply Z.compare_gt_iff. lia.
Qed.

(** Day numbers of the years 0 to 9999. *)
Lemma MakeDay_four_digit_year y m d :
  0 <= y <= 9999 -> 1 <= m <= 12 -> 1 <= d <= DaysInMonth y (m - 1) ->
  -719528 <= MakeDay y (m - 1) d <= 2932896.
Proof.
  intros Hy Hm Hd. pose proof (day_in_year y m d Hm Hd) as H.
  pose proof (DayFromYear_mono 0 y). pose proof (DayFromYear_mono (y + 1) 10000).
  change (DayFromYear 0) with (-719528) in *.
  change (DayFromYear 10000) with 2932897 in *. lia.
Qed.

(** The month table: a day of the year falls in the month [MonthOfYearDay]
    names. *)
Lemma MonthOfYearDay_bounds leap dwy :
  0 <= leap <= 1 -> 0 <= dwy < 365 + leap ->
  DaysBeforeMonth leap (MonthOfYearDay leap dwy) <= dwy
  /\ (MonthOfYearDay leap dwy <= 10 ->
      dwy < DaysBeforeMonth leap (MonthOfYearDay leap dwy + 1)).
Proof.
  intros Hl Hd. unfold MonthOfYearDay. split_ifs; zbool;
    unfold DaysBeforeMonth; simpl; lia.
Qed.

Lemma DayWithinYear_range t :
  0 <= DayWithinYear t < 365 + InLeapYear t.
Proof.
  unfold DayWithinYear, InLeapYear, LeapOfYear, YearFromTime.
  pose proof (YearFromDay_spec (Day t)) as H.
  rewrite DayFromYear_succ in H. lia.
Qed.

Lemma DaysInMonth_11 y : DaysInMonth y 11 = 31.
Proof.
  unfold DaysInMonth. change (11 + 1) with 12.
  rewrite MakeDay_month_12, MakeDay_month_in_year, DaysBeforeMonth_11 by lia.
  unfold LeapOfYear. lia.
Qed.

(** The date of a time value is a day of its month. *)
Lemma DateFromTime_range t :
  1 <= DateFromTime t <= DaysInMonth (YearFromTime t) (MonthFromTime t).
Proof.
  pose proof (DayWithinYear_range t) as Hd.
  pose proof (LeapOfYear_cases (YearFromTime t)) as Hl.
  pose proof (MonthFromTime_range t) as Hm.
  unfold DateFromTime, MonthFromTime, InLeapYear in *.
  destruct (MonthOfYearDay_bounds (LeapOfYear (YearFromTime t)) (DayWithinYear t))
    as [Hlo Hhi]; [lia|lia|].
  destruct (Z.eq_dec (MonthOfYearDay (LeapOfYear (YearFromTime t)) (DayWithinYear t)) 11)
    as [E|E].
  - rewrite E in *. rewrite DaysInMonth_11, DaysBeforeMonth_11 in *. lia.
  - rewrite DaysInMonth_in_year by lia. lia.
Qed.

Lemma YearFromDay_unique y n :
  DayFromYear y <= n < DayFromYear (y + 1) -> YearFromDay n = y.
Proof.
  intros Hy. pose proof (YearFromDay_spec n) as Hs.
  destruct (Z.lt_total (YearFromDay n) y) as [Hlt|[E|Hgt]]; [|exact E|].
  - pose proof (DayFromYear_mono (YearFromDay n + 1) y). lia.
  - pose proof (DayFromYear_mono (y + 1) (YearFromDay n)). lia.
Qed.

Lemma MonthOfYearDay_unique leap m dwy :
  0 <= leap <= 1 -> 0 <= m <= 11 ->
  DaysBeforeMonth leap m <= dwy ->
  (m <= 10 -> dwy < DaysBeforeMonth leap (m + 1)) ->
  MonthOfYearDay leap dwy = m.
Proof.
  intros Hl Hm Hlo Hhi.
  assert (Hc : m = 0 \/ m = 1 \/ m = 2 \/ m = 3 \/ m = 4 \/ m = 5 \/ m = 6
               \/ m = 7 \/ m = 8 \/ m = 9 \/ m = 10 \/ m = 11) by lia.
  unfold MonthOfYearDay.
  repeat (destruct Hc as [Hc|Hc];
          [subst m; unfold DaysBeforeMonth in Hlo, Hhi; simpl in Hlo, Hhi;
           split_ifs; zbool; lia|]).
  subst m. unfold DaysBeforeMonth in Hlo; simpl in Hlo. split_ifs; zbool; lia.
Qed.

(** Year, month and date of the day [MakeDay] gives for a calendar
    date. *)
Lemma civil_of_MakeDay y m d t :
  1 <= m <= 12 -> 1 <= d <= DaysInMonth y (m - 1) ->
  Day t = MakeDay y (m - 1) d ->
  YearFromTime t = y /\ MonthFromTime t = m - 1 /\ DateFromTime t = d.
Proof.
  intros Hm Hd Ht.
  assert (Hy : YearFromTime t = y).
  { unfold YearFromTime. rewrite Ht. apply YearFromDay_unique, day_in_year; assumption. }
  assert (Hmon : MonthFromTime t = m - 1).
  { unfold MonthFromTime, InLeapYear, DayWithinYear. rewrite Hy, Ht.
    rewrite MakeDay_month_in_year by lia.
    pose proof (LeapOfYear_cases y).
    apply MonthOfYearDay_unique; try lia.
    intros Hle. rewrite DaysInMonth_in_year in Hd by lia. lia. }
  split; [exact Hy|]. split; [exact Hmon|].
  unfold DateFromTime, InLeapYear, DayWithinYear. rewrite Hmon, Hy, Ht.
  rewrite MakeDay_month_in_year by lia. lia.
Qed.

End ESDateFacts.

(** ** Date objects *)

Module JSDateFacts.
Import ESDate JSDate ESDateFacts.

Lemma TimeClip_Some t u : TimeClip t = Some u -> u = t /\ Z.abs t <= maxTime.
Proof.
  unfold TimeClip. destruct (Z.leb_spec (Z.abs t) maxTime); [|discriminate].
  intros [= <-]. now split.
Qed.

Lemma TimeClip_in_range t : Z.abs t <= maxTime -> TimeClip t = Some t.
Proof. unfold TimeClip. intros H. now destruct (Z.leb_spec (Z.abs t) maxTime); [|lia]. Qed.

Section LocalZone.
Variable LocalTZA : Z.

(** [d.setDate(d.getDate() + k)] moves a valid Date by [k] whole days,
    whatever the zone. *)
Lemma setDate_getDate_add t k :
  setDate LocalTZA (Some t) (num_add (getDate LocalTZA (Some t)) (Some k))
  = TimeClip (t + k * msPerDay).
Proof.
  unfold setDate, getDate, num_add. simpl. f_equal.
  rewrite MakeDay_date_shift, MakeDay_of_time.
  unfold UTC, MakeDate.
  pose proof (MakeDate_Day (LocalTime LocalTZA t)) as H. unfold MakeDate in H.
  unfold LocalTime in *. lia.
Qed.

(** [d.setMonth(d.getMonth() + 1)] moves a valid Date by the length of
    its local month. *)
Lemma setMonth_getMonth_succ t :
  setMonth LocalTZA (Some t) (num_add (getMonth LocalTZA (Some t)) (Some 1))
  = TimeClip (t + DaysInMonth (YearFromTime (LocalTime LocalTZA t))
                               (MonthFromTime (LocalTime LocalTZA t)) * msPerDay).
Proof.
  unfold setMonth, getMonth, num_add. simpl. f_equal.
  set (lt := LocalTime LocalTZA t).
  assert (Hshift : MakeDay (YearFromTime lt) (MonthFromTime lt + 1) (DateFromTime lt)
                   = Day lt + DaysInMonth (YearFromTime lt) (MonthFromTime lt)).
  { rewrite <- (MakeDay_of_time lt). unfold DaysInMonth, MakeDay. lia. }
  rewrite Hshift. unfold UTC, MakeDate.
  pose proof (MakeDate_Day lt) as H. unfold MakeDate in H.
  unfold lt, LocalTime in *. lia.
Qed.

End LocalZone.

End JSDateFacts.

(** ** Date strings *)

Module ISOFacts.
Import ESDate JSDate JSString ISO ESDateFacts JSDateFacts.

Lemma digit_val_Some c v : digit_val c = Some v -> 0 <= v <= 9 /\ code c = v + 48.
Proof.
  unfold digit_val.
  destruct (Z.leb_spec 48 (code c)), (Z.leb_spec (code c) 57); simpl;
    try discriminate. intros [= <-]. lia.
Qed.

Lemma Ascii_compare_code c c' : Ascii.compare c c' = (code c ?= code c').
Proof. unfold Ascii.compare, code. now rewrite N2Z.inj_compare. Qed.

Lemma Ascii_compare_digits c c' v v' :
  digit_val c = Some v -> digit_val c' = Some v' -> Ascii.compare c c' = (v ?= v').
Proof.
  intros [_ H]%digit_val_Some [_ H']%digit_val_Some.
  rewrite Ascii_compare_code, H, H', !(Z.add_comm _ 48). apply Z.add_compare_mono_l.
Qed.

(** The shape of a string that [date_fields] accepts. *)
Lemma date_fields_Some s y m d :
  date_fields s = Some (y, m, d) ->
  exists y3 y2 y1 y0 m1 m0 d1 d0 a3 a2 a1 a0 b1 b0 c1 c0,
    s = String y3 (String y2 (String y1 (String y0 (String "-"
          (String m1 (String m0 (String "-" (String d1 (String d0 EmptyString)))))))))
    /\ digit_val y3 = Some a3 /\ digit_val y2 = Some a2
    /\ digit_val y1 = Some a1 /\ digit_val y0 = Some a0
    /\ digit_val m1 = Some b1 /\ digit_val m0 = Some b0
    /\ digit_val d1 = Some c1 /\ digit_val d0 = Some c0
    /\ y = 1000 * a3 + 100 * a2 + 10 * a1 + a0
    /\ m = 10 * b1 + b0 /\ d = 10 * c1 + c0.
Proof.
  intros H.
  do 10 (destruct s as [|? s]; [discriminate H|]).
  destruct s; [|discriminate H]. cbn [date_fields] in H.
  destruct (Ascii.eqb_spec a3 "-") as [->|]; [|discriminate H].
  destruct (Ascii.eqb_spec a6 "-") as [->|]; [|discriminate H].
  cbn [andb] in H.
  destruct (digit_val a) eqn:E3; [|discriminate H].
  destruct (digit_val a0) eqn:E2; [|discriminate H].
  destruct (digit_val a1) eqn:E1; [|discriminate H].
  destruct (digit_val a2) eqn:E0; [|discriminate H].
  destruct (digit_val a4) eqn:F1; [|discriminate H].
  destruct (digit_val a5) eqn:F0; [|discriminate H].
  destruct (digit_val a7) eqn:G1; [|discriminate H].
  destruct (digit_val a8) eqn:G0; [|discriminate H].
  injection H as <- <- <-.
  do 16 eexists. repeat split; eassumption.
Qed.

Lemma date_fields_range s y m d :
  date_fields s = Some (y, m, d) -> 0 <= y <= 9999 /\ 0 <= m <= 99 /\ 0 <= d <= 99.
Proof.
  intros (y3 & y2 & y1 & y0 & m1 & m0 & d1 & d0 & a3 & a2 & a1 & a0 & b1 & b0 & c1 & c0
          & _ & H3 & H2 & H1 & H0 & F1 & F0 & G1 & G0 & -> & -> & ->)%date_fields_Some.
  apply digit_val_Some in H3, H2, H1, H0, F1, F0, G1, G0. lia.
Qed.

(** Date-only strings compare as strings the way their fields compare as
    numbers. *)
Lemma String_compare_date_fields s s' y m d y' m' d' :
  date_fields s = Some (y, m, d) -> date_fields s' = Some (y', m', d') ->
  String.compare s s' = (10000 * y + 100 * m + d ?= 10000 * y' + 100 * m' + d').
Proof.
  intros (y3 & y2 & y1 & y0 & m1 & m0 & d1 & d0 & a3 & a2 & a1 & a0 & b1 & b0 & c1 & c0
          & -> & H3 & H2 & H1 & H0 & F1 & F0 & G1 & G0 & -> & -> & ->)%date_fields_Some.
  intros (z3 & z2 & z1 & z0 & n1 & n0 & e1 & e0 & p3 & p2 & p1 & p0 & q1 & q0 & r1 & r0
          & -> & K3 & K2 & K1 & K0 & L1 & L0 & M1 & M0 & -> & -> & ->)%date_fields_Some.
  cbn [String.compare].
  rewrite (Ascii_compare_digits _ _ _ _ H3 K3), (Ascii_compare_digits _ _ _ _ H2 K2),
    (Ascii_compare_digits _ _ _ _ H1 K1), (Ascii_compare_digits _ _ _ _ H0 K0),
    (Ascii_compare_digits _ _ _ _ F1 L1), (Ascii_compare_digits _ _ _ _ F0 L0),
    (Ascii_compare_digits _ _ _ _ G1 M1), (Ascii_compare_digits _ _ _ _ G0 M0).
  change (Ascii.compare "-" "-") with Eq. cbv iota.
  apply digit_val_Some in H3, H2, H1, H0, F1, F0, G1, G0, K3, K2, K1, K0, L1, L0, M1, M0.
  repeat match goal with
         | |- context [match ?a ?= ?b with _ => _ end] =>
             destruct (Z.compare_spec a b);
             [subst
             |symmetry; apply Z.compare_lt_iff; lia
             |symmetry; apply Z.compare_gt_iff; lia]
         end.
  now rewrite Z.compare_refl.
Qed.

(** What a valid Date made from a string is. *)
Lemma Date_of_string_Some s t :
  Date_of_string s = Some t ->
  exists y m d,
    date_fields s = Some (y, m, d)
    /\ 1 <= m <= 12 /\ 1 <= d <= DaysInMonth y (m - 1)
    /\ t = MakeDay y (m - 1) d * msPerDay.
Proof.
  unfold Date_of_string. destruct (date_fields s) as [[[y m] d]|]; [|discriminate].
  simpl. destruct (_ && _) eqn:Hv; [|discriminate].
  intros [-> _]%TimeClip_Some. zbool. exists y, m, d.
  unfold MakeDate. repeat split; try lia; reflexivity.
Qed.

Lemma compare_mul_r a b k : 0 < k -> (a * k ?= b * k) = (a ?= b).
Proof.
  intros Hk. destruct (Z.compare_spec a b) as [->|H|H].
  - apply Z.compare_refl.
  - apply Z.compare_lt_iff. nia.
  - apply Z.compare_gt_iff. nia.
Qed.

(** Strings that name days compare as their time values do. *)
Lemma Date_of_string_compare s s' t t' :
  Date_of_string s = Some t -> Date_of_string s' = Some t' ->
  String.compare s s' = (t ?= t').
Proof.
  intros (y & m & d & Hf & Hm & Hd & ->)%Date_of_string_Some.
  intros (y' & m' & d' & Hf' & Hm' & Hd' & ->)%Date_of_string_Some.
  rewrite (String_compare_date_fields _ _ _ _ _ _ _ _ Hf Hf').
  rewrite <- MakeDay_compare by assumption.
  now rewrite compare_mul_r.
Qed.

Lemma str_le_dates s s' t t' :
  Date_of_string s = Some t -> Date_of_string s' = Some t' ->
  str_le s s' = (t <=? t').
Proof.
  intros H H'. unfold str_le, String.leb, Z.leb.
  now rewrite (Date_of_string_compare _ _ _ _ H H').
Qed.

(** A Date made from a string is a midnight between the years 0 and
    9999. *)
Lemma Date_of_string_range s t :
  Date_of_string s = Some t ->
  t = Day t * msPerDay /\ -62167219200000 <= t <= 253402214400000.
Proof.
  intros (y & m & d & Hf & Hm & Hd & ->)%Date_of_string_Some.
  apply date_fields_range in Hf as (Hy & _ & _).
  pose proof (MakeDay_four_digit_year y m d Hy Hm Hd) as H.
  unfold Day. rewrite Z.div_mul by discriminate. unfold msPerDay. lia.
Qed.

Lemma lacks_app sep a b : lacks sep (a +:+ b) = lacks sep a && lacks sep b.
Proof. induction a as [|c a IH]; simpl; [reflexivity|]. now rewrite IH, andb_assoc. Qed.

Lemma split_first_app sep a rest :
  lacks sep a = true -> split_first sep (a +:+ String sep rest) = a.
Proof.
  induction a as [|c a IH]; simpl.
  - now rewrite Ascii.eqb_refl.
  - intros [Hc Ha]%andb_prop. apply negb_true_iff in Hc. rewrite Hc. now rewrite IH.
Qed.

Lemma digit_not_T n : Ascii.eqb (digit n) "T" = false.
Proof.
  unfold digit. pose proof (Z.mod_pos_bound n 10 eq_refl) as H.
  assert (Hc : n mod 10 = 0 \/ n mod 10 = 1 \/ n mod 10 = 2 \/ n mod 10 = 3
               \/ n mod 10 = 4 \/ n mod 10 = 5 \/ n mod 10 = 6 \/ n mod 10 = 7
               \/ n mod 10 = 8 \/ n mod 10 = 9) by lia.
  repeat (destruct Hc as [Hc|Hc]; [rewrite Hc; reflexivity|]).
  rewrite Hc. reflexivity.
Qed.

Lemma lacks_T_pad2 n : lacks "T" (pad2 n) = true.
Proof. unfold pad2. simpl. now rewrite !digit_not_T. Qed.

Lemma lacks_T_pad4 n : lacks "T" (pad4 n) = true.
Proof. unfold pad4, pad3, pad2. simpl. now rewrite !digit_not_T. Qed.

Lemma lacks_T_year_string y : lacks "T" (year_string y) = true.
Proof.
  unfold year_string. destruct (_ && _); [apply lacks_T_pad4|].
  unfold pad6. cbn [lacks]. rewrite !digit_not_T, lacks_T_pad4.
  now destruct (0 <=? y).
Qed.

Lemma lacks_T_isoDate t : lacks "T" (isoDate t) = true.
Proof.
  unfold isoDate. now rewrite !lacks_app, lacks_T_year_string, !lacks_T_pad2.
Qed.

(** [d.toISOString().split('T')[0]] is the date part. *)
Lemma toISOString_date_part t :
  split_first "T" <$> toISOString (Some t) = Normal (isoDate t).
Proof.
  simpl. unfold fmap, completion_fmap. f_equal.
  apply split_first_app, lacks_T_isoDate.
Qed.

(** The date part depends on the day only. *)
Lemma isoDate_date_of_day t : isoDate t = date_of_day (Day t).
Proof.
  unfold date_of_day, isoDate, DateFromTime, MonthFromTime, InLeapYear,
    DayWithinYear, YearFromTime.
  now rewrite Day_MakeDate.
Qed.

Lemma digit_val_digit n : digit_val (digit n) = Some (n mod 10).
Proof.
  unfold digit. pose proof (Z.mod_pos_bound n 10 eq_refl) as H.
  assert (Hc : n mod 10 = 0 \/ n mod 10 = 1 \/ n mod 10 = 2 \/ n mod 10 = 3
               \/ n mod 10 = 4 \/ n mod 10 = 5 \/ n mod 10 = 6 \/ n mod 10 = 7
               \/ n mod 10 = 8 \/ n mod 10 = 9) by lia.
  repeat (destruct Hc as [Hc|Hc]; [rewrite Hc; reflexivity|]).
  rewrite Hc. reflexivity.
Qed.

Lemma digit_digit_val c v : digit_val c = Some v -> digit v = c.
Proof.
  intros [Hr Hc]%digit_val_Some. unfold digit.
  rewrite Z.mod_small by lia.
  replace (48 + v) with (code c) by lia. unfold code.
  rewrite N2Z.id. apply ascii_N_embedding.
Qed.

(** Rendering three fields and reading them back. *)
Lemma date_fields_render y m d :
  0 <= y <= 9999 -> 0 <= m <= 99 -> 0 <= d <= 99 ->
  date_fields (pad4 y +:+ "-" +:+ pad2 m +:+ "-" +:+ pad2 d) = Some (y, m, d).
Proof.
  intros Hy Hm Hd. unfold pad4, pad3, pad2, date_fields. simpl.
  rewrite !digit_val_digit. simpl.
  f_equal. f_equal; [f_equal|]; Z.div_mod_to_equations; lia.
Qed.

(** Reading three fields and rendering them back. *)
Lemma render_date_fields s y m d :
  date_fields s = Some (y, m, d) ->
  pad4 y +:+ "-" +:+ pad2 m +:+ "-" +:+ pad2 d = s.
Proof.
  intros (y3 & y2 & y1 & y0 & m1 & m0 & d1 & d0 & a3 & a2 & a1 & a0 & b1 & b0 & c1 & c0
          & -> & H3 & H2 & H1 & H0 & F1 & F0 & G1 & G0 & -> & -> & ->)%date_fields_Some.
  unfold pad4, pad3, pad2. simpl.
  pose proof (digit_val_Some _ _ H3). pose proof (digit_val_Some _ _ H2).
  pose proof (digit_val_Some _ _ H1). pose proof (digit_val_Some _ _ H0).
  pose proof (digit_val_Some _ _ F1). pose proof (digit_val_Some _ _ F0).
  pose proof (digit_val_Some _ _ G1). pose proof (digit_val_Some _ _ G0).
  assert (Hd : forall n v c, digit_val c = Some v -> n mod 10 = v -> digit n = c).
  { intros n v c Hc <-. apply digit_digit_val in Hc. unfold digit in *.
    now rewrite Z.mod_mod in Hc by discriminate. }
  rewrite (Hd _ a3 y3), (Hd _ a2 y2), (Hd _ a1 y1), (Hd _ a0 y0),
    (Hd _ b1 m1), (Hd _ b0 m0), (Hd _ c1 d1), (Hd _ c0 d0);
    try assumption; try reflexivity; Z.div_mod_to_equations; lia.
Qed.

Lemma year_string_four_digits y : 0 <= y <= 9999 -> year_string y = pad4 y.
Proof.
  intros Hy. unfold year_string.
  now destruct (Z.leb_spec 0 y), (Z.leb_spec y 9999); try lia.
Qed.

(** Reading back the date string of a day of the years 0 to 9999 gives
    that day's midnight. *)
Lemma Date_of_string_date_of_day n :
  0 <= YearFromDay n <= 9999 ->
  Date_of_string (date_of_day n) = Some (MakeDate n 0).
Proof.
  intros Hy. unfold date_of_day, isoDate.
  set (t := MakeDate n 0).
  assert (Ht : Day t = n) by apply Day_MakeDate.
  assert (HY : YearFromTime t = YearFromDay n) by (unfold YearFromTime; now rewrite Ht).
  pose proof (MonthFromTime_range t) as Hm.
  pose proof (DateFromTime_range t) as Hd.
  pose proof (DaysInMonth_range (YearFromTime t) (MonthFromTime t) Hm) as Hr.
  rewrite year_string_four_digits by lia.
  unfold Date_of_string. rewrite date_fields_render by lia. cbn [mbind option_bind].
  replace (MonthFromTime t + 1 - 1) with (MonthFromTime t) by lia.
  destruct (Z.leb_spec 1 (MonthFromTime t + 1)); [|lia].
  destruct (Z.leb_spec (MonthFromTime t + 1) 12); [|lia].
  destruct (Z.leb_spec 1 (DateFromTime t)); [|lia].
  destruct (Z.leb_spec (DateFromTime t)
              (DaysInMonth (YearFromTime t) (MonthFromTime t))); [|lia].
  cbn [andb]. rewrite MakeDay_of_time, Ht. apply TimeClip_in_range.
  pose proof (YearFromDay_spec n) as Hs.
  pose proof (DayFromYear_mono 0 (YearFromDay n)).
  pose proof (DayFromYear_mono (YearFromDay n + 1) 10000).
  change (DayFromYear 0) with (-719528) in *.
  change (DayFromYear 10000) with 2932897 in *.
  unfold t, MakeDate, msPerDay, maxTime. lia.
Qed.

(** The date string of the day a date string names is that string. *)
Lemma date_of_day_Date_of_string s t :
  Date_of_string s = Some t -> date_of_day (Day t) = s.
Proof.
  intros Hs. pose proof Hs as (y & m & d & Hf & Hm & Hd & ->)%Date_of_string_Some.
  pose proof (date_fields_range _ _ _ _ Hf) as (Hy & _ & _).
  rewrite <- isoDate_date_of_day. unfold isoDate.
  destruct (civil_of_MakeDay y m d (MakeDay y (m - 1) d * msPerDay) Hm Hd)
    as (-> & -> & ->).
  { unfold Day. now rewrite Z.div_mul. }
  rewrite year_string_four_digits by lia.
  replace (m - 1 + 1) with m by lia.
  now apply render_date_fields.
Qed.

End ISOFacts.

(** ** The recurrence loop *)

Module RecurrenceFacts.
Import ESDate JSDate JSString ISO Recurrence Examples ESDateFacts JSDateFacts ISOFacts.

Section Handler.

Variable LocalTZA : Z.
Variable data : baseData.

Lemma while_loop_eq dur until freq st :
  while_loop LocalTZA data dur until freq st =
  if loop_cond until st then
    row ← loop_row data dur st;
    while_loop LocalTZA data dur until freq (next_state LocalTZA freq st row)
  else Normal st.
Proof.
  rewrite while_loop_equation_1.
  destruct (Logic.inspect (loop_cond until st)) as [[|] H]; simpl.
  - destruct (loop_row data dur st); simpl; rewrite H; reflexivity.
  - rewrite H; reflexivity.
Qed.

Lemma loop_cond_limit until st : loop_cond until st = true -> limit st < 52.
Proof. unfold loop_cond. intros [_ H]%andb_prop. now apply Z.ltb_lt. Qed.

(** From any state the loop stops after at most [52 - limit] iterations:
    with a false condition, or with the exception of the iteration it was
    in. *)
Lemma while_loop_iterates dur until freq st :
  exists (n : nat) (st' : loop_state),
    (n <= Z.to_nat (52 - limit st))%nat
    /\ iterates LocalTZA data dur until freq n st st'
    /\ limit st' = limit st + Z.of_nat n
    /\ length (batchData st') = (length (batchData st) + n)%nat
    /\ ((loop_cond until st' = false
         /\ while_loop LocalTZA data dur until freq st = Normal st')
        \/ (exists e, loop_cond until st' = true
              /\ loop_row data dur st' = Throw e
              /\ while_loop LocalTZA data dur until freq st = Throw e)).
Proof.
  remember (Z.to_nat (52 - limit st)) as k eqn:Hk.
  revert st Hk. induction k as [|k IH]; intros st Hk.
  - exists 0%nat, st. rewrite while_loop_eq.
    destruct (loop_cond until st) eqn:Hc.
    + apply loop_cond_limit in Hc. lia.
    + repeat split; try lia; [constructor|]. left. now split.
  - rewrite while_loop_eq. destruct (loop_cond until st) eqn:Hc.
    + destruct (loop_row data dur st) as [row|e] eqn:Hrow.
      * destruct (IH (next_state LocalTZA freq st row)) as (n & st' & Hn & Hit & Hl & Hb & Hend).
        { simpl. lia. }
        exists (S n), st'. simpl in Hl, Hb. rewrite length_app in Hb. simpl in Hb.
        repeat split; try lia; [econstructor; eassumption|exact Hend].
      * exists 0%nat, st. repeat split; try lia; [constructor|].
        right. exists e. now repeat split.
    + exists 0%nat, st. repeat split; try lia; [constructor|]. left. now split.
Qed.

(** C7.  Whatever the cursor, the duration, the end date and the
    frequency are, the loop stops after [n <= 52] iterations, having
    pushed [n] rows.  It stops normally, because the cursor is past
    [until] or because 52 rows have been pushed (the rows pushed so far
    are then the result), or with the exception of an iteration's
    [toISOString].  [build_batch] accordingly shows the alert, saves 1 to
    52 rows, or throws. *)
Theorem while_loop_terminates_within_52 :
  (forall dur until freq c,
     exists (n : nat) (st : loop_state),
       (n <= 52)%nat
       /\ iterates LocalTZA data dur until freq n {| curr := c; limit := 0; batchData := [] |} st
       /\ limit st = Z.of_nat n
       /\ length (batchData st) = n
       /\ ((while_loop LocalTZA data dur until freq
              {| curr := c; limit := 0; batchData := [] |} = Normal st
            /\ (num_le (curr st) until = false \/ n = 52%nat))
           \/ (exists e, loop_cond until st = true
                 /\ loop_row data dur st = Throw e
                 /\ while_loop LocalTZA data dur until freq
                      {| curr := c; limit := 0; batchData := [] |} = Throw e)))
  /\ (forall startDateStr endDateStr untilStr freq,
        expand LocalTZA data startDateStr endDateStr untilStr freq
          = Normal InvalidRecurrenceRange
        \/ (exists rows,
              expand LocalTZA data startDateStr endDateStr untilStr freq
                = Normal (Save rows)
              /\ (1 <= length rows <= 52)%nat)
        \/ expand LocalTZA data startDateStr endDateStr untilStr freq
             = Throw RangeError).
Proof.
  split.
  - intros dur until freq c.
    destruct (while_loop_iterates dur until freq
                {| curr := c; limit := 0; batchData := [] |})
      as (n & st & Hn & Hit & Hl & Hb & Hend).
    simpl in Hn, Hl, Hb. exists n, st. repeat split; try lia; [exact Hit|].
    destruct Hend as [[Hc Hw]|Hthrow]; [left|right; exact Hthrow].
    split; [exact Hw|]. unfold loop_cond in Hc.
    apply andb_false_iff in Hc as [Hc|Hc]; [now left|right].
    apply Z.ltb_ge in Hc. lia.
  - intros startDateStr endDateStr untilStr freq. unfold expand, build_batch.
    destruct (str_le untilStr startDateStr); [now left|right].
    destruct (while_loop_iterates
                (num_sub (Date_of_string endDateStr) (Date_of_string startDateStr))
                (Date_of_string untilStr) freq
                {| curr := Date_of_string startDateStr; limit := 0; batchData := [] |})
      as (n & st & Hn & _ & _ & Hb & [[_ Hw]|(e & _ & _ & Hw)]);
      rewrite Hw; simpl in *.
    + left. eexists. split; [reflexivity|].
      destruct (Z.eqb_spec (Z.of_nat (length (batchData st))) 0);
        [rewrite length_app; simpl|]; lia.
    + right. now destruct e.
Qed.

Lemma loop_row_valid c dur st :
  curr st = Some c -> Z.abs (c + dur) <= maxTime ->
  loop_row data (Some dur) st
  = Normal {| base := data; start_date := isoDate c; end_date := isoDate (c + dur) |}.
Proof.
  intros Hc Hr. unfold loop_row. rewrite Hc, toISOString_date_part.
  unfold getTime, num_add, Date_of_number. simpl.
  rewrite (TimeClip_in_range _ Hr), toISOString_date_part. reflexivity.
Qed.

(** The cursor never moves backwards. *)
Lemma next_step_Some freq c c' :
  next_step LocalTZA freq (Some c) = Some c' -> c <= c'.
Proof.
  unfold next_step.
  destruct (String.eqb freq "weekly");
    [|destruct (String.eqb freq "biweekly"); [|destruct (String.eqb freq "monthly")]].
  - rewrite setDate_getDate_add. intros [-> _]%TimeClip_Some. unfold msPerDay. lia.
  - rewrite setDate_getDate_add. intros [-> _]%TimeClip_Some. unfold msPerDay. lia.
  - rewrite setMonth_getMonth_succ. intros [-> _]%TimeClip_Some.
    pose proof (DaysInMonth_range (YearFromTime (LocalTime LocalTZA c))
                  (MonthFromTime (LocalTime LocalTZA c))
                  (MonthFromTime_range _)).
    unfold msPerDay. lia.
  - now intros [= ->].
Qed.

Section ValidDates.

Variables (startDateStr endDateStr untilStr : string) (ts te tu : Z).
Hypothesis Hstart : Date_of_string startDateStr = Some ts.
Hypothesis Hend : Date_of_string endDateStr = Some te.
Hypothesis Huntil : Date_of_string untilStr = Some tu.

Lemma duration_days : te - ts = (Day te - Day ts) * msPerDay.
Proof.
  apply Date_of_string_range in Hstart as [H1 _], Hend as [H2 _]. lia.
Qed.

Lemma loop_row_in_range st c :
  curr st = Some c -> ts <= c <= tu ->
  loop_row data (Some (te - ts)) st
  = Normal {| base := data;
              start_date := date_of_day (Day c);
              end_date := date_of_day (Day c + (Day te - Day ts)) |}.
Proof.
  intros Hc Hr. rewrite (loop_row_valid c (te - ts) st Hc).
  - rewrite !isoDate_date_of_day, duration_days, Day_add_days. reflexivity.
  - apply Date_of_string_range in Hstart as [_ H1], Hend as [_ H2], Huntil as [_ H3].
    unfold maxTime. lia.
Qed.

Lemma loop_cond_cursor st :
  loop_cond (Some tu) st = true -> exists c, curr st = Some c /\ c <= tu.
Proof.
  unfold loop_cond, num_le. intros [H _]%andb_prop.
  destruct (curr st) as [c|]; [|discriminate]. exists c. split; [reflexivity|].
  now apply Z.leb_le.
Qed.

Lemma iterates_invariant freq n st st' :
  iterates LocalTZA data (Some (te - ts)) (Some tu) freq n st st' ->
  loop_invariant ts (Day te - Day ts) st ->
  loop_invariant ts (Day te - Day ts) st'.
Proof.
  induction 1 as [|n st row st' Hcond Hrow _ IH]; [trivial|].
  intros [Hcur Hrows]. apply IH.
  destruct (loop_cond_cursor st Hcond) as (c & Hc & Hle).
  specialize (Hcur c Hc).
  rewrite (loop_row_in_range st c Hc) in Hrow by lia. injection Hrow as <-.
  split; simpl.
  - rewrite Hc. intros c' Hc'. apply next_step_Some in Hc'. lia.
  - apply Forall_app. split; [exact Hrows|].
    constructor; [|constructor]. now exists (Day c).
Qed.

Lemma loop_row_base dur st row :
  loop_row data dur st = Normal row -> base row = data.
Proof.
  unfold loop_row.
  destruct (toISOString (curr st)) as [a|]; [|discriminate]. simpl.
  destruct (toISOString _) as [b|]; [|discriminate]. simpl.
  now intros [= <-].
Qed.

(** Rows are only ever appended, and all carry the form's [baseData]. *)
Lemma iterates_batchData dur until freq n st st' :
  iterates LocalTZA data dur until freq n st st' ->
  exists pushed,
    batchData st' = batchData st ++ pushed
    /\ length pushed = n
    /\ Forall (fun r => base r = data) pushed.
Proof.
  induction 1 as [|n st row st' Hcond Hrow _ (pushed & Hp & Hn & Hb)].
  - exists []. now rewrite app_nil_r.
  - exists (row :: pushed). simpl in Hp. rewrite <- app_assoc in Hp.
    split; [exact Hp|]. split; [simpl; now rewrite Hn|].
    constructor; [now apply loop_row_base in Hrow|exact Hb].
Qed.

(** C1.  When start, end and until are dates and until is strictly after
    start, the handler saves a batch that is not empty, has at most 52
    rows, and in which every row ends as many days after its start as the
    template does.  The first row is the template itself. *)
Theorem expand_valid freq :
  ts < tu ->
  exists rows,
    expand LocalTZA data startDateStr endDateStr untilStr freq = Normal (Save rows)
    /\ rows <> []
    /\ (length rows <= 52)%nat
    /\ Forall (fun r => exists n,
                 start_date r = date_of_day n
                 /\ end_date r = date_of_day (n + (Day te - Day ts))) rows
    /\ head rows
       = Some {| base := data; start_date := startDateStr; end_date := endDateStr |}
    /\ Forall (fun r => base r = data) rows.
Proof.
  intros Hlt. unfold expand, build_batch.
  rewrite (str_le_dates _ _ _ _ Huntil Hstart).
  destruct (Z.leb_spec tu ts) as [|_]; [lia|].
  rewrite Hstart, Hend, Huntil. change (num_sub (Some te) (Some ts)) with (Some (te - ts)).
  set (st0 := {| curr := Some ts; limit := 0; batchData := [] |}).
  destruct (while_loop_iterates (Some (te - ts)) (Some tu) freq st0)
    as (n & st & Hn & Hit & Hl & Hb & Hend').
  assert (Hinv : loop_invariant ts (Day te - Day ts) st).
  { apply (iterates_invariant freq n st0 st Hit). split; simpl.
    - intros c [= <-]. lia.
    - constructor. }
  destruct Hinv as [Hcur Hrows].
  assert (Hcond0 : loop_cond (Some tu) st0 = true).
  { unfold loop_cond. simpl. now destruct (Z.leb_spec ts tu); [|lia]. }
  destruct Hend' as [[Hcond Hw]|(e & Hcond & Hrow & _)].
  - rewrite Hw. simpl in Hn, Hb |- *.
    assert (Hpos : n <> 0%nat).
    { intros ->. inversion Hit; subst. congruence. }
    destruct (Z.eqb_spec (Z.of_nat (length (batchData st))) 0); [lia|].
    exists (batchData st). split; [reflexivity|].
    split; [intros Hnil; rewrite Hnil in Hb; simpl in Hb; lia|].
    split; [lia|]. split; [exact Hrows|].
    destruct (iterates_batchData _ _ _ _ _ _ Hit) as (pushed & Hp & _ & Hbase).
    simpl in Hp. split; [|now rewrite Hp].
    inversion Hit as [E1 E2 E3|n' st1 row st2 _ Hrow Hit' E1 E2 E3]; [lia|].
    clear E1 E2 E3 st1 st2.
    rewrite (loop_row_in_range st0 ts eq_refl) in Hrow by lia.
    destruct (iterates_batchData _ _ _ _ _ _ Hit') as (pushed' & Hp' & _ & _).
    simpl in Hp'. rewrite Hp'. simpl.
    injection Hrow as <-. do 2 f_equal.
    + now apply date_of_day_Date_of_string.
    + replace (Day ts + (Day te - Day ts)) with (Day te) by lia.
      now apply date_of_day_Date_of_string.
  - destruct (loop_cond_cursor st Hcond) as (c & Hc & Hle).
    rewrite (loop_row_in_range st c Hc) in Hrow; [discriminate|].
    specialize (Hcur c Hc). lia.
Qed.

End ValidDates.

End Handler.

Lemma expand_valid_witness :
  Date_of_string "2025-03-03" = Some 1740960000000
  /\ Date_of_string "2025-03-04" = Some 1741046400000
  /\ Date_of_string "2025-03-24" = Some 1742774400000
  /\ 1740960000000 < 1742774400000
  /\ exists rows,
       expand 32400000 staff_meeting_data "2025-03-03" "2025-03-04" "2025-03-24" "weekly"
         = Normal (Save rows)
       /\ rows <> []
       /\ (length rows <= 52)%nat
       /\ Forall (fun r => exists n,
                    start_date r = date_of_day n
                    /\ end_date r
                       = date_of_day (n + (Day 1741046400000 - Day 1740960000000))) rows
       /\ head rows
          = Some {| base := staff_meeting_data;
                    start_date := "2025-03-03"; end_date := "2025-03-04" |}
       /\ Forall (fun r => base r = staff_meeting_data) rows.
Proof.
  assert (Hstart : Date_of_string "2025-03-03" = Some 1740960000000) by reflexivity.
  assert (Hend : Date_of_string "2025-03-04" = Some 1741046400000) by reflexivity.
  assert (Huntil : Date_of_string "2025-03-24" = Some 1742774400000) by reflexivity.
  assert (Hlt : 1740960000000 < 1742774400000) by lia.
  split; [exact Hstart|]. split; [exact Hend|]. split; [exact Huntil|].
  split; [exact Hlt|].
  exact (expand_valid 32400000 staff_meeting_data "2025-03-03" "2025-03-04" "2025-03-24"
           1740960000000 1741046400000 1742774400000 Hstart Hend Huntil "weekly" Hlt).
Defined.

(** C3.  When start and until are dates and until is not after start, the
    handler shows the alert and returns: no row is built, nothing is
    saved. *)
Theorem expand_invalid_range LocalTZA data startDateStr endDateStr untilStr freq ts tu :
  Date_of_string startDateStr = Some ts ->
  Date_of_string untilStr = Some tu ->
  tu <= ts ->
  expand LocalTZA data startDateStr endDateStr untilStr freq
  = Normal InvalidRecurrenceRange.
Proof.
  intros Hstart Huntil Hle. unfold expand, build_batch.
  rewrite (str_le_dates _ _ _ _ Huntil Hstart).
  now destruct (Z.leb_spec tu ts); [|lia].
Qed.

Lemma expand_invalid_range_witness :
  Date_of_string "2025-03-03" = Some 1740960000000
  /\ Date_of_string "2025-03-03" = Some 1740960000000
  /\ 1740960000000 <= 1740960000000
  /\ expand 32400000 staff_meeting_data "2025-03-03" "2025-03-04" "2025-03-03" "weekly"
     = Normal InvalidRecurrenceRange.
Proof.
  assert (Hstart : Date_of_string "2025-03-03" = Some 1740960000000) by reflexivity.
  assert (Hle : 1740960000000 <= 1740960000000) by lia.
  split; [exact Hstart|]. split; [exact Hstart|]. split; [exact Hle|].
  exact (expand_invalid_range 32400000 staff_meeting_data "2025-03-03" "2025-03-04"
           "2025-03-03" "weekly" 1740960000000 1740960000000 Hstart Hstart Hle).
Defined.

(** Weekly and biweekly steps do not depend on the zone. *)
Lemma next_step_days LocalTZA freq k c :
  (freq = "weekly" /\ k = 7) \/ (freq = "biweekly" /\ k = 14) ->
  next_step LocalTZA freq c = t ← c; TimeClip (t + k * msPerDay).
Proof.
  intros [[-> ->]|[-> ->]]; unfold next_step.
  - change (String.eqb "weekly" "weekly") with true. cbv iota.
    destruct c as [t|]; [apply setDate_getDate_add|reflexivity].
  - change (String.eqb "biweekly" "weekly") with false.
    change (String.eqb "biweekly" "biweekly") with true. cbv iota.
    destruct c as [t|]; [apply setDate_getDate_add|reflexivity].
Qed.

Lemma completion_bind_ext {A B} (f g : A -> completion B) (m : completion A) :
  (forall a, f a = g a) -> m ≫= f = m ≫= g.
Proof. intros H. destruct m as [a|e]; [apply H|reflexivity]. Qed.

Lemma completion_bind_ext_l {A B} (f : A -> completion B) (m m' : completion A) :
  m = m' -> m ≫= f = m' ≫= f.
Proof. now intros ->. Qed.

Lemma while_loop_zone tz tz' data dur until freq :
  (forall c, next_step tz freq c = next_step tz' freq c) ->
  forall st,
    while_loop tz data dur until freq st = while_loop tz' data dur until freq st.
Proof.
  intros Hstep st.
  remember (Z.to_nat (52 - limit st)) as k eqn:Hk.
  revert st Hk. induction k as [|k IH]; intros st Hk;
    rewrite (while_loop_eq tz data dur until freq st),
      (while_loop_eq tz' data dur until freq st);
    (destruct (loop_cond until st) eqn:Hc; [apply loop_cond_limit in Hc|reflexivity]).
  - lia.
  - apply completion_bind_ext. intros row.
    unfold next_state. rewrite Hstep. apply IH. simpl. lia.
Qed.

Lemma expand_zone tz tz' data startDateStr endDateStr untilStr freq :
  freq = "weekly" \/ freq = "biweekly" ->
  expand tz data startDateStr endDateStr untilStr freq
  = expand tz' data startDateStr endDateStr untilStr freq.
Proof.
  intros Hfreq. unfold expand, build_batch.
  destruct (str_le untilStr startDateStr); [reflexivity|].
  apply completion_bind_ext_l, while_loop_zone.
  intros c. destruct Hfreq as [->| ->].
  - rewrite (next_step_days tz "weekly" 7), (next_step_days tz' "weekly" 7);
      [reflexivity|left; split; reflexivity..].
  - rewrite (next_step_days tz "biweekly" 14), (next_step_days tz' "biweekly" 14);
      [reflexivity|right; split; reflexivity..].
Qed.


(** On a cursor set, two zones whose steps agree there run the same
    loop. *)
Lemma while_loop_zone_on (P : Date -> Prop) tz tz' data dur until freq :
  (forall c, P c -> num_le c until = true ->
     next_step tz freq c = next_step tz' freq c /\ P (next_step tz' freq c)) ->
  forall st, P (curr st) ->
    while_loop tz data dur until freq st = while_loop tz' data dur until freq st.
Proof.
  intros Hstep st.
  remember (Z.to_nat (52 - limit st)) as k eqn:Hk.
  revert st Hk. induction k as [|k IH]; intros st Hk HP;
    rewrite (while_loop_eq tz data dur until freq st),
      (while_loop_eq tz' data dur until freq st);
    (destruct (loop_cond until st) eqn:Hc; [|reflexivity]);
    pose proof (loop_cond_limit _ _ Hc) as Hlim.
  - lia.
  - apply completion_bind_ext. intros row.
    unfold loop_cond in Hc. apply andb_prop in Hc as [Hle _].
    destruct (Hstep _ HP Hle) as [Heq HP'].
    unfold next_state. rewrite Heq. apply IH; simpl; [lia|exact HP'].
Qed.

(** The monthly step in terms of the local day of the cursor. *)
Lemma next_step_monthly tz t :
  next_step tz "monthly" (Some t)
  = TimeClip (t + DaysInMonth (YearFromTime (t + tz)) (MonthFromTime (t + tz)) * msPerDay).
Proof.
  unfold next_step.
  change (String.eqb "monthly" "weekly") with false.
  change (String.eqb "monthly" "biweekly") with false.
  change (String.eqb "monthly" "monthly") with true. cbv iota.
  apply setMonth_getMonth_succ.
Qed.

(** Within a day of UTC the local day of a midnight is the same day or
    the day before. *)
Lemma Day_zone n tz :
  - msPerDay < tz < msPerDay ->
  Day (n * msPerDay + tz) = n \/ Day (n * msPerDay + tz) = n - 1.
Proof. unfold Day, msPerDay. intros H. Z.div_mod_to_equations. lia. Qed.

Lemma month_length_by_day t n len :
  Day t = n \/ Day t = n - 1 ->
  DaysInMonth (YearFromDay n)
    (MonthOfYearDay (LeapOfYear (YearFromDay n)) (n - DayFromYear (YearFromDay n))) = len ->
  DaysInMonth (YearFromDay (n - 1))
    (MonthOfYearDay (LeapOfYear (YearFromDay (n - 1)))
       (n - 1 - DayFromYear (YearFromDay (n - 1)))) = len ->
  DaysInMonth (YearFromTime t) (MonthFromTime t) = len.
Proof.
  unfold MonthFromTime, InLeapYear, DayWithinYear, YearFromTime.
  now intros [-> | ->].
Qed.

(** C2 fails on the code.  In every zone within a day of UTC, a monthly
    repetition from 2025-01-31 until 2025-04-30 gives the rows 2025-01-31,
    2025-03-03 and 2025-04-03: [setMonth] keeps the date 31, February has
    no such day, and the cursor lands on 3 March.  No row falls in
    February, and the first two rows are not one calendar month apart. *)
Theorem expand_monthly_skips_february tz data :
  - msPerDay < tz < msPerDay ->
  expand tz data "2025-01-31" "2025-01-31" "2025-04-30" "monthly"
  = Normal (Save
      [ {| base := data; start_date := "2025-01-31"; end_date := "2025-01-31" |};
        {| base := data; start_date := "2025-03-03"; end_date := "2025-03-03" |};
        {| base := data; start_date := "2025-04-03"; end_date := "2025-04-03" |} ]).
Proof.
  intros Htz.
  transitivity (expand 0 data "2025-01-31" "2025-01-31" "2025-04-30" "monthly");
    [|vm_compute; reflexivity].
  unfold expand, build_batch.
  destruct (str_le "2025-04-30" "2025-01-31"); [reflexivity|].
  apply completion_bind_ext_l.
  apply (while_loop_zone_on
           (fun c => c = Some (20119 * msPerDay) \/ c = Some (20150 * msPerDay)
                     \/ c = Some (20181 * msPerDay) \/ c = Some (20211 * msPerDay)));
    [|left; reflexivity].
  intros c Hc Hle.
  assert (Hlen : forall n len,
             DaysInMonth (YearFromDay n)
               (MonthOfYearDay (LeapOfYear (YearFromDay n))
                  (n - DayFromYear (YearFromDay n))) = len ->
             DaysInMonth (YearFromDay (n - 1))
               (MonthOfYearDay (LeapOfYear (YearFromDay (n - 1)))
                  (n - 1 - DayFromYear (YearFromDay (n - 1)))) = len ->
             next_step tz "monthly" (Some (n * msPerDay))
             = TimeClip (n * msPerDay + len * msPerDay)
             /\ next_step 0 "monthly" (Some (n * msPerDay))
                = TimeClip (n * msPerDay + len * msPerDay)).
  { intros n len H1 H2. rewrite !next_step_monthly.
    rewrite (month_length_by_day (n * msPerDay + tz) n len (Day_zone n tz Htz) H1 H2).
    rewrite (month_length_by_day (n * msPerDay + 0) n len) by
      (try assumption; left; rewrite Z.add_0_r; unfold Day; now apply Z.div_mul).
    now split. }
  destruct Hc as [-> |[-> |[-> | ->]]].
  - destruct (Hlen 20119 31 eq_refl eq_refl) as [-> ->]. split; [reflexivity|].
    right; left. reflexivity.
  - destruct (Hlen 20150 31 eq_refl eq_refl) as [-> ->]. split; [reflexivity|].
    right; right; left. reflexivity.
  - destruct (Hlen 20181 30 eq_refl eq_refl) as [-> ->]. split; [reflexivity|].
    right; right; right. reflexivity.
  - discriminate Hle.
Qed.

Lemma expand_monthly_skips_february_witness :
  - msPerDay < 32400000 < msPerDay
  /\ expand 32400000 staff_meeting_data "2025-01-31" "2025-01-31" "2025-04-30" "monthly"
     = Normal (Save
         [ {| base := staff_meeting_data;
              start_date := "2025-01-31"; end_date := "2025-01-31" |};
           {| base := staff_meeting_data;
              start_date := "2025-03-03"; end_date := "2025-03-03" |};
           {| base := staff_meeting_data;
              start_date := "2025-04-03"; end_date := "2025-04-03" |} ]).
Proof.
  assert (Htz : - msPerDay < 32400000 < msPerDay) by (unfold msPerDay; lia).
  split; [exact Htz|].
  exact (expand_monthly_skips_february 32400000 staff_meeting_data Htz).
Defined.

(** West of UTC the local day of a midnight is the day before, so from the
    first of a month the monthly step stays within the month: two rows in
    March, none on the first of April (zone -5h). *)
Example expand_monthly_west_of_utc data :
  expand (-18000000) data "2025-03-01" "2025-03-01" "2025-04-30" "monthly"
  = Normal (Save
      [ {| base := data; start_date := "2025-03-01"; end_date := "2025-03-01" |};
        {| base := data; start_date := "2025-03-29"; end_date := "2025-03-29" |};
        {| base := data; start_date := "2025-04-29"; end_date := "2025-04-29" |} ]).
Proof. vm_compute. reflexivity. Qed.

(** The safety limit at work: weekly from 2025-01-06 until the end of 2026
    stops after 52 rows, the last one on 2025-12-29. *)
Example expand_truncated data :
  exists rows,
    expand 32400000 data "2025-01-06" "2025-01-06" "2026-12-31" "weekly"
      = Normal (Save rows)
    /\ length rows = 52%nat
    /\ last (start_date <$> rows) = Some "2025-12-29".
Proof. eexists. split; [vm_compute; reflexivity|]. split; reflexivity. Qed.

(** A frequency the loop does not know leaves the cursor in place: the
    same row 52 times. *)
Example expand_unknown_frequency data :
  expand 32400000 data "2025-01-06" "2025-01-07" "2025-01-13" "daily"
  = Normal (Save (replicate 52
      {| base := data; start_date := "2025-01-06"; end_date := "2025-01-07" |})).
Proof. vm_compute. reflexivity. Qed.

(** A cleared end date makes the first iteration throw. *)
Example expand_without_end_date data :
  expand 32400000 data "2025-01-06" "" "2025-01-13" "weekly" = Throw RangeError.
Proof. vm_compute. reflexivity. Qed.

End RecurrenceFacts.

(** ** [transformEvents] *)

Module ProjectionFacts.
Import ESDate JSDate JSString Projection Examples.

Lemma foldl_push {A B} (f : A -> B) (l : list A) (events : list B) :
  foldl (fun events x => push events (f x)) events l = events ++ (f <$> l).
Proof.
  revert events. induction l as [|x l IH]; intros events; simpl.
  - now rewrite app_nil_r.
  - rewrite IH. unfold push. now rewrite <- app_assoc.
Qed.

(** The pushes of [transformEvents] laid out: fixed holidays, variable
    holidays, schedules. *)
Lemma transformEvents_layout tz now schedules settings departments :
  transformEvents tz now schedules settings departments =
    ((fixed_holiday_event (holiday_year tz now settings) <$> fixed_entries settings)
       ++ (variable_holiday_event <$> variable_entries settings))
    ++ (schedule_event (deptMap_of departments) <$> schedules).
Proof.
  unfold transformEvents. rewrite foldl_push. f_equal.
  destruct settings as [s|]; simpl; [|reflexivity].
  now rewrite !foldl_push.
Qed.

Lemma fixed_holiday_event_background y entry :
  is_background (fixed_holiday_event y entry) = true.
Proof. now destruct entry. Qed.

Lemma variable_holiday_event_background entry :
  is_background (variable_holiday_event entry) = true.
Proof. now destruct entry. Qed.

Lemma schedule_event_foreground deptMap s :
  is_background (schedule_event deptMap s) = false.
Proof. reflexivity. Qed.

(** A key that no department carries is not in [deptMap]. *)
Lemma deptMap_of_lookup_None departments (k : string) :
  k ∉ (Department.id <$> departments) -> deptMap_of departments !! k = None.
Proof.
  unfold deptMap_of.
  assert (Hgen : forall (m : gmap string Department.t),
             m !! k = None -> k ∉ (Department.id <$> departments) ->
             foldl (fun deptMap d => <[Department.id d := d]> deptMap) m departments !! k = None).
  { induction departments as [|d ds IH]; intros m Hm Hk; simpl; [exact Hm|].
    rewrite fmap_cons, not_elem_of_cons in Hk. destruct Hk as [Hne Hk].
    apply IH; [|exact Hk]. rewrite lookup_insert_ne; [exact Hm|congruence]. }
  intros Hk. apply Hgen; [apply lookup_empty|exact Hk].
Qed.

Lemma holiday_year_academic tz now settings y :
  settings ≫= Settings.academic_year = Some y -> y <> 0 ->
  holiday_year tz now settings = y.
Proof.
  intros Hy Hnz. unfold holiday_year. rewrite Hy. simpl.
  destruct (Z.eqb_spec y 0); [contradiction|reflexivity].
Qed.


(** C6.  A schedule whose [dept_id] is the id of no department still gets
    its foreground entry, at its own place after the holidays, with the
    default colour ["#3788d8"] as background and border colour. *)
Theorem transformEvents_unknown_department tz now schedules settings departments
    (i : nat) (s : Schedule.t) :
  schedules !! i = Some s ->
  Schedule.dept_id s ∉ (Department.id <$> departments) ->
  transformEvents tz now schedules settings departments
    !! (length (fixed_entries settings) + length (variable_entries settings) + i)%nat
  = Some
      {| Event.id := Some (Schedule.id s);
         Event.title := Schedule.title s;
         Event.start := Schedule.start_date s;
         Event.end_ := Some (Schedule.end_date s);
         Event.display := None;
         Event.className := None;
         Event.allDay := None;
         Event.backgroundColor := Some "#3788d8";
         Event.borderColor := Some "#3788d8";
         Event.extendedProps := Some
           {| Event.deptId := Schedule.dept_id s;
              Event.description := Schedule.description s;
              Event.visibility := Schedule.visibility s;
              Event.isPrintable := Schedule.is_printable s |} |}.
Proof.
  intros Hi Hk. rewrite transformEvents_layout.
  rewrite lookup_app_r; rewrite length_app, !length_fmap; [|lia].
  replace (_ + _ + i - _)%nat with i by lia.
  rewrite list_lookup_fmap, Hi. simpl. unfold schedule_event.
  now rewrite (deptMap_of_lookup_None _ _ Hk).
Qed.

Lemma transformEvents_unknown_department_witness :
  [staff_meeting] !! 0%nat = Some staff_meeting
  /\ (Schedule.dept_id staff_meeting ∉ (Department.id <$> [science_department]))
  /\ transformEvents 32400000 1740960000000 [staff_meeting] (Some settings_2025)
       [science_department] !! 1%nat
     = Some
         {| Event.id := Some "1";
            Event.title := "Staff Meeting";
            Event.start := "2025-03-03";
            Event.end_ := Some "2025-03-04";
            Event.display := None;
            Event.className := None;
            Event.allDay := None;
            Event.backgroundColor := Some "#3788d8";
            Event.borderColor := Some "#3788d8";
            Event.extendedProps := Some
              {| Event.deptId := "7";
                 Event.description := None;
                 Event.visibility := "public";
                 Event.isPrintable := true |} |}.
Proof.
  assert (Hi : [staff_meeting] !! 0%nat = Some staff_meeting) by reflexivity.
  assert (Hk : Schedule.dept_id staff_meeting ∉ (Department.id <$> [science_department])).
  { apply not_elem_of_cons. split; [discriminate|apply not_elem_of_nil]. }
  split; [exact Hi|]. split; [exact Hk|].
  exact (transformEvents_unknown_department 32400000 1740960000000 [staff_meeting]
           (Some settings_2025) [science_department] 0%nat staff_meeting Hi Hk).
Defined.

(** C8, as stated, fails: [transformEvents] reads the clock when the
    settings have no [academic_year].  The same arguments give a holiday on
    2025-03-01 when called on 2025-03-03 and on 2026-03-01 when called on
    2026-03-03 (time values 1740960000000 and 1772496000000, zone +9h). *)
Lemma transformEvents_depends_on_clock :
  transformEvents 32400000 1740960000000 [] (Some settings_without_year) []
  <> transformEvents 32400000 1772496000000 [] (Some settings_without_year) [].
Proof. vm_compute. discriminate. Qed.

(** C8, amended.  Two invocations with identical [schedules], [settings]
    and [departments] give identical sequences, whatever the clock and
    zone of each invocation, provided the settings carry a non-zero
    [academic_year] or list no fixed holiday. *)
Theorem transformEvents_deterministic tz now tz' now' schedules settings departments :
  has_academic_year settings \/ fixed_entries settings = [] ->
  transformEvents tz now schedules settings departments =
  transformEvents tz' now' schedules settings departments.
Proof.
  intros H. rewrite !transformEvents_layout.
  destruct H as [(y & Hy & Hnz)|Hnil].
  - now rewrite !(holiday_year_academic _ _ _ y Hy Hnz).
  - now rewrite Hnil.
Qed.

Lemma transformEvents_deterministic_witness :
  (has_academic_year (Some settings_2025) \/ fixed_entries (Some settings_2025) = [])
  /\ transformEvents 0 1740960000000 [] (Some settings_2025) []
     = transformEvents 32400000 1772496000000 [] (Some settings_2025) [].
Proof.
  assert (H : has_academic_year (Some settings_2025) \/ fixed_entries (Some settings_2025) = []).
  { left. exists 2025. split; [reflexivity|lia]. }
  split; [exact H|].
  exact (transformEvents_deterministic 0 1740960000000 32400000 1772496000000
           [] (Some settings_2025) [] H).
Defined.

Lemma count_background_layout tz now schedules settings departments :
  length (List.filter is_background
            (transformEvents tz now schedules settings departments))
  = (length (fixed_entries settings) + length (variable_entries settings))%nat.
Proof.
  rewrite transformEvents_layout, !List.filter_app, !length_app.
  assert (Hall : forall (l : list Event.t),
             Forall (fun e => is_background e = true) l ->
             length (List.filter is_background l) = length l).
  { induction 1 as [|e l He _ IH]; simpl; [reflexivity|]. rewrite He. simpl. now rewrite IH. }
  assert (Hnone : forall (l : list Event.t),
             Forall (fun e => is_background e = false) l ->
             length (List.filter is_background l) = 0%nat).
  { induction 1 as [|e l He _ IH]; simpl; [reflexivity|]. now rewrite He. }
  rewrite (Hnone (schedule_event _ <$> schedules)), !Hall, !length_fmap; [lia| | |].
  - apply Forall_fmap, Forall_true. intros s. apply variable_holiday_event_background.
  - apply Forall_fmap, Forall_true. intros s. apply fixed_holiday_event_background.
  - apply Forall_fmap, Forall_true. intros s. apply schedule_event_foreground.
Qed.

(** C9.  A fixed holiday keyed by a four-character month-day code
    [m1 m2 d1 d2] becomes, at its place in the output, a full-day
    background entry that carries the holiday's name and starts on
    [<academic_year>-m1m2-d1d2]; the output has exactly one background
    entry per holiday entry. *)
Theorem transformEvents_fixed_holiday tz now schedules settings departments
    (y : Z) (i : nat) (m1 m2 d1 d2 : ascii) (name : string) :
  settings ≫= Settings.academic_year = Some y -> y <> 0 ->
  fixed_entries settings !! i
    = Some (String m1 (String m2 (String d1 (String d2 EmptyString))), name) ->
  transformEvents tz now schedules settings departments !! i
    = Some
        {| Event.id := None;
           Event.title := name;
           Event.start := Number_toString y +:+ "-" +:+ String m1 (String m2 EmptyString)
                            +:+ "-" +:+ String d1 (String d2 EmptyString);
           Event.end_ := None;
           Event.display := Some "background";
           Event.className := Some "holiday-bg-event";
           Event.allDay := Some true;
           Event.backgroundColor := None;
           Event.borderColor := None;
           Event.extendedProps := None |}
  /\ length (List.filter is_background
               (transformEvents tz now schedules settings departments))
     = (length (fixed_entries settings) + length (variable_entries settings))%nat.
Proof.
  intros Hy Hnz Hi. split; [|apply count_background_layout].
  rewrite transformEvents_layout, <- app_assoc.
  rewrite lookup_app_l by (rewrite length_fmap; eapply lookup_lt_Some, Hi).
  rewrite list_lookup_fmap, Hi. simpl.
  now rewrite (holiday_year_academic _ _ _ y Hy Hnz).
Qed.

Lemma transformEvents_fixed_holiday_witness :
  Some settings_2025 ≫= Settings.academic_year = Some 2025 /\ 2025 <> 0
  /\ fixed_entries (Some settings_2025) !! 0%nat = Some ("0301", "Independence Day")
  /\ transformEvents 32400000 1740960000000 [] (Some settings_2025) [] !! 0%nat
     = Some
        {| Event.id := None;
           Event.title := "Independence Day";
           Event.start := "2025-03-01";
           Event.end_ := None;
           Event.display := Some "background";
           Event.className := Some "holiday-bg-event";
           Event.allDay := Some true;
           Event.backgroundColor := None;
           Event.borderColor := None;
           Event.extendedProps := None |}
  /\ length (List.filter is_background
               (transformEvents 32400000 1740960000000 [] (Some settings_2025) []))
     = 1%nat.
Proof.
  assert (Hy : Some settings_2025 ≫= Settings.academic_year = Some 2025) by reflexivity.
  assert (Hnz : 2025 <> 0) by lia.
  assert (Hi : fixed_entries (Some settings_2025) !! 0%nat
               = Some ("0301", "Independence Day")) by reflexivity.
  split; [exact Hy|]. split; [exact Hnz|]. split; [exact Hi|].
  exact (transformEvents_fixed_holiday 32400000 1740960000000 [] (Some settings_2025) []
           2025 0%nat "0" "3" "0" "1" "Independence Day" Hy Hnz Hi).
Defined.

(** The specification's example in full: one fixed holiday, no schedule,
    academic year 2025. *)
Example transformEvents_independence_day tz now :
  Event.start <$> transformEvents tz now [] (Some settings_2025) [] = ["2025-03-01"].
Proof. reflexivity. Qed.

End ProjectionFacts.

(** ** The search box *)

Module SearchFacts.
Import JSString Search Examples.

Lemma startsWith_spec s q :
  startsWith s q = true <-> exists after, s = q +:+ after.
Proof.
  revert s. induction q as [|b q IH]; intros s; simpl.
  - split; [intros _; now exists s|now destruct s].
  - destruct s as [|a s]; simpl.
    + split; [discriminate|intros [after H]; discriminate].
    + rewrite andb_true_iff, Ascii.eqb_eq, IH. split.
      * intros [-> [after ->]]. now exists after.
      * intros [after H]. injection H as -> ->. split; [reflexivity|now exists after].
Qed.

Lemma includes_spec s q : includes s q = true <-> occurs_in q s.
Proof.
  unfold occurs_in. induction s as [|a s IH]; cbn [includes].
  - rewrite orb_false_r, startsWith_spec. split.
    + intros [after H]. now exists EmptyString, after.
    + intros [[|c before] [after H]]; [now exists after|discriminate].
  - rewrite orb_true_iff, startsWith_spec, IH. split.
    + intros [[after H]|(before & after & H)].
      * now exists EmptyString, after.
      * exists (String a before), after. simpl. now rewrite H.
    + intros [[|c before] [after H]].
      * left. now exists after.
      * right. simpl in H. injection H as -> ->. now exists before, after.
Qed.

Lemma lower_char_idem c : lower_char (lower_char c) = lower_char c.
Proof. destruct c as [[] [] [] [] [] [] [] []]; reflexivity. Qed.

Lemma toLowerCase_idem s : toLowerCase (toLowerCase s) = toLowerCase s.
Proof. induction s as [|c s IH]; simpl; [reflexivity|]. now rewrite lower_char_idem, IH. Qed.

Lemma toLowerCase_trimStart s :
  toLowerCase s = s -> toLowerCase (trimStart s) = trimStart s.
Proof.
  induction s as [|c s IH]; simpl; [reflexivity|]. intros H.
  destruct (is_space c); [|exact H]. apply IH. now injection H.
Qed.

Lemma toLowerCase_trimEnd s :
  toLowerCase s = s -> toLowerCase (trimEnd s) = trimEnd s.
Proof.
  induction s as [|c s IH]; simpl; [reflexivity|]. intros H.
  injection H as Hc Hs. specialize (IH Hs).
  destruct (trimEnd s) as [|c' r].
  - destruct (is_space c); simpl; [reflexivity|now rewrite Hc].
  - change (toLowerCase (String c (String c' r)))
      with (String (lower_char c) (toLowerCase (String c' r))).
    now rewrite Hc, IH.
Qed.

(** The handler's [query] is already in lower case. *)
Lemma query_lower value :
  toLowerCase (trim (toLowerCase value)) = trim (toLowerCase value).
Proof. apply toLowerCase_trimEnd, toLowerCase_trimStart, toLowerCase_idem. Qed.



End SearchFacts.

(** ** More on the recurrence loop *)

Module ExpansionFacts.
Import ESDate JSDate JSString ISO Recurrence Examples ESDateFacts JSDateFacts ISOFacts
  RecurrenceFacts.

(** Days of the years 0 to 9999 carry those years. *)
Lemma YearFromDay_four_digits n :
  DayFromYear 0 <= n < DayFromYear 10000 -> 0 <= YearFromDay n <= 9999.
Proof.
  intros Hn. pose proof (YearFromDay_spec n) as Hs.
  pose proof (DayFromYear_mono (YearFromDay n + 1) 0).
  pose proof (DayFromYear_mono 10000 (YearFromDay n)). lia.
Qed.

Lemma Day_mono t t' : t <= t' -> Day t <= Day t'.
Proof. intros H. unfold Day. apply Z.div_le_mono; [reflexivity|exact H]. Qed.

(** Between two Dates made from strings, every time value prints as a
    date string that reads back as the midnight of its day. *)
Lemma Date_of_string_between s s' t t' c :
  Date_of_string s = Some t -> Date_of_string s' = Some t' -> t <= c <= t' ->
  Date_of_string (date_of_day (Day c)) = Some (Day c * msPerDay)
  /\ t <= Day c * msPerDay <= c.
Proof.
  intros Hs Hs' Hc.
  apply Date_of_string_range in Hs as [Hmid Hr], Hs' as [Hmid' Hr'].
  pose proof (Day_mono _ _ (proj1 Hc)) as H1.
  pose proof (Day_mono _ _ (proj2 Hc)) as H2.
  assert (Hday : Day c * msPerDay <= c).
  { unfold Day. pose proof (Z.mul_div_le c msPerDay eq_refl). lia. }
  split; [|unfold msPerDay in *; lia].
  rewrite Date_of_string_date_of_day.
  - unfold MakeDate. now rewrite Z.add_0_r.
  - apply YearFromDay_four_digits.
    change (DayFromYear 0) with (-719528). change (DayFromYear 10000) with 2932897.
    unfold msPerDay in *. lia.
Qed.

Section Handler.

Variable LocalTZA : Z.
Variable data : baseData.

(** An invariant [I] of the loop states and a property [Q] of the rows,
    kept by every iteration, hold after any number of iterations. *)
Lemma iterates_Forall (I : loop_state -> Prop) (Q : schedule_row -> Prop)
    dur until freq :
  (forall st row,
     I st -> loop_cond until st = true -> loop_row data dur st = Normal row ->
     Q row /\ I (next_state LocalTZA freq st row)) ->
  forall n st st',
    iterates LocalTZA data dur until freq n st st' ->
    I st -> Forall Q (batchData st) -> I st' /\ Forall Q (batchData st').
Proof.
  intros Hstep n st st' Hit. induction Hit as [|n st row st' Hcond Hrow _ IH];
    intros HI HQ; [now split|].
  destruct (Hstep st row HI Hcond Hrow) as [Hq HI'].
  apply IH; [exact HI'|]. simpl. apply Forall_app. split; [exact HQ|].
  now constructor.
Qed.

Section ValidDates.

Variables (startDateStr endDateStr untilStr : string) (ts te tu : Z).
Hypothesis Hstart : Date_of_string startDateStr = Some ts.
Hypothesis Hend : Date_of_string endDateStr = Some te.
Hypothesis Huntil : Date_of_string untilStr = Some tu.

(** With valid dates and until after start, the handler's result is the
    loop's batch, and the loop does not throw. *)
Lemma expand_is_loop freq :
  ts < tu ->
  exists n st,
    iterates LocalTZA data (Some (te - ts)) (Some tu) freq n
      {| curr := Some ts; limit := 0; batchData := [] |} st
    /\ loop_cond (Some tu) st = false
    /\ n <> 0%nat
    /\ limit st = Z.of_nat n
    /\ expand LocalTZA data startDateStr endDateStr untilStr freq
       = Normal (Save (batchData st)).
Proof.
  intros Hlt. unfold expand, build_batch.
  rewrite (str_le_dates _ _ _ _ Huntil Hstart).
  destruct (Z.leb_spec tu ts) as [|_]; [lia|].
  rewrite Hstart, Hend, Huntil. change (num_sub (Some te) (Some ts)) with (Some (te - ts)).
  set (st0 := {| curr := Some ts; limit := 0; batchData := [] |}).
  assert (Hcond0 : loop_cond (Some tu) st0 = true).
  { unfold loop_cond. simpl. now destruct (Z.leb_spec ts tu); [|lia]. }
  destruct (while_loop_iterates LocalTZA data (Some (te - ts)) (Some tu) freq st0)
    as (n & st & Hn & Hit & Hl & Hb & Hfin).
  assert (Hinv : loop_invariant ts (Day te - Day ts) st).
  { apply (iterates_invariant LocalTZA data _ _ _ _ _ _ Hstart Hend Huntil freq n st0 st Hit).
    split; simpl; [intros c [= <-]; lia|constructor]. }
  destruct Hfin as [[Hcond Hw]|(e & Hcond & Hrow & _)].
  - rewrite Hw. simpl in Hl, Hb |- *.
    assert (Hpos : n <> 0%nat).
    { intros ->. inversion Hit; subst. congruence. }
    exists n, st. repeat split; try assumption.
    destruct (Z.eqb_spec (Z.of_nat (length (batchData st))) 0); [lia|reflexivity].
  - destruct (loop_cond_cursor tu st Hcond) as (c & Hc & Hle).
    destruct Hinv as [Hcur _]. specialize (Hcur c Hc).
    rewrite (loop_row_in_range data _ _ _ _ _ _ Hstart Hend Huntil st c Hc) in Hrow;
      [discriminate|lia].
Qed.

(** X1.  With valid dates and until after start, whatever the frequency
    and the zone, every row starts on a calendar date that is not before
    the start date and not after the until date. *)
Theorem expand_rows_between freq rows :
  ts < tu ->
  expand LocalTZA data startDateStr endDateStr untilStr freq = Normal (Save rows) ->
  Forall (fun r => exists t,
            Date_of_string (start_date r) = Some t /\ ts <= t <= tu) rows.
Proof.
  intros Hlt Hrows.
  destruct (expand_is_loop freq Hlt) as (n & st & Hit & _ & _ & _ & Hexp).
  rewrite Hexp in Hrows. injection Hrows as <-.
  apply (iterates_Forall
           (fun st => forall c, curr st = Some c -> ts <= c)
           (fun r => exists t, Date_of_string (start_date r) = Some t /\ ts <= t <= tu)
           (Some (te - ts)) (Some tu) freq)
    with (n := n) (st := {| curr := Some ts; limit := 0; batchData := [] |});
    [|exact Hit| |constructor].
  - intros st1 row HI Hcond Hrow.
    destruct (loop_cond_cursor tu st1 Hcond) as (c & Hc & Hle).
    specialize (HI c Hc).
    rewrite (loop_row_in_range data _ _ _ _ _ _ Hstart Hend Huntil st1 c Hc)
      in Hrow by lia.
    injection Hrow as <-. split.
    + exists (Day c * msPerDay). simpl.
      destruct (Date_of_string_between _ _ _ _ c Hstart Huntil) as [H1 H2]; [lia|].
      split; [exact H1|lia].
    + simpl. rewrite Hc. intros c' Hc'. apply next_step_Some in Hc'. lia.
  - simpl. intros c [= <-]. lia.
Qed.

Lemma while_loop_fixed_step freq k :
  (freq = "weekly" /\ k = 7) \/ (freq = "biweekly" /\ k = 14) ->
  forall (m : nat) (j : Z) (st : loop_state),
    m = Z.to_nat (Z.min 52 ((Day tu - Day ts) / k + 1) - j) ->
    0 <= j <= Z.min 52 ((Day tu - Day ts) / k + 1) ->
    curr st = Some (ts + j * k * msPerDay) ->
    limit st = j ->
    exists st',
      while_loop LocalTZA data (Some (te - ts)) (Some tu) freq st = Normal st'
      /\ batchData st'
         = batchData st
             ++ ((fun i => {| base := data;
                             start_date := date_of_day (Day ts + k * i);
                             end_date := date_of_day (Day te + k * i) |})
                  <$> seqZ j (Z.min 52 ((Day tu - Day ts) / k + 1) - j)).
Proof.
  intros Hfreq.
  assert (Hk : k = 7 \/ k = 14) by (destruct Hfreq as [[_ ->]|[_ ->]]; auto).
  pose proof (Date_of_string_range _ _ Hstart) as [Hms Hrs].
  pose proof (Date_of_string_range _ _ Hend) as [Hme Hre].
  pose proof (Date_of_string_range _ _ Huntil) as [Hmu Hru].
  set (N := Z.min 52 ((Day tu - Day ts) / k + 1)).
  induction m as [|m IH]; intros j st Hm Hj Hc Hl;
    rewrite while_loop_eq.
  - assert (HjN : j = N) by lia.
    assert (Hcond : loop_cond (Some tu) st = false).
    { unfold loop_cond. rewrite Hc, Hl. simpl.
      destruct (Z.leb_spec (ts + j * k * msPerDay) tu); [|reflexivity].
      destruct (Z.ltb_spec j 52); [|reflexivity]. exfalso.
      unfold N in HjN. unfold msPerDay in *.
      destruct Hk as [-> | ->]; Z.div_mod_to_equations; lia. }
    rewrite Hcond. exists st. split; [reflexivity|].
    rewrite seqZ_nil by lia. simpl. now rewrite app_nil_r.
  - assert (HjN : j < N) by lia.
    assert (Hle : ts <= ts + j * k * msPerDay <= tu).
    { unfold N in HjN. unfold msPerDay in *.
      destruct Hk as [-> | ->]; Z.div_mod_to_equations; lia. }
    assert (Hcond : loop_cond (Some tu) st = true).
    { unfold loop_cond. rewrite Hc, Hl. simpl.
      destruct (Z.leb_spec (ts + j * k * msPerDay) tu); [|lia].
      destruct (Z.ltb_spec j 52); [reflexivity|lia]. }
    rewrite Hcond.
    rewrite (loop_row_in_range data _ _ _ _ _ _ Hstart Hend Huntil st _ Hc Hle).
    cbn [mbind completion_bind].
    destruct (IH (j + 1) (next_state LocalTZA freq st
                {| base := data;
                   start_date := date_of_day (Day (ts + j * k * msPerDay));
                   end_date := date_of_day
                                 (Day (ts + j * k * msPerDay) + (Day te - Day ts)) |}))
      as (st' & Hw & Hb); [lia|lia| |simpl; lia|].
    + simpl. rewrite Hc, (next_step_days LocalTZA freq k) by exact Hfreq.
      cbn [mbind option_bind]. rewrite TimeClip_in_range.
      * f_equal. lia.
      * unfold maxTime, msPerDay in *. destruct Hk as [-> | ->]; lia.
    + exists st'. split; [exact Hw|]. rewrite Hb. simpl.
      rewrite (seqZ_cons j) by lia. rewrite <- app_assoc. simpl.
      do 2 f_equal.
      * replace (j * k * msPerDay) with ((j * k) * msPerDay) by lia.
        rewrite Day_add_days. do 2 f_equal; lia.
      * do 2 f_equal; lia.
Qed.

(** The rows of a weekly ([k = 7]) or biweekly ([k = 14]) repetition. *)
Lemma expand_fixed_step_rows freq k :
  (freq = "weekly" /\ k = 7) \/ (freq = "biweekly" /\ k = 14) ->
  ts < tu ->
  expand LocalTZA data startDateStr endDateStr untilStr freq
  = Normal (Save
      ((fun i => {| base := data;
                    start_date := date_of_day (Day ts + k * i);
                    end_date := date_of_day (Day te + k * i) |})
         <$> seqZ 0 (Z.min 52 ((Day tu - Day ts) / k + 1)))).
Proof.
  intros Hfreq Hlt.
  assert (Hk : k = 7 \/ k = 14) by (destruct Hfreq as [[_ ->]|[_ ->]]; auto).
  pose proof (Date_of_string_range _ _ Hstart) as [Hms _].
  pose proof (Date_of_string_range _ _ Huntil) as [Hmu _].
  assert (HN : 1 <= Z.min 52 ((Day tu - Day ts) / k + 1)).
  { unfold msPerDay in *. destruct Hk as [-> | ->]; Z.div_mod_to_equations; lia. }
  unfold expand, build_batch.
  rewrite (str_le_dates _ _ _ _ Huntil Hstart).
  destruct (Z.leb_spec tu ts) as [|_]; [lia|].
  rewrite Hstart, Hend, Huntil. change (num_sub (Some te) (Some ts)) with (Some (te - ts)).
  destruct (while_loop_fixed_step freq k Hfreq _ 0
              {| curr := Some ts; limit := 0; batchData := [] |} eq_refl)
    as (st' & Hw & Hb); [lia|simpl; f_equal; lia|reflexivity|].
  rewrite Hw. cbn [mbind completion_bind mret completion_ret]. simpl in Hb.
  rewrite Z.sub_0_r in Hb. rewrite Hb. do 2 f_equal.
  rewrite length_fmap, length_seqZ.
  destruct (Z.eqb_spec (Z.of_nat (Z.to_nat (Z.min 52 ((Day tu - Day ts) / k + 1)))) 0);
    [lia|reflexivity].
Qed.

End ValidDates.
End Handler.

Lemma expand_rows_between_witness :
  Forall (fun r => exists t,
            Date_of_string (start_date r) = Some t
            /\ 1738281600000 <= t <= 1745971200000)
    [ {| base := staff_meeting_data; start_date := "2025-01-31"; end_date := "2025-01-31" |};
      {| base := staff_meeting_data; start_date := "2025-03-03"; end_date := "2025-03-03" |};
      {| base := staff_meeting_data; start_date := "2025-04-03"; end_date := "2025-04-03" |} ].
Proof.
  assert (Hs : Date_of_string "2025-01-31" = Some 1738281600000)
    by (vm_compute; reflexivity).
  assert (Hu : Date_of_string "2025-04-30" = Some 1745971200000)
    by (vm_compute; reflexivity).
  apply (expand_rows_between 32400000 staff_meeting_data "2025-01-31" "2025-01-31"
           "2025-04-30" 1738281600000 1738281600000 1745971200000 Hs Hs Hu "monthly").
  - lia.
  - vm_compute. reflexivity.
Defined.



End ExpansionFacts.

Module MonthlyFacts.
Import ESDate JSDate JSString ISO Recurrence Examples ESDateFacts JSDateFacts ISOFacts
  RecurrenceFacts ExpansionFacts.

(** [MakeDay] carries months beyond December into the year. *)
Lemma MakeDay_month_carry y M d :
  MakeDay y M d = MakeDay (y + M / 12) (M mod 12) d.
Proof.
  unfold MakeDay. rewrite Z.mod_mod by discriminate.
  rewrite (Z.div_small (M mod 12) 12) by (apply Z.mod_pos_bound; reflexivity).
  now rewrite Z.add_0_r.
Qed.

Lemma MakeDay_month_succ y M d :
  MakeDay (y + M / 12) (M mod 12 + 1) d = MakeDay y (M + 1) d.
Proof.
  unfold MakeDay.
  assert (Hy : y + M / 12 + (M mod 12 + 1) / 12 = y + (M + 1) / 12)
    by (Z.div_mod_to_equations; lia).
  assert (Hm : (M mod 12 + 1) mod 12 = (M + 1) mod 12)
    by (Z.div_mod_to_equations; lia).
  now rewrite Hy, Hm.
Qed.

(** Year, month and date of day [d <= 28] of the [M]-th month counted
    from January of year [y]. *)
Lemma civil_of_month_day y M d t :
  1 <= d <= 28 -> Day t = MakeDay y M d ->
  YearFromTime t = y + M / 12 /\ MonthFromTime t = M mod 12 /\ DateFromTime t = d.
Proof.
  intros Hd Ht. rewrite MakeDay_month_carry in Ht.
  pose proof (Z.mod_pos_bound M 12 eq_refl) as Hm.
  pose proof (DaysInMonth_range (y + M / 12) (M mod 12) ltac:(lia)) as Hr.
  destruct (civil_of_MakeDay (y + M / 12) (M mod 12 + 1) d t) as (H1 & H2 & H3);
    [lia| |now replace (M mod 12 + 1 - 1) with (M mod 12) by lia|].
  - replace (M mod 12 + 1 - 1) with (M mod 12) by lia. lia.
  - split; [exact H1|]. split; [lia|exact H3].
Qed.

Lemma date_of_day_month_day y M d :
  1 <= d <= 28 ->
  date_of_day (MakeDay y M d)
  = year_string (y + M / 12) +:+ "-" +:+ pad2 (M mod 12 + 1) +:+ "-" +:+ pad2 d.
Proof.
  intros Hd. unfold date_of_day, isoDate.
  destruct (civil_of_month_day y M d (MakeDate (MakeDay y M d) 0) Hd (Day_MakeDate _))
    as (-> & -> & ->).
  reflexivity.
Qed.

(** East of UTC (or in UTC) the monthly step takes a midnight on day
    [d <= 28] of a month to the midnight on day [d] of the next month. *)
Lemma next_step_monthly_day tz y M d :
  0 <= tz < msPerDay -> 1 <= d <= 28 ->
  next_step tz "monthly" (Some (MakeDay y M d * msPerDay))
  = TimeClip (MakeDay y (M + 1) d * msPerDay).
Proof.
  intros Htz Hd. rewrite next_step_monthly.
  assert (Hday : Day (MakeDay y M d * msPerDay + tz) = MakeDay y M d).
  { unfold Day, msPerDay in *. Z.div_mod_to_equations. lia. }
  destruct (civil_of_month_day y M d _ Hd Hday) as (-> & -> & _).
  f_equal. rewrite <- MakeDay_month_succ, (MakeDay_month_carry y M d).
  unfold DaysInMonth.
  assert (Hshift : forall mm, MakeDay (y + M / 12) mm d
                              = MakeDay (y + M / 12) mm 1 + (d - 1)).
  { intros mm. rewrite <- MakeDay_date_shift. f_equal. lia. }
  rewrite (Hshift (M mod 12)), (Hshift (M mod 12 + 1)). unfold msPerDay. lia.
Qed.

Lemma MakeDay_next_month y M d :
  1 <= d <= 28 -> 28 <= MakeDay y (M + 1) d - MakeDay y M d <= 31.
Proof.
  intros Hd. rewrite <- MakeDay_month_succ, (MakeDay_month_carry y M d).
  pose proof (Z.mod_pos_bound M 12 eq_refl) as Hm.
  pose proof (DaysInMonth_range (y + M / 12) (M mod 12) ltac:(lia)) as Hr.
  unfold DaysInMonth in Hr.
  assert (Hshift : forall mm, MakeDay (y + M / 12) mm d
                              = MakeDay (y + M / 12) mm 1 + (d - 1)).
  { intros mm. rewrite <- MakeDay_date_shift. f_equal. lia. }
  rewrite (Hshift (M mod 12)), (Hshift (M mod 12 + 1)). lia.
Qed.

Section Monthly.

Variables (LocalTZA : Z) (data : baseData).
Variables (startDateStr endDateStr untilStr : string) (ts te tu y m d : Z).
Hypothesis Hstart : Date_of_string startDateStr = Some ts.
Hypothesis Hend : Date_of_string endDateStr = Some te.
Hypothesis Huntil : Date_of_string untilStr = Some tu.
Hypothesis Hfields : date_fields startDateStr = Some (y, m, d).
Hypothesis Hday : d <= 28.
Hypothesis Hzone : 0 <= LocalTZA < msPerDay.

Lemma start_is_month_day : ts = MakeDay y (m - 1) d * msPerDay /\ 1 <= d.
Proof.
  destruct (Date_of_string_Some _ _ Hstart) as (y' & m' & d' & Hf & Hm & Hd & ->).
  rewrite Hfields in Hf. injection Hf as <- <- <-. split; [reflexivity|lia].
Qed.

Lemma while_loop_monthly (n : nat) :
  forall (j : Z) (st : loop_state),
    n = Z.to_nat (52 - j) -> 0 <= j <= 52 ->
    curr st = Some (MakeDay y (m - 1 + j) d * msPerDay) ->
    limit st = j ->
    ts <= MakeDay y (m - 1 + j) d * msPerDay ->
    exists (N : Z) (st' : loop_state),
      j <= N <= 52
      /\ while_loop LocalTZA data (Some (te - ts)) (Some tu) "monthly" st = Normal st'
      /\ batchData st'
         = batchData st
             ++ ((fun i => {| base := data;
                              start_date := date_of_day (MakeDay y (m - 1 + i) d);
                              end_date := date_of_day
                                (MakeDay y (m - 1 + i) d + (Day te - Day ts)) |})
                   <$> seqZ j (N - j))
      /\ (forall i, j <= i < N -> MakeDay y (m - 1 + i) d * msPerDay <= tu)
      /\ (N < 52 -> tu < MakeDay y (m - 1 + N) d * msPerDay).
Proof.
  destruct start_is_month_day as [_ Hd1].
  pose proof (Date_of_string_range _ _ Huntil) as [_ Hru].
  pose proof (Date_of_string_range _ _ Hstart) as [_ Hrs].
  induction n as [|n IH]; intros j st Hn Hj Hc Hl Hts; rewrite while_loop_eq.
  - assert (Hj52 : j = 52) by lia.
    assert (Hcond : loop_cond (Some tu) st = false).
    { unfold loop_cond. rewrite Hl.
      destruct (Z.ltb_spec j 52); [lia|apply andb_false_r]. }
    rewrite Hcond. exists j, st. repeat split; try lia.
    rewrite seqZ_nil by lia. simpl. now rewrite app_nil_r.
  - destruct (Z.le_gt_cases (MakeDay y (m - 1 + j) d * msPerDay) tu) as [Hle|Hgt].
    + assert (Hcond : loop_cond (Some tu) st = true).
      { unfold loop_cond. rewrite Hc, Hl. simpl.
        destruct (Z.leb_spec (MakeDay y (m - 1 + j) d * msPerDay) tu); [|lia].
        destruct (Z.ltb_spec j 52); [reflexivity|lia]. }
      rewrite Hcond.
      rewrite (loop_row_in_range data _ _ _ _ _ _ Hstart Hend Huntil st _ Hc (conj Hts Hle)).
      cbn [mbind completion_bind].
      pose proof (MakeDay_next_month y (m - 1 + j) d ltac:(lia)) as Hnext.
      replace (m - 1 + j + 1) with (m - 1 + (j + 1)) in Hnext by lia.
      destruct (IH (j + 1) (next_state LocalTZA "monthly" st
                  {| base := data;
                     start_date := date_of_day (Day (MakeDay y (m - 1 + j) d * msPerDay));
                     end_date := date_of_day
                       (Day (MakeDay y (m - 1 + j) d * msPerDay) + (Day te - Day ts)) |}))
        as (N & st' & HN & Hw & Hb & Hin & Hout); [lia|lia| |simpl; lia| |].
      * simpl. rewrite Hc, next_step_monthly_day by lia.
        replace (m - 1 + j + 1) with (m - 1 + (j + 1)) by lia.
        apply TimeClip_in_range. unfold maxTime, msPerDay in *. lia.
      * unfold msPerDay in *. lia.
      * exists N, st'. split; [lia|]. split; [exact Hw|]. split.
        -- rewrite Hb. simpl. rewrite (seqZ_cons j) by lia.
           rewrite <- app_assoc. simpl. unfold Day.
           rewrite Z.div_mul by discriminate.
           do 3 f_equal. f_equal; lia.
        -- split; [|exact Hout]. intros i Hi.
           destruct (Z.eq_dec i j) as [->|]; [exact Hle|apply Hin; lia].
    + assert (Hcond : loop_cond (Some tu) st = false).
      { unfold loop_cond. rewrite Hc. simpl.
        now destruct (Z.leb_spec (MakeDay y (m - 1 + j) d * msPerDay) tu); [lia|]. }
      rewrite Hcond. exists j, st. repeat split; try lia.
      rewrite seqZ_nil by lia. simpl. now rewrite app_nil_r.
Qed.


End Monthly.


End MonthlyFacts.

(** ** Edge cases of the recurrence loop *)

Module EdgeFacts.
Import ESDate JSDate JSString ISO Recurrence Examples ESDateFacts JSDateFacts ISOFacts
  RecurrenceFacts.





Section UnknownFrequency.

Variables (tz : Z) (data : baseData).
Variables (startDateStr endDateStr untilStr freq : string) (ts te tu : Z).
Hypothesis Hstart : Date_of_string startDateStr = Some ts.
Hypothesis Hend : Date_of_string endDateStr = Some te.
Hypothesis Huntil : Date_of_string untilStr = Some tu.
Hypothesis Hfreq : freq <> "weekly" /\ freq <> "biweekly" /\ freq <> "monthly".

Lemma next_step_unknown c : next_step tz freq c = c.
Proof.
  unfold next_step. destruct Hfreq as (H1 & H2 & H3).
  destruct (String.eqb_spec freq "weekly"); [contradiction|].
  destruct (String.eqb_spec freq "biweekly"); [contradiction|].
  destruct (String.eqb_spec freq "monthly"); [contradiction|]. reflexivity.
Qed.

Lemma while_loop_unknown (n : nat) :
  ts <= tu ->
  forall (j : Z) (st : loop_state),
    n = Z.to_nat (52 - j) -> 0 <= j <= 52 ->
    curr st = Some ts -> limit st = j ->
    exists st',
      while_loop tz data (Some (te - ts)) (Some tu) freq st = Normal st'
      /\ batchData st'
         = batchData st
             ++ replicate n {| base := data; start_date := startDateStr;
                               end_date := endDateStr |}.
Proof.
  intros Hle. induction n as [|n IH]; intros j st Hn Hj Hc Hl; rewrite while_loop_eq.
  - assert (Hcond : loop_cond (Some tu) st = false).
    { unfold loop_cond. rewrite Hl.
      destruct (Z.ltb_spec j 52); [lia|apply andb_false_r]. }
    rewrite Hcond. exists st. split; [reflexivity|]. simpl. now rewrite app_nil_r.
  - assert (Hcond : loop_cond (Some tu) st = true).
    { unfold loop_cond. rewrite Hc, Hl. simpl.
      destruct (Z.leb_spec ts tu); [|lia].
      destruct (Z.ltb_spec j 52); [reflexivity|lia]. }
    rewrite Hcond.
    rewrite (loop_row_in_range data _ _ _ _ _ _ Hstart Hend Huntil st ts Hc) by lia.
    cbn [mbind completion_bind].
    rewrite (date_of_day_Date_of_string _ _ Hstart).
    replace (Day ts + (Day te - Day ts)) with (Day te) by lia.
    rewrite (date_of_day_Date_of_string _ _ Hend).
    destruct (IH (j + 1) (next_state tz freq st
                {| base := data; start_date := startDateStr; end_date := endDateStr |}))
      as (st' & Hw & Hb); [lia|lia| |simpl; lia|].
    + simpl. now rewrite next_step_unknown.
    + exists st'. split; [exact Hw|]. rewrite Hb. simpl. now rewrite <- app_assoc.
Qed.

(** X4.  A frequency other than the three the loop knows never moves
    the cursor: the handler saves 52 copies of the form's own row. *)
Theorem expand_unknown_frequency_rows :
  ts < tu ->
  expand tz data startDateStr endDateStr untilStr freq
  = Normal (Save (replicate 52 {| base := data; start_date := startDateStr;
                                  end_date := endDateStr |})).
Proof.
  intros Hlt. unfold expand, build_batch.
  rewrite (str_le_dates _ _ _ _ Huntil Hstart).
  destruct (Z.leb_spec tu ts) as [|_]; [lia|].
  rewrite Hstart, Hend, Huntil.
  change (num_sub (Some te) (Some ts)) with (Some (te - ts)).
  destruct (while_loop_unknown 52 ltac:(lia) 0
              {| curr := Some ts; limit := 0; batchData := [] |})
    as (st' & Hw & Hb); [reflexivity|lia|reflexivity|reflexivity|].
  rewrite Hw. cbn [mbind completion_bind mret completion_ret].
  simpl in Hb. rewrite Hb. reflexivity.
Qed.

End UnknownFrequency.

Lemma expand_unknown_frequency_rows_witness :
  expand 32400000 staff_meeting_data "2025-03-03" "2025-03-04" "2025-03-24" "daily"
  = Normal (Save (replicate 52 {| base := staff_meeting_data; start_date := "2025-03-03";
                                  end_date := "2025-03-04" |})).
Proof.
  apply (expand_unknown_frequency_rows 32400000 staff_meeting_data "2025-03-03"
           "2025-03-04" "2025-03-24" "daily" 1740960000000 1741046400000 1742774400000).
  - vm_compute. reflexivity.
  - vm_compute. reflexivity.
  - vm_compute. reflexivity.
  - repeat split; discriminate.
  - lia.
Defined.

End EdgeFacts.

(** ** The default until date and the repetitions it gives *)

Module RepeatFacts.
Import ESDate JSDate JSString ISO Recurrence RepeatOptions Examples ESDateFacts JSDateFacts
  ISOFacts RecurrenceFacts ExpansionFacts.

(** The monthly step of the loop is the step that fills in the until
    input. *)
Lemma next_step_setMonth tz c :
  next_step tz "monthly" c = setMonth tz c (num_add (getMonth tz c) (Some 1)).
Proof. reflexivity. Qed.

(** From a start date before December 9999 the step lands [k] days later,
    [k] the length of the month the start lies in by local time; the until
    input gets the date of that day. *)
Lemma default_until tz s ts :
  Date_of_string s = Some ts -> ts < MakeDay 9999 11 1 * msPerDay ->
  exists k,
    28 <= k <= 31
    /\ setMonth tz (Some ts) (num_add (getMonth tz (Some ts)) (Some 1))
       = Some (ts + k * msPerDay)
    /\ repeat_onchange tz true s "" = Normal (date_of_day (Day ts + k))
    /\ Date_of_string (date_of_day (Day ts + k)) = Some (ts + k * msPerDay).
Proof.
  intros Hs Hb.
  assert (Hdec : MakeDay 9999 11 1 = 2932866) by (vm_compute; reflexivity).
  rewrite Hdec in Hb.
  pose proof (Date_of_string_range _ _ Hs) as [Hmid Hr].
  set (k := DaysInMonth (YearFromTime (LocalTime tz ts)) (MonthFromTime (LocalTime tz ts))).
  assert (Hk : 28 <= k <= 31) by (apply DaysInMonth_range, MonthFromTime_range).
  assert (Hset : setMonth tz (Some ts) (num_add (getMonth tz (Some ts)) (Some 1))
                 = Some (ts + k * msPerDay)).
  { rewrite setMonth_getMonth_succ. fold k. apply TimeClip_in_range.
    unfold maxTime, msPerDay in *. lia. }
  exists k. split; [exact Hk|]. split; [exact Hset|]. split.
  - unfold repeat_onchange. cbn [String.eqb]. rewrite Hs, Hset.
    rewrite toISOString_date_part, isoDate_date_of_day, Day_add_days. reflexivity.
  - rewrite Date_of_string_date_of_day.
    + unfold MakeDate. f_equal. unfold msPerDay in *. lia.
    + apply YearFromDay_four_digits.
      change (DayFromYear 0) with (-719528). change (DayFromYear 10000) with 2932897.
      unfold msPerDay in *. lia.
Qed.







End RepeatFacts.

(** ** Saving the form *)

Module SubmitFacts.
Import ESDate JSDate JSString ISO Recurrence Submit Examples ESDateFacts JSDateFacts
  ISOFacts RecurrenceFacts.

(** X10.  Saving an existing schedule sends one update of that schedule
    with the dates of the form as they are, whatever the repeat box, the
    until date and the frequency hold; no date is parsed, so nothing can
    throw and no alert is shown. *)
Theorem save_request_edit tz data scheduleId repeatChecked startDateStr endDateStr
    untilStr freq :
  scheduleId <> "" ->
  save_request tz data scheduleId repeatChecked startDateStr endDateStr untilStr freq
  = Normal (Some (Update scheduleId
      (Some {| base := data; start_date := startDateStr; end_date := endDateStr |}))).
Proof.
  intros Hid. unfold save_request, isRecurring.
  destruct (String.eqb_spec scheduleId "") as [|_]; [contradiction|]. reflexivity.
Qed.

Lemma save_request_edit_witness :
  save_request 32400000 staff_meeting_data "41" true "2025-03-03" "" "2025-01-01" "weekly"
  = Normal (Some (Update "41"
      (Some {| base := staff_meeting_data; start_date := "2025-03-03"; end_date := "" |}))).
Proof.
  apply (save_request_edit 32400000 staff_meeting_data "41" true "2025-03-03" ""
           "2025-01-01" "weekly").
  discriminate.
Defined.

(** X11.  Whatever the inputs hold, a new schedule that reaches the
    backend is one insert of at least one and at most 52 rows, each
    carrying the fields of the form. *)
Theorem save_request_new tz data repeatChecked startDateStr endDateStr untilStr freq r :
  save_request tz data "" repeatChecked startDateStr endDateStr untilStr freq
  = Normal (Some r) ->
  exists rows,
    r = Insert rows
    /\ (1 <= length rows <= 52)%nat
    /\ Forall (fun row => base row = data) rows.
Proof.
  unfold save_request, isRecurring. cbn [String.eqb andb negb].
  destruct repeatChecked; unfold build_batch.
  - destruct (str_le untilStr startDateStr); [discriminate|].
    set (st0 := {| curr := Date_of_string startDateStr; limit := 0; batchData := [] |}).
    set (dur := num_sub _ _). set (until := Date_of_string untilStr).
    destruct (while_loop_iterates tz data dur until freq st0)
      as (n & st & Hn & Hit & _ & Hlen & Hfin).
    destruct (iterates_batchData _ _ _ _ _ _ _ _ Hit) as (pushed & Hb & Hp & Hbase).
    simpl in Hn, Hlen, Hb. subst pushed.
    destruct Hfin as [[_ Hw]|(e & _ & _ & Hw)]; rewrite Hw; [|discriminate].
    cbn [mbind completion_bind mret completion_ret]. intros [= <-].
    eexists. split; [reflexivity|].
    destruct (Z.eqb_spec (Z.of_nat (length (batchData st))) 0) as [H0|H0].
    + destruct (batchData st); [|discriminate]. simpl. split; [lia|].
      now repeat constructor.
    + split; [lia|exact Hbase].
  - cbn [mbind completion_bind mret completion_ret]. intros [= <-].
    eexists. split; [reflexivity|]. simpl. split; [lia|]. now repeat constructor.
Qed.

Lemma save_request_new_witness :
  exists rows,
    Insert [ {| base := staff_meeting_data; start_date := "2025-03-03";
                end_date := "2025-03-04" |};
             {| base := staff_meeting_data; start_date := "2025-03-17";
                end_date := "2025-03-18" |} ] = Insert rows
    /\ (1 <= length rows <= 52)%nat
    /\ Forall (fun row => base row = staff_meeting_data) rows.
Proof.
  apply (save_request_new 32400000 staff_meeting_data true "2025-03-03" "2025-03-04"
           "2025-03-24" "biweekly").
  vm_compute. reflexivity.
Defined.

End SubmitFacts.

(** ** Department colours and the department filter *)

Module DepartmentFacts.
Import JSString Projection DeptFilter Examples ProjectionFacts.

(** [deptMap] answers an id with the last department that carries it. *)
Lemma deptMap_of_lookup_last before d after :
  Department.id d ∉ (Department.id <$> after) ->
  deptMap_of (before ++ d :: after) !! Department.id d = Some d.
Proof.
  intros Hnot. unfold deptMap_of. rewrite foldl_app. simpl.
  assert (Hgen : forall (m : gmap string Department.t),
             m !! Department.id d = Some d ->
             foldl (fun deptMap x => <[Department.id x := x]> deptMap) m after
               !! Department.id d = Some d).
  { induction after as [|x after IH]; intros m Hm; simpl; [exact Hm|].
    rewrite fmap_cons, not_elem_of_cons in Hnot. destruct Hnot as [Hne Hnot].
    apply IH; [exact Hnot|]. rewrite lookup_insert_ne by congruence. exact Hm. }
  apply Hgen. apply lookup_insert_eq.
Qed.

(** X12.  The calendar entry of a schedule takes both its colours from the
    last department in the list that carries the schedule's department
    id; a department without a colour, or with an empty one, gives the
    default blue. *)
Theorem transformEvents_department_colour tz now schedules settings before d after
    (i : nat) (s : Schedule.t) :
  schedules !! i = Some s ->
  Schedule.dept_id s = Department.id d ->
  Department.id d ∉ (Department.id <$> after) ->
  exists e,
    transformEvents tz now schedules settings (before ++ d :: after)
      !! (length (fixed_entries settings) + length (variable_entries settings) + i)%nat
    = Some e
    /\ Event.id e = Some (Schedule.id s)
    /\ Event.backgroundColor e = Some (string_or (Department.dept_color d) "#3788d8")
    /\ Event.borderColor e = Some (string_or (Department.dept_color d) "#3788d8").
Proof.
  intros Hs Hid Hlast. rewrite transformEvents_layout.
  exists (schedule_event (deptMap_of (before ++ d :: after)) s). split.
  - rewrite lookup_app_r; rewrite length_app, !length_fmap; [|lia].
    replace (_ + _ + i - _)%nat with i by lia.
    now rewrite list_lookup_fmap, Hs.
  - unfold schedule_event. cbn. rewrite Hid, deptMap_of_lookup_last by exact Hlast.
    now repeat split.
Qed.

Lemma transformEvents_department_colour_witness :
  exists e,
    transformEvents 32400000 1740960000000 [staff_meeting] (Some settings_2025)
      ([] ++ {| Department.id := "7"; Department.dept_name := "Office";
                Department.dept_color := Some ""; Department.is_active := true;
                Department.sort_order := 2 |} :: [science_department])
      !! (length (fixed_entries (Some settings_2025))
          + length (variable_entries (Some settings_2025)) + 0)%nat
    = Some e
    /\ Event.id e = Some (Schedule.id staff_meeting)
    /\ Event.backgroundColor e = Some (string_or (Some "") "#3788d8")
    /\ Event.borderColor e = Some (string_or (Some "") "#3788d8").
Proof.
  apply (transformEvents_department_colour 32400000 1740960000000 [staff_meeting]
           (Some settings_2025) []
           {| Department.id := "7"; Department.dept_name := "Office";
              Department.dept_color := Some ""; Department.is_active := true;
              Department.sort_order := 2 |} [science_department] 0 staff_meeting).
  - reflexivity.
  - reflexivity.
  - vm_compute. intros H. inversion H as [|? ? ? H']; subst. inversion H'.
Defined.

(** A box of the rendered list is never cleared. *)
Lemma box_checked_rendered departments k :
  box_checked (renderDeptFilters departments) k <> Some false.
Proof.
  unfold box_checked, renderDeptFilters.
  induction departments as [|x l IH]; simpl; [discriminate|].
  destruct (String.eqb (Department.id x) k); [discriminate|exact IH].
Qed.

(** X15.  Right after the filter list is rendered, no calendar entry is
    hidden: every box comes up ticked. *)
Theorem rendered_filter_hides_nothing departments e :
  hides (renderDeptFilters departments) e = false.
Proof.
  unfold hides. destruct (Event.extendedProps e) as [p|]; [|reflexivity].
  destruct (negb _); [|reflexivity].
  pose proof (box_checked_rendered departments (Event.deptId p)) as H.
  now destruct (box_checked _ _) as [[|]|].
Qed.

(** With distinct ids, clearing the box of one department makes the
    selector answer [false] for that department's id and no other. *)
Lemma box_checked_cleared departments (j : nat) d k :
  NoDup (Department.id <$> departments) ->
  departments !! j = Some d ->
  box_checked (set_box j false (renderDeptFilters departments)) k = Some false
  <-> k = Department.id d.
Proof.
  unfold box_checked, set_box, renderDeptFilters.
  revert j. induction departments as [|x l IH]; intros j Hnd Hj; [discriminate|].
  rewrite fmap_cons in Hnd. apply NoDup_cons in Hnd as [Hx Hnd].
  destruct j as [|j]; simpl in Hj |- *.
  - injection Hj as ->. destruct (String.eqb_spec (Department.id d) k) as [->|Hne].
    + now split.
    + split; [|congruence]. intros H. exfalso.
      exact (box_checked_rendered l k H).
  - destruct (String.eqb_spec (Department.id x) k) as [<-|Hne].
    + split; [discriminate|]. intros Heq. exfalso. apply Hx. rewrite Heq.
      apply list_elem_of_fmap. exists d. split; [reflexivity|].
      now apply list_elem_of_lookup_2 in Hj.
    + apply IH; assumption.
Qed.

(** X16.  With distinct department ids, clearing the box of one
    department hides exactly the entries that carry that department's id:
    holidays and the entries of every other department, known or not, stay
    visible. *)
Theorem cleared_box_hides_department departments (j : nat) d e :
  NoDup (Department.id <$> departments) ->
  departments !! j = Some d ->
  Department.id d <> "" ->
  hides (set_box j false (renderDeptFilters departments)) e = true
  <-> exists p, Event.extendedProps e = Some p /\ Event.deptId p = Department.id d.
Proof.
  intros Hnd Hj Hne. unfold hides.
  destruct (Event.extendedProps e) as [p|].
  - pose proof (box_checked_cleared departments j d (Event.deptId p) Hnd Hj) as Hbox.
    destruct (String.eqb_spec (Event.deptId p) "") as [Hempty|Hfull]; simpl.
    + split; [discriminate|]. intros (p' & [= <-] & Hp). congruence.
    + split.
      * intros H. exists p. split; [reflexivity|]. apply Hbox.
        now destruct (box_checked _ _) as [[|]|].
      * intros (p' & [= <-] & Hp). apply Hbox in Hp. now rewrite Hp.
  - split; [discriminate|]. now intros (p & Hp & _).
Qed.

Lemma cleared_box_hides_department_witness :
  hides (set_box 0 false (renderDeptFilters [science_department]))
        (schedule_event (deptMap_of [science_department]) staff_meeting) = true
  <-> exists p,
        Event.extendedProps (schedule_event (deptMap_of [science_department]) staff_meeting)
        = Some p
        /\ Event.deptId p = Department.id science_department.
Proof.
  apply (cleared_box_hides_department [science_department] 0 science_department).
  - vm_compute. repeat constructor. intros H. inversion H.
  - reflexivity.
  - discriminate.
Defined.

End DepartmentFacts.

(** ** Calendar entries and clicks *)

Module EntryFacts.
Import JSString Projection DeptFilter Examples ProjectionFacts.

Lemma omap_id_holidays {A} (f : A -> Event.t) (l : list A) :
  (forall x, Event.id (f x) = None) -> omap Event.id (f <$> l) = [].
Proof.
  intros Hf. induction l as [|x l IH]; [reflexivity|].
  rewrite fmap_cons. cbn [omap list_omap]. now rewrite Hf.
Qed.

Lemma omap_id_schedules deptMap (l : list Schedule.t) :
  omap Event.id (schedule_event deptMap <$> l) = Schedule.id <$> l.
Proof.
  induction l as [|s l IH]; [reflexivity|].
  rewrite !fmap_cons. cbn [omap list_omap schedule_event Event.id]. now rewrite IH.
Qed.

(** X13.  The entries that carry an id are the schedules, each exactly
    once and in the order given: no schedule is dropped or repeated, and no
    holiday entry has an id. *)
Theorem transformEvents_ids tz now schedules settings departments :
  omap Event.id (transformEvents tz now schedules settings departments)
  = Schedule.id <$> schedules.
Proof.
  rewrite transformEvents_layout, !omap_app.
  rewrite (omap_id_holidays (fixed_holiday_event _)) by (now intros [mmdd name]).
  rewrite (omap_id_holidays variable_holiday_event) by (now intros [dateStr name]).
  apply omap_id_schedules.
Qed.

Lemma eventClick_background {A} (f : A -> Event.t) (l : list A) :
  (forall x, is_background (f x) = true) ->
  eventClick <$> (f <$> l) = replicate (length l) None.
Proof.
  intros Hf. induction l as [|x l IH]; [reflexivity|].
  rewrite !fmap_cons, IH. cbn [length replicate]. f_equal.
  unfold eventClick. specialize (Hf x). unfold is_background in Hf. now rewrite Hf.
Qed.

(** X14.  A click on a holiday entry opens nothing; a click on any other
    entry of the calendar asks for the schedule form of the schedule the
    entry was made from. *)
Theorem eventClick_transformEvents tz now schedules settings departments :
  eventClick <$> transformEvents tz now schedules settings departments
  = replicate (length (fixed_entries settings) + length (variable_entries settings)) None
    ++ ((fun s => Some (Some (Schedule.id s))) <$> schedules).
Proof.
  rewrite transformEvents_layout, !fmap_app.
  rewrite (eventClick_background (fixed_holiday_event _))
    by apply fixed_holiday_event_background.
  rewrite (eventClick_background variable_holiday_event)
    by apply variable_holiday_event_background.
  rewrite <- replicate_add. f_equal.
  induction schedules as [|s l IH]; [reflexivity|]. rewrite !fmap_cons. now rewrite IH.
Qed.

End EntryFacts.

(** ** More on strings: trimming, folding and search *)

Module StringFacts.
Import JSString Search SearchFacts.

Lemma append_nil_l (b : string) : "" +:+ b = b.
Proof. reflexivity. Qed.

Lemma append_cons x (a b : string) : String x a +:+ b = String x (a +:+ b).
Proof. reflexivity. Qed.

Lemma append_assoc (a b c : string) : (a +:+ b) +:+ c = a +:+ (b +:+ c).
Proof.
  induction a as [|x a IH]; [reflexivity|]. rewrite !append_cons. now rewrite IH.
Qed.

Lemma append_nil_r (a : string) : a +:+ "" = a.
Proof. induction a as [|x a IH]; [reflexivity|]. rewrite append_cons. now rewrite IH. Qed.

Lemma length_append (a b : string) :
  String.length (a +:+ b) = (String.length a + String.length b)%nat.
Proof.
  induction a as [|x a IH]; [reflexivity|]. rewrite append_cons. simpl. now rewrite IH.
Qed.

Lemma toLowerCase_app a b : toLowerCase (a +:+ b) = toLowerCase a +:+ toLowerCase b.
Proof.
  induction a as [|x a IH]; [reflexivity|].
  rewrite append_cons. simpl. rewrite append_cons. now rewrite IH.
Qed.

(** Trimming at the start leaves what follows a visible character. *)
Lemma trimStart_app a b : trimStart a <> "" -> trimStart (a +:+ b) = trimStart a +:+ b.
Proof.
  induction a as [|x a IH]; [contradiction|]. rewrite append_cons. simpl.
  destruct (is_space x); [exact IH|intros _; now rewrite append_cons].
Qed.

(** Trimming at the end of a longer string keeps what trimming the
    shorter one gave. *)
Lemma trimEnd_app_prefix a b : exists after, trimEnd (a +:+ b) = trimEnd a +:+ after.
Proof.
  induction a as [|x a [after IH]]; [now exists (trimEnd b)|].
  rewrite append_cons. cbn [trimEnd]. rewrite IH.
  destruct (trimEnd a) as [|y r].
  - rewrite append_nil_l. destruct after as [|z after'].
    + exists "". now rewrite append_nil_r.
    + destruct (is_space x); [now exists (String x (String z after'))|].
      now exists (String z after').
  - rewrite append_cons. now exists after.
Qed.

Lemma trimEnd_app_visible a b : trimEnd b <> "" -> trimEnd (a +:+ b) = a +:+ trimEnd b.
Proof.
  intros Hb. induction a as [|x a IH]; [reflexivity|].
  rewrite !append_cons. cbn [trimEnd]. rewrite IH.
  destruct (a +:+ trimEnd b) as [|y r] eqn:Happ; [|reflexivity].
  destruct a; [|discriminate]. rewrite append_nil_l in Happ. contradiction.
Qed.

Lemma trimEnd_idem s : trimEnd (trimEnd s) = trimEnd s.
Proof.
  induction s as [|x s IH]; [reflexivity|]. cbn [trimEnd].
  destruct (trimEnd s) as [|y r] eqn:Hs.
  - destruct (is_space x) eqn:Hx; [reflexivity|]. cbn [trimEnd]. now rewrite Hx.
  - cbn [trimEnd] in IH |- *. now rewrite IH.
Qed.

(** A string that is empty or begins with a visible character. *)
Lemma trimStart_fixed s :
  match s with EmptyString => True | String x _ => is_space x = false end ->
  trimStart s = s.
Proof. destruct s as [|x s]; [reflexivity|]. simpl. now intros ->. Qed.

Lemma trimStart_visible s :
  match trimStart s with EmptyString => True | String x _ => is_space x = false end.
Proof.
  induction s as [|x s IH]; [exact I|]. simpl. destruct (is_space x) eqn:Hx; [exact IH|exact Hx].
Qed.

Lemma trimEnd_visible s :
  match s with EmptyString => True | String x _ => is_space x = false end ->
  match trimEnd s with EmptyString => True | String x _ => is_space x = false end.
Proof.
  destruct s as [|x s]; [trivial|]. intros Hx. cbn [trimEnd].
  destruct (trimEnd s); [now rewrite Hx|exact Hx].
Qed.

Lemma trim_visible s :
  match trim s with EmptyString => True | String x _ => is_space x = false end.
Proof. apply trimEnd_visible, trimStart_visible. Qed.

Lemma trim_idem s : trim (trim s) = trim s.
Proof.
  unfold trim at 1. rewrite (trimStart_fixed (trim s)) by apply trim_visible.
  apply trimEnd_idem.
Qed.

(** A one-character search. *)
Lemma includes_char s c : includes s (String c "") = negb (lacks c s).
Proof.
  induction s as [|x s IH]; [reflexivity|].
  cbn [includes startsWith lacks]. rewrite IH.
  destruct s; destruct (Ascii.eqb x c); reflexivity.
Qed.

Lemma occurs_in_app q after s : occurs_in (q +:+ after) s -> occurs_in q s.
Proof.
  intros (before & rest & ->). exists before, (after +:+ rest). now rewrite append_assoc.
Qed.

End StringFacts.

Module LoginFacts.
Import JSString Search Login SearchFacts StringFacts.

(** X18.  The address sent to the sign-in call always contains an at
    sign, and entering it again gives it back unchanged. *)
Theorem login_email_normalised value :
  includes (login_email value) "@" = true
  /\ login_email (login_email value) = login_email value.
Proof.
  unfold login_email.
  destruct (includes (trim value) "@") eqn:Hat; cbn [negb].
  - split; [exact Hat|]. now rewrite trim_idem, Hat.
  - assert (Hin : includes (trim value +:+ "@" +:+ DOMAIN) "@" = true).
    { apply includes_spec. now exists (trim value), DOMAIN. }
    split; [exact Hin|].
    assert (Htrim : trim (trim value +:+ "@" +:+ DOMAIN) = trim value +:+ "@" +:+ DOMAIN).
    { unfold trim at 1. rewrite trimStart_fixed.
      - now rewrite trimEnd_app_visible.
      - pose proof (trim_visible value) as Hv. now destruct (trim value). }
    now rewrite Htrim, Hin.
Qed.

(** X19.  For a short id, entered without an at sign, the name that the
    header shows for the address built from it is the id as typed, without
    the spaces around it. *)
Theorem userEmail_login_email value :
  includes (trim value) "@" = false ->
  userEmail (login_email value) = trim value.
Proof.
  intros Hat. unfold userEmail, login_email. rewrite Hat. cbn [negb].
  change ("@" +:+ DOMAIN) with (String "@"%char DOMAIN).
  apply ISOFacts.split_first_app.
  rewrite includes_char in Hat. now apply negb_false_iff in Hat.
Qed.

Lemma userEmail_login_email_witness :
  userEmail (login_email "  kim ") = trim "  kim ".
Proof.
  apply (userEmail_login_email "  kim ").
  vm_compute. reflexivity.
Defined.

End LoginFacts.

Module NarrowingFacts.
Import JSString Search Examples SearchFacts StringFacts.

Lemma filter_sublist {A} (f g : A -> bool) (l : list A) :
  (forall x, f x = true -> g x = true) ->
  sublist (List.filter f l) (List.filter g l).
Proof.
  intros Hfg. induction l as [|x l IH]; simpl; [constructor|].
  destruct (f x) eqn:Hf.
  - rewrite (Hfg x Hf). now constructor.
  - destruct (g x); [now constructor|exact IH].
Qed.

Lemma includes_app s q after : includes s (q +:+ after) = true -> includes s q = true.
Proof. rewrite !includes_spec. apply occurs_in_app. Qed.

Lemma matches_query_app q after s :
  matches_query (q +:+ after) s = true -> matches_query q s = true.
Proof.
  unfold matches_query. rewrite !orb_true_iff. intros [H|H].
  - left. exact (includes_app _ _ _ H).
  - right. destruct (Schedule.description s) as [d|]; [|discriminate].
    apply andb_prop in H as [Hd H]. rewrite Hd. exact (includes_app _ _ _ H).
Qed.

(** The query of a longer input begins with the query of the shorter
    one. *)
Lemma query_app value more :
  trim (toLowerCase value) <> "" ->
  exists after,
    trim (toLowerCase (value +:+ more)) = trim (toLowerCase value) +:+ after.
Proof.
  intros Hq. unfold trim in *. rewrite toLowerCase_app, trimStart_app.
  - apply trimEnd_app_prefix.
  - intros Hs. apply Hq. now rewrite Hs.
Qed.



End NarrowingFacts.

(** ** Sign-in state, permissions and views *)

Module AuthFacts.
Import JSString Auth.

(** X20.  When the role of a signed-in user cannot be read (a backend
    call fails, or the query returns no row), the user is signed in as a
    plain teacher, whatever role the state held before: the Add Schedule
    button is hidden, the schedule form refuses to open and the admin view
    is refused. *)
Theorem syncUser_failure_grants_nothing u upsert fetch st :
  upsert = Rejected \/ fetch = Rejected \/ fetch = Resolved None ->
  user (syncUser (Some u) upsert fetch st) = Some u
  /\ role (syncUser (Some u) upsert fetch st) = Some "teacher"
  /\ add_button_visible (syncUser (Some u) upsert fetch st) = false
  /\ modal_gate (syncUser (Some u) upsert fetch st) = NoPermission
  /\ admin_denied (syncUser (Some u) upsert fetch st) = true.
Proof.
  intros [-> | [-> | ->]]; try destruct upsert; try destruct fetch as [|[?|]];
    now repeat split.
Qed.

Lemma syncUser_failure_grants_nothing_witness :
  user (syncUser (Some {| id := "u-1"; email := "kim@pogok.hs.kr" |}) (Resolved ()) Rejected
          {| user := None; role := Some "admin"; status := Some "active";
             viewMode := "calendar" |})
  = Some {| id := "u-1"; email := "kim@pogok.hs.kr" |}
  /\ role (syncUser (Some {| id := "u-1"; email := "kim@pogok.hs.kr" |}) (Resolved ()) Rejected
          {| user := None; role := Some "admin"; status := Some "active";
             viewMode := "calendar" |})
     = Some "teacher"
  /\ add_button_visible
       (syncUser (Some {| id := "u-1"; email := "kim@pogok.hs.kr" |}) (Resolved ()) Rejected
          {| user := None; role := Some "admin"; status := Some "active";
             viewMode := "calendar" |})
     = false
  /\ modal_gate
       (syncUser (Some {| id := "u-1"; email := "kim@pogok.hs.kr" |}) (Resolved ()) Rejected
          {| user := None; role := Some "admin"; status := Some "active";
             viewMode := "calendar" |})
     = NoPermission
  /\ admin_denied
       (syncUser (Some {| id := "u-1"; email := "kim@pogok.hs.kr" |}) (Resolved ()) Rejected
          {| user := None; role := Some "admin"; status := Some "active";
             viewMode := "calendar" |})
     = true.
Proof.
  apply (syncUser_failure_grants_nothing {| id := "u-1"; email := "kim@pogok.hs.kr" |}
           (Resolved ()) Rejected).
  right. left. reflexivity.
Defined.

(** X21.  After [syncUser], whatever the backend answered, the Add
    Schedule button is shown exactly when the schedule form would open:
    the two checks agree because [syncUser] never leaves a role without a
    user. *)
Theorem syncUser_button_matches_gate authUser upsert fetch st :
  add_button_visible (syncUser authUser upsert fetch st) = true
  <-> modal_gate (syncUser authUser upsert fetch st) = Proceed.
Proof.
  unfold add_button_visible, modal_gate.
  destruct authUser as [u|]; [|now split].
  assert (Hu : user (syncUser (Some u) upsert fetch st) = Some u)
    by (destruct upsert, fetch as [|[?|]]; reflexivity).
  rewrite Hu. destruct (canEdit _); now split.
Qed.

(** X22.  A role chosen in the role select of the admin page lets its
    user add schedules, or open the admin view, only if it is ["admin"]:
    the select stores ["head"] for a head teacher, while the permission
    checks look for ["head_teacher"]. *)
Theorem role_select_grants u newRole (user_roles : gmap string role_row) row st :
  newRole ∈ role_options ->
  user_roles !! id u = Some row ->
  (add_button_visible
     (syncUser (Some u) (Resolved ())
        (Resolved (updateUserRole true true (id u) newRole user_roles !! id u)) st) = true
   <-> newRole = "admin")
  /\ (admin_denied
        (syncUser (Some u) (Resolved ())
           (Resolved (updateUserRole true true (id u) newRole user_roles !! id u)) st) = false
      <-> newRole = "admin").
Proof.
  intros Hin Hrow. unfold updateUserRole. cbn [andb].
  rewrite lookup_alter_eq, Hrow.
  cbn [fmap option_fmap option_map syncUser row_role row_status].
  unfold add_button_visible, admin_denied, canEdit. cbn [user role].
  assert (Hcases : newRole = "teacher" \/ newRole = "head" \/ newRole = "admin").
  { unfold role_options in Hin. rewrite !elem_of_cons, elem_of_nil in Hin. tauto. }
  destruct Hcases as [-> | [-> | ->]];
    (split; split; intros H; first [discriminate H | reflexivity]).
Qed.

Lemma role_select_grants_witness :
  (add_button_visible
     (syncUser (Some {| id := "u-1"; email := "kim@pogok.hs.kr" |}) (Resolved ())
        (Resolved (updateUserRole true true "u-1" "head"
                     {[ "u-1" := {| row_role := Some "teacher"; row_status := Some "active" |} ]}
                   !! "u-1"))
        {| user := None; role := None; status := None; viewMode := "calendar" |}) = true
   <-> "head" = "admin")
  /\ (admin_denied
        (syncUser (Some {| id := "u-1"; email := "kim@pogok.hs.kr" |}) (Resolved ())
           (Resolved (updateUserRole true true "u-1" "head"
                        {[ "u-1" := {| row_role := Some "teacher";
                                       row_status := Some "active" |} ]}
                      !! "u-1"))
           {| user := None; role := None; status := None; viewMode := "calendar" |}) = false
      <-> "head" = "admin").
Proof.
  apply (role_select_grants {| id := "u-1"; email := "kim@pogok.hs.kr" |} "head"
           {[ "u-1" := {| row_role := Some "teacher"; row_status := Some "active" |} ]}
           {| row_role := Some "teacher"; row_status := Some "active" |}).
  - unfold role_options. apply elem_of_cons. right. apply elem_of_cons. now left.
  - reflexivity.
Defined.

End AuthFacts.

Module ViewsFacts.
Import JSString Auth Views.

Section Fetch.

Variable try_page : string -> option string.

(** Loading a page changes the container only. *)
Lemma load_page_frame path message w :
  app (load_page try_page path message w) = app w
  /\ localStorage (load_page try_page path message w) = localStorage w
  /\ alerts (load_page try_page path message w) = alerts w.
Proof. unfold load_page. now destruct (try_page path). Qed.

(** The redirect of a refused admin view is a navigation to the
    calendar. *)
Lemma navigate_calendar_eq w : navigate_calendar try_page w = navigate try_page "calendar" w.
Proof. reflexivity. Qed.

(** X23.  A navigation to the admin view by anyone but a signed-in
    administrator shows the alert and then behaves as a navigation to the
    calendar: the calendar is what is displayed, recorded as the current
    view and remembered as the last view. *)
Theorem navigate_admin_denied w :
  admin_denied (app w) = true ->
  navigate try_page "admin" w
  = navigate try_page "calendar"
      {| app := app w; localStorage := localStorage w; container := container w;
         alerts := alerts w ++ ["접근 권한이 없습니다."] |}.
Proof.
  intros Hden. unfold navigate, loadView. cbn [String.eqb Ascii.eqb Bool.eqb].
  unfold remember, set_viewMode, set_container. cbn [app localStorage container alerts].
  assert (Hd : admin_denied
                 {| user := user (app w); role := role (app w); status := status (app w);
                    viewMode := "admin" |} = true) by exact Hden.
  rewrite Hd. unfold navigate_calendar, remember, set_viewMode, set_container.
  cbn [app localStorage container alerts user role status viewMode].
  now rewrite insert_insert_eq.
Qed.

(** X24.  After any navigation the remembered last view is the current
    view, the admin view is current only for a signed-in administrator,
    and the sign-in state is what it was. *)
Theorem navigate_invariant viewName w :
  localStorage (navigate try_page viewName w) !! "pogok_last_view"
  = Some (viewMode (app (navigate try_page viewName w)))
  /\ (viewMode (app (navigate try_page viewName w)) = "admin" ->
      admin_denied (app (navigate try_page viewName w)) = false)
  /\ user (app (navigate try_page viewName w)) = user (app w)
  /\ role (app (navigate try_page viewName w)) = role (app w)
  /\ status (app (navigate try_page viewName w)) = status (app w).
Proof.
  unfold navigate, loadView.
  set (w1 := set_container Blank (remember viewName w)).
  assert (H1 : localStorage w1 !! "pogok_last_view" = Some (viewMode (app w1))
               /\ viewMode (app w1) = viewName
               /\ user (app w1) = user (app w) /\ role (app w1) = role (app w)
               /\ status (app w1) = status (app w)
               /\ admin_denied (app w1) = admin_denied (app w)).
  { unfold w1, remember, set_viewMode, set_container. cbn. rewrite lookup_insert_eq.
    now repeat split. }
  destruct H1 as (Hl & Hv & Hu & Hr & Hs & Hd).
  fold w1.
  destruct (String.eqb_spec viewName "calendar") as [Hc|Hc].
  { destruct (load_page_frame "pages/calendar.html" "캘린더 로딩 실패" w1) as (-> & -> & _).
    repeat split; try assumption. rewrite Hv, Hc. discriminate. }
  destruct (String.eqb_spec viewName "login") as [Hn|Hn].
  { destruct (load_page_frame "pages/login.html" "페이지를 불러올 수 없습니다." w1)
      as (-> & -> & _).
    repeat split; try assumption. rewrite Hv, Hn. discriminate. }
  destruct (String.eqb_spec viewName "admin") as [Ha|Ha].
  - destruct (admin_denied (app w1)) eqn:Hden.
    + unfold navigate_calendar.
      destruct (load_page_frame "pages/calendar.html" "캘린더 로딩 실패"
                  (set_container Blank (remember "calendar"
                     {| app := app w1; localStorage := localStorage w1;
                        container := container w1;
                        alerts := alerts w1 ++ ["접근 권한이 없습니다."] |})))
        as (-> & -> & _).
      unfold remember, set_viewMode, set_container. cbn. rewrite lookup_insert_eq.
      repeat split; try assumption. discriminate.
    + destruct (load_page_frame "pages/admin.html" "페이지를 불러올 수 없습니다." w1)
        as (-> & -> & _).
      repeat split; auto.
  - repeat split; try assumption. rewrite Hv. intros ->. contradiction.
Qed.


(** X26.  Once a sign-in has been processed, the login page is no longer
    the current view: from the login view the application moves to the
    calendar, from any other view it stays where it is; either way the
    user of the session is the signed-in user. *)
Theorem sign_in_leaves_login u upsert fetch w :
  user (app (onAuthStateChange try_page (Some u) upsert fetch w)) = Some u
  /\ viewMode (app (onAuthStateChange try_page (Some u) upsert fetch w)) <> "login"
  /\ (viewMode (app w) = "login" ->
      viewMode (app (onAuthStateChange try_page (Some u) upsert fetch w)) = "calendar")
  /\ (viewMode (app w) <> "login" ->
      viewMode (app (onAuthStateChange try_page (Some u) upsert fetch w)) = viewMode (app w)
      /\ container (onAuthStateChange try_page (Some u) upsert fetch w) = container w).
Proof.
  unfold onAuthStateChange.
  assert (Hu : user (syncUser (Some u) upsert fetch (app w)) = Some u)
    by (destruct upsert, fetch as [|[?|]]; reflexivity).
  assert (Hv : viewMode (syncUser (Some u) upsert fetch (app w)) = viewMode (app w))
    by (destruct upsert, fetch as [|[?|]]; reflexivity).
  cbn [app]. rewrite Hv. cbn [andb].
  assert (Hs : bool_decide (Some u <> None) = true) by now apply bool_decide_eq_true.
  rewrite Hs. cbn [andb].
  destruct (String.eqb_spec (viewMode (app w)) "login") as [Hlogin|Hother].
  - unfold navigate, loadView. cbn [String.eqb Ascii.eqb Bool.eqb].
    match goal with
    | |- context [load_page try_page ?p ?msg ?x] =>
        destruct (load_page_frame p msg x) as (Happ & _)
    end.
    rewrite Happ. unfold set_container, remember, set_viewMode.
    cbn [app user viewMode]. rewrite Hu.
    repeat split; try discriminate; congruence.
  - cbn [app container]. rewrite Hu, Hv. repeat split; try assumption; congruence.
Qed.

End Fetch.

Lemma navigate_admin_denied_witness :
  navigate (fun _ => Some "<div></div>") "admin"
    {| app := {| user := Some {| id := "u-1"; email := "kim@pogok.hs.kr" |};
                 role := Some "teacher"; status := Some "active"; viewMode := "calendar" |};
       localStorage := ∅; container := Blank; alerts := [] |}
  = navigate (fun _ => Some "<div></div>") "calendar"
      {| app := {| user := Some {| id := "u-1"; email := "kim@pogok.hs.kr" |};
                   role := Some "teacher"; status := Some "active";
                   viewMode := "calendar" |};
         localStorage := ∅; container := Blank;
         alerts := [] ++ ["접근 권한이 없습니다."] |}.
Proof.
  apply (navigate_admin_denied (fun _ => Some "<div></div>")
           {| app := {| user := Some {| id := "u-1"; email := "kim@pogok.hs.kr" |};
                        role := Some "teacher"; status := Some "active";
                        viewMode := "calendar" |};
              localStorage := ∅; container := Blank; alerts := [] |}).
  reflexivity.
Defined.


End ViewsFacts.

(** ** Spreadsheet import *)

Module ExcelFacts.
Import JSString ExcelImport Examples MoreExamples.

Lemma importable_spec row :
  importable row = true
  <-> (2 <= length row)%nat /\ truthy (at_index row 0) = true
      /\ truthy (at_index row 1) = true.
Proof.
  unfold importable. rewrite !andb_true_iff, negb_true_iff, Nat.ltb_ge. tauto.
Qed.

(** A row that is not importable is skipped. *)
Lemma import_row_skip depts user row :
  importable row = false -> import_row depts user row = inr None.
Proof.
  unfold importable, import_row. destruct (length row <? 2)%nat; [reflexivity|].
  cbn [negb andb]. intros H.
  destruct (truthy (at_index row 0)), (truthy (at_index row 1)); try discriminate;
    reflexivity.
Qed.

(** What the callback does with an importable row. *)
Lemma import_row_importable depts user row :
  importable row = true ->
  import_row depts user row
  = match depts ≫= (fun depts => match_dept depts (at_index row 4)), user with
    | Some dept, Some user =>
        inr (Some {| title := at_index row 0;
                     start_date := at_index row 1;
                     end_date := cell_or (at_index row 2) (at_index row 1);
                     description := cell_or (at_index row 3) (Text "");
                     dept_id := Department.id dept;
                     visibility := map_visibility (at_index row 5);
                     author_id := Auth.id user;
                     is_printable := true |})
    | _, _ => inl TypeError
    end.
Proof.
  unfold importable, import_row. destruct (length row <? 2)%nat; [discriminate|].
  cbn [negb andb]. intros H.
  destruct (truthy (at_index row 0)), (truthy (at_index row 1)); try discriminate.
  reflexivity.
Qed.

Lemma match_dept_elem_of depts deptName d :
  match_dept depts deptName = Some d -> d ∈ depts.
Proof.
  unfold match_dept. destruct (List.find _ depts) as [d'|] eqn:Hfind.
  - intros [= <-]. apply find_some in Hfind as [Hin _]. now apply list_elem_of_In.
  - destruct depts as [|d0 ds]; [discriminate|]. intros [= <-]. apply list_elem_of_here.
Qed.

Lemma match_dept_nonempty d0 ds deptName : is_Some (match_dept (d0 :: ds) deptName).
Proof. unfold match_dept. destruct (List.find _ _); eauto. Qed.

Lemma cell_or_truthy a b : truthy b = true -> truthy (cell_or a b) = true.
Proof. unfold cell_or. now destruct (truthy a) eqn:Ha. Qed.

Lemma map_visibility_values c : map_visibility c ∈ ["public"; "dept"; "internal"].
Proof.
  unfold map_visibility. repeat destruct (decide _);
    rewrite !elem_of_cons; tauto.
Qed.

(** The loop keeps what is already staged, adds the rows it stages, and
    counts them. *)
Lemma import_rows_spec depts user rawRows acc n :
  exists staged,
    (import_rows depts user rawRows acc n).1.1 = acc ++ staged
    /\ (import_rows depts user rawRows acc n).1.2 = n + Z.of_nat (length staged)
    /\ Forall (fun r => exists row, row ∈ rawRows /\ import_row depts user row = inr (Some r))
              staged.
Proof.
  revert acc n. induction rawRows as [|row rest IH]; intros acc n; simpl.
  - exists []. rewrite app_nil_r. simpl. split; [reflexivity|]. split; [lia|constructor].
  - destruct (import_row depts user row) as [e|[r|]] eqn:Hrow.
    + exists []. rewrite app_nil_r. simpl. split; [reflexivity|]. split; [lia|constructor].
    + destruct (IH (acc ++ [r]) (n + 1)) as (staged & H1 & H2 & H3).
      exists (r :: staged). rewrite H1, H2, <- app_assoc. simpl.
      split; [reflexivity|]. split; [lia|]. constructor.
      * exists row. split; [apply list_elem_of_here|exact Hrow].
      * eapply Forall_impl; [exact H3|]. intros r' (row' & Hin & Hr').
        exists row'. split; [now apply list_elem_of_further|exact Hr'].
    + destruct (IH acc n) as (staged & H1 & H2 & H3).
      exists staged. split; [exact H1|]. split; [exact H2|].
      eapply Forall_impl; [exact H3|]. intros r' (row' & Hin & Hr').
      exists row'. split; [now apply list_elem_of_further|exact Hr'].
Qed.

(** What [onload] stages comes from rows after the header. *)
Lemma onload_parsedData depts user rawRows m :
  Forall (fun r => exists row,
            row ∈ tail rawRows /\ import_row depts user row = inr (Some r))
         (parsedData (onload depts user rawRows m).1).
Proof.
  unfold onload.
  destruct (import_rows_spec depts user (tail rawRows) [] 0) as (staged & H1 & _ & H3).
  destruct (import_rows depts user (tail rawRows) [] 0) as [[parsed count] thrown].
  simpl in H1. subst parsed. now destruct thrown.
Qed.

(** X27.  Every row the import stages for upload, also when the handler
    ends in an exception, has a title and a start that are not empty, an
    end that is not empty (the start when the sheet gives none), a
    description that is text or a non-empty cell, one of the three
    visibility values, the id of a loaded department and the id of the
    signed-in user. *)
Theorem onload_staged_rows depts user rawRows m r :
  r ∈ parsedData (onload depts user rawRows m).1 ->
  truthy (title r) = true
  /\ truthy (start_date r) = true
  /\ truthy (end_date r) = true
  /\ (description r = Text "" \/ truthy (description r) = true)
  /\ visibility r ∈ ["public"; "dept"; "internal"]
  /\ (exists ds d, depts = Some ds /\ d ∈ ds /\ dept_id r = Department.id d)
  /\ (exists u, user = Some u /\ author_id r = Auth.id u)
  /\ is_printable r = true.
Proof.
  intros Hin.
  pose proof (onload_parsedData depts user rawRows m) as Hall.
  rewrite Forall_forall in Hall. destruct (Hall r Hin) as (row & _ & Hrow).
  destruct (importable row) eqn:Himp;
    [|rewrite import_row_skip in Hrow by exact Himp; discriminate].
  rewrite import_row_importable in Hrow by exact Himp.
  apply importable_spec in Himp as (_ & Ht & Hs).
  destruct depts as [ds|]; [|discriminate]. cbn [mbind option_bind] in Hrow.
  destruct (match_dept ds (at_index row 4)) as [d|] eqn:Hd; [|discriminate].
  destruct user as [u|]; [|discriminate].
  injection Hrow as <-. cbn.
  split; [exact Ht|]. split; [exact Hs|]. split; [now apply cell_or_truthy|].
  split.
  { unfold cell_or. destruct (truthy (at_index row 3)) eqn:H3; [now right|now left]. }
  split; [apply map_visibility_values|]. split; [|split; [now exists u|reflexivity]].
  exists ds, d. split; [reflexivity|]. split; [|reflexivity].
  exact (match_dept_elem_of _ _ _ Hd).
Qed.

Lemma onload_staged_rows_witness :
  truthy (Text "Field trip") = true
  /\ truthy (Text "2025-05-02") = true
  /\ truthy (Text "2025-05-02") = true
  /\ (Text "" = Text "" \/ truthy (Text "") = true)
  /\ "internal" ∈ ["public"; "dept"; "internal"]
  /\ (exists ds d, Some [science_department] = Some ds /\ d ∈ ds
                   /\ "9" = Department.id d)
  /\ (exists u, Some kim = Some u /\ "u-1" = Auth.id u)
  /\ true = true.
Proof.
  apply (onload_staged_rows (Some [science_department]) (Some kim) sheet closed_modal
           {| title := Text "Field trip"; start_date := Text "2025-05-02";
              end_date := Text "2025-05-02"; description := Text "";
              dept_id := "9"; visibility := "internal"; author_id := "u-1";
              is_printable := true |}).
  vm_compute. constructor.
Defined.

(** With a department loaded and a user signed in the callback never
    throws. *)
Lemma import_rows_loaded d0 ds u rawRows acc n :
  import_rows (Some (d0 :: ds)) (Some u) rawRows acc n
  = (acc ++ omap (fun row =>
               match import_row (Some (d0 :: ds)) (Some u) row with
               | inr (Some r) => Some r
               | _ => None
               end) rawRows,
     n + Z.of_nat (length (List.filter importable rawRows)), None).
Proof.
  revert acc n. induction rawRows as [|row rest IH]; intros acc n; simpl.
  - now rewrite app_nil_r, Z.add_0_r.
  - destruct (importable row) eqn:Himp.
    + rewrite import_row_importable by exact Himp. cbn [mbind option_bind].
      destruct (match_dept_nonempty d0 ds (at_index row 4)) as [d ->].
      rewrite IH, <- app_assoc. simpl. do 2 f_equal. lia.
    + rewrite import_row_skip by exact Himp. apply IH.
Qed.

Lemma omap_staged_length d0 ds u rawRows :
  length (omap (fun row =>
            match import_row (Some (d0 :: ds)) (Some u) row with
            | inr (Some r) => Some r
            | _ => None
            end) rawRows)
  = length (List.filter importable rawRows).
Proof.
  set (f := fun row => match import_row (Some (d0 :: ds)) (Some u) row with
                       | inr (Some r) => Some r
                       | _ => None
                       end).
  induction rawRows as [|row rest IH]; [reflexivity|].
  cbn [omap list_omap List.filter].
  destruct (importable row) eqn:Himp.
  - assert (Hf : exists r, f row = Some r).
    { unfold f. rewrite import_row_importable by exact Himp. cbn [mbind option_bind].
      destruct (match_dept_nonempty d0 ds (at_index row 4)) as [d ->]. eauto. }
    destruct Hf as [r ->]. cbn [length]. now rewrite IH.
  - assert (Hf : f row = None) by (unfold f; now rewrite import_row_skip).
    rewrite Hf. exact IH.
Qed.

(** X28.  With at least one department loaded and a user signed in, the
    import does not throw; it stages one row for every importable row
    after the header row, which is never read as data, shows that count,
    and enables the upload button when the count is positive (a count of
    zero leaves the button as it was). *)
Theorem onload_counts d0 ds u rawRows m :
  exists staged,
    onload (Some (d0 :: ds)) (Some u) rawRows m
    = ({| parsedData := staged;
          previewCount := Some (Z.of_nat (length staged));
          statusShown := true;
          uploadEnabled := if (0 <? Z.of_nat (length staged)) then true
                           else uploadEnabled m |}, None)
    /\ length staged = length (List.filter importable (tail rawRows)).
Proof.
  exists (omap (fun row =>
            match import_row (Some (d0 :: ds)) (Some u) row with
            | inr (Some r) => Some r
            | _ => None
            end) (tail rawRows)).
  unfold onload. rewrite import_rows_loaded. cbn [app].
  rewrite Z.add_0_l, <- (omap_staged_length d0 ds u (tail rawRows)).
  split; reflexivity.
Qed.

(** Without departments or without a user the callback throws at the
    first importable row and stages nothing before it. *)
Lemma import_rows_unloaded depts user rawRows acc n :
  depts = None \/ depts = Some [] \/ user = None ->
  import_rows depts user rawRows acc n
  = (acc, n, if existsb importable rawRows then Some TypeError else None).
Proof.
  intros Hun. revert acc n. induction rawRows as [|row rest IH]; intros acc n; simpl;
    [reflexivity|].
  destruct (importable row) eqn:Himp.
  - rewrite import_row_importable by exact Himp.
    destruct Hun as [-> | [-> | ->]]; cbn; [reflexivity|reflexivity|].
    now destruct (depts ≫= _).
  - rewrite import_row_skip by exact Himp. apply IH.
Qed.

(** X29.  While no department is loaded (the calendar view has not been
    shown, or the table is empty) or no user is signed in, the import
    stages nothing and an upload sends nothing; the handler ends in a
    [TypeError] exactly when the sheet has an importable row after its
    header, and then the count shown and the upload button stay as they
    were. *)
Theorem onload_unloaded depts user rawRows m :
  depts = None \/ depts = Some [] \/ user = None ->
  parsedData (onload depts user rawRows m).1 = []
  /\ upload_request (onload depts user rawRows m).1 = None
  /\ ((onload depts user rawRows m).2 = Some TypeError
      <-> Exists (fun row => importable row = true) (tail rawRows))
  /\ ((onload depts user rawRows m).2 = Some TypeError ->
      previewCount (onload depts user rawRows m).1 = previewCount m
      /\ statusShown (onload depts user rawRows m).1 = statusShown m
      /\ uploadEnabled (onload depts user rawRows m).1 = uploadEnabled m).
Proof.
  intros Hun. unfold onload, upload_request.
  rewrite (import_rows_unloaded depts user (tail rawRows) [] 0 Hun).
  destruct (existsb importable (tail rawRows)) eqn:Hex; cbn.
  - repeat split; try reflexivity. intros _.
    apply existsb_exists in Hex as (row & Hin & Himp).
    apply Exists_exists. exists row. split; [now apply list_elem_of_In|exact Himp].
  - repeat split; try discriminate.
    intros Hsome. exfalso. apply Exists_exists in Hsome as (row & Hin & Himp).
    assert (Ht : existsb importable (tail rawRows) = true).
    { apply existsb_exists. exists row. split; [now apply list_elem_of_In|exact Himp]. }
    congruence.
Qed.

Lemma onload_unloaded_witness :
  parsedData (onload None (Some kim) sheet closed_modal).1 = []
  /\ upload_request (onload None (Some kim) sheet closed_modal).1 = None
  /\ ((onload None (Some kim) sheet closed_modal).2 = Some TypeError
      <-> Exists (fun row => importable row = true) (tail sheet))
  /\ ((onload None (Some kim) sheet closed_modal).2 = Some TypeError ->
      previewCount (onload None (Some kim) sheet closed_modal).1 = previewCount closed_modal
      /\ statusShown (onload None (Some kim) sheet closed_modal).1
         = statusShown closed_modal
      /\ uploadEnabled (onload None (Some kim) sheet closed_modal).1
         = uploadEnabled closed_modal).
Proof.
  apply (onload_unloaded None (Some kim) sheet closed_modal).
  left. reflexivity.
Defined.

(** X30.  A row whose department cell names no loaded department (a
    misspelt name, an empty cell, a number) is staged under the first
    department of the list. *)
Theorem import_row_unknown_department d0 ds u row :
  importable row = true ->
  (forall d, d ∈ d0 :: ds -> Text (Department.dept_name d) <> at_index row 4) ->
  exists r,
    import_row (Some (d0 :: ds)) (Some u) row = inr (Some r)
    /\ dept_id r = Department.id d0.
Proof.
  intros Himp Hno. rewrite import_row_importable by exact Himp. cbn [mbind option_bind].
  assert (Hfind : List.find
                    (fun d => bool_decide (Text (Department.dept_name d) = at_index row 4))
                    (d0 :: ds) = None).
  { destruct (List.find _ (d0 :: ds)) as [d|] eqn:Hf; [|reflexivity].
    apply find_some in Hf as [Hin Hd]. apply bool_decide_eq_true in Hd.
    exfalso. apply (Hno d); [now apply list_elem_of_In|exact Hd]. }
  unfold match_dept. rewrite Hfind. cbn [head]. eexists. split; reflexivity.
Qed.

Lemma import_row_unknown_department_witness :
  exists r,
    import_row (Some [science_department]) (Some kim)
      [Text "Field trip"; Text "2025-05-02"; Undefined; Undefined; Text "Sience"]
    = inr (Some r)
    /\ dept_id r = Department.id science_department.
Proof.
  apply (import_row_unknown_department science_department [] kim
           [Text "Field trip"; Text "2025-05-02"; Undefined; Undefined; Text "Sience"]).
  - vm_compute. reflexivity.
  - intros d Hd. apply list_elem_of_singleton in Hd. subst d. vm_compute. discriminate.
Defined.

End ExcelFacts.
